(** * The MPTCP option engine of packetdrill (gtests/net/packetdrill/mptcp.c)

    A shallow embedding of the option rewriting and state tracking code of
    [mptcp.c]: the session state [mp_state], the queue of pending variable
    names, the variable table, the subflow list and the three option
    handlers with their per-packet entry point.

    C integers are [Z] with their wrap-around written out, memory is lists
    of bytes, and the host's byte order is a parameter of the model. *)

From Stdlib Require Import ZArith List Bool Lia.
Import ListNotations.
Local Open Scope Z_scope.

(** ** Bytes and byte order *)

Module Bytes.

(** The [n] low bytes of [v], least significant first. *)
Fixpoint le_bytes (n : nat) (v : Z) : list Z :=
  match n with
  | O => []
  | S k => (v mod 256) :: le_bytes k (v / 256)
  end.

(** The [n] low bytes of [v], most significant first (network order). *)
Definition be_bytes (n : nat) (v : Z) : list Z := rev (le_bytes n v).

Fixpoint le_decode (l : list Z) : Z :=
  match l with
  | [] => 0
  | b :: r => b + 256 * le_decode r
  end.

Definition be_decode (l : list Z) : Z := le_decode (rev l).

Definition is_byte (b : Z) : Prop := 0 <= b < 256.

End Bytes.
Export Bytes.

(** ** SHA-1 and HMAC-SHA1

    The engine takes both from the crypto library it links against; they are
    written here after FIPS 180-4 and RFC 2104 so that the derived values
    can be computed. *)

Module SHA1.

Definition add32 (x y : Z) : Z := (x + y) mod 2 ^ 32.

Definition rotl32 (n x : Z) : Z :=
  Z.lor (Z.shiftl x n mod 2 ^ 32) (Z.shiftr x (32 - n)).

Definition not32 (x : Z) : Z := 2 ^ 32 - 1 - x.

(** The round function and constant of round [t]. *)
Definition f (t : Z) (b c d : Z) : Z :=
  if t <? 20 then Z.lor (Z.land b c) (Z.land (not32 b) d)
  else if t <? 40 then Z.lxor (Z.lxor b c) d
  else if t <? 60 then Z.lor (Z.lor (Z.land b c) (Z.land b d)) (Z.land c d)
  else Z.lxor (Z.lxor b c) d.

Definition K (t : Z) : Z :=
  if t <? 20 then 0x5a827999
  else if t <? 40 then 0x6ed9eba1
  else if t <? 60 then 0x8f1bbcdc
  else 0xca62c1d6.

Record hash := Hash { ha : Z; hb : Z; hc : Z; hd : Z; he : Z }.

Definition H0 : hash :=
  Hash 0x67452301 0xefcdab89 0x98badcfe 0x10325476 0xc3d2e1f0.

(** [n] rounds from round [t] on; [win] holds the sixteen schedule words
    W(t) .. W(t+15). *)
Fixpoint rounds (n : nat) (t : Z) (win : list Z) (s : hash) : hash :=
  match n with
  | O => s
  | S k =>
      let w := nth 0 win 0 in
      let next :=
        rotl32 1 (Z.lxor (Z.lxor (Z.lxor (nth 13 win 0) (nth 8 win 0))
                                 (nth 2 win 0)) w) in
      let tmp :=
        add32 (add32 (add32 (add32 (rotl32 5 (ha s)) (f t (hb s) (hc s) (hd s)))
                            (he s)) w) (K t) in
      rounds k (t + 1) (tl win ++ [next])
             (Hash tmp (ha s) (rotl32 30 (hb s)) (hc s) (hd s))
  end.

(** Big-endian 32-bit words of a block of bytes. *)
Fixpoint words (n : nat) (l : list Z) : list Z :=
  match n with
  | O => []
  | S k => be_decode (firstn 4 l) :: words k (skipn 4 l)
  end.

Definition compress (h : hash) (block : list Z) : hash :=
  let r := rounds 80 0 (words 16 block) h in
  Hash (add32 (ha h) (ha r)) (add32 (hb h) (hb r)) (add32 (hc h) (hc r))
       (add32 (hd h) (hd r)) (add32 (he h) (he r)).

Fixpoint blocks (n : nat) (h : hash) (l : list Z) : hash :=
  match n with
  | O => h
  | S k => blocks k (compress h (firstn 64 l)) (skipn 64 l)
  end.

Definition pad (msg : list Z) : list Z :=
  let len := Z.of_nat (length msg) in
  msg ++ [0x80] ++ repeat 0 (Z.to_nat ((55 - len) mod 64))
      ++ be_bytes 8 (8 * len).

Definition digest_bytes (h : hash) : list Z :=
  be_bytes 4 (ha h) ++ be_bytes 4 (hb h) ++ be_bytes 4 (hc h)
    ++ be_bytes 4 (hd h) ++ be_bytes 4 (he h).

Definition sha1 (msg : list Z) : list Z :=
  let p := pad msg in
  digest_bytes (blocks (length p / 64) H0 p).

Definition xor_pad (c : Z) (key : list Z) : list Z :=
  map (fun b => Z.lxor b c) (key ++ repeat 0 (64 - length key)).

Definition hmac (key msg : list Z) : list Z :=
  let k := if (64 <? length key)%nat then sha1 key else key in
  sha1 (xor_pad 0x5c k ++ sha1 (xor_pad 0x36 k ++ msg)).

End SHA1.

(** ** Results of C code

    A C function either returns, or its behaviour is undefined: a null
    pointer is dereferenced or memory is read past what was allocated. *)

Inductive result (A : Type) : Type :=
  | Done (a : A)
  | Undefined.
Arguments Done {A} a.
Arguments Undefined {A}.

Definition bind {A B : Type} (r : result A) (k : A -> result B) : result B :=
  match r with
  | Done a => k a
  | Undefined => Undefined
  end.

Notation "x <- e ;; k" := (bind e (fun x => k))
  (at level 61, e at next level, right associativity).
Notation "' p <- e ;; k" := (bind e (fun p => k))
  (at level 61, p pattern, e at next level, right associativity).

(** ** The host *)

Inductive endianness := LittleEndian | BigEndian.

(** What the compiled code depends on: the byte order of the machine and
    the size in bytes of [unsigned long]. *)
Class Host := {
  byte_order : endianness;
  sizeof_unsigned_long : nat
}.

Section ByteOrder.
Context {host : Host}.

(** The bytes an [n]-byte integer occupies in memory, lowest address first,
    and the integer a run of bytes in memory holds. *)
Definition host_bytes (n : nat) (v : Z) : list Z :=
  match byte_order with
  | LittleEndian => le_bytes n v
  | BigEndian => be_bytes n v
  end.

Definition host_decode (l : list Z) : Z :=
  match byte_order with
  | LittleEndian => le_decode l
  | BigEndian => be_decode l
  end.

(** [htons], [htonl] and [htobe64] return the integer whose bytes in memory
    are the argument's bytes in network order; [ntohs] reads one back. *)
Definition htons (x : Z) : Z := host_decode (be_bytes 2 x).
Definition htonl (x : Z) : Z := host_decode (be_bytes 4 x).
Definition htobe64 (x : Z) : Z := host_decode (be_bytes 8 x).
Definition ntohs (x : Z) : Z := be_decode (host_bytes 2 x).
Definition ntohl (x : Z) : Z := be_decode (host_bytes 4 x).

End ByteOrder.

(** ** Status codes *)

(** Modelled from the spec: the status codes are declared in a header that
    is not part of the sources at hand; the exit codes of the spec are OK
    and the errors, and the code tests a status with [if(error)], so
    [STATUS_OK] is zero and [STATUS_ERR] is not. *)
Definition STATUS_OK : Z := 0.
Definition STATUS_ERR : Z := -1.

(** C's [a || b] on two [int]s. *)
Definition c_or (a b : Z) : Z :=
  if negb (a =? 0) || negb (b =? 0) then 1 else 0.

(** The direction of a packet: inbound (packetdrill to kernel), outbound
    (kernel to packetdrill); [DIRECTION_INVALID] stands for any other value
    of the [unsigned direction] argument. *)
Inductive direction_t :=
  | DIRECTION_INVALID
  | DIRECTION_INBOUND
  | DIRECTION_OUTBOUND.

(** ** Packets *)

Inductive ip_address :=
  | IPv4 (a : Z)
  | IPv6 (a : Z).

Record ipv4_hdr := {
  ipv4_ihl : Z;
  ipv4_src_ip : Z;
  ipv4_dst_ip : Z
}.

Record ipv6_hdr := {
  ipv6_src_ip : Z;
  ipv6_dst_ip : Z
}.

(** The fields of the TCP header the engine reads; the ports are the 16-bit
    integers the header holds in memory (network order on the wire). *)
Record tcp_hdr := {
  tcp_src_port : Z;
  tcp_dst_port : Z;
  tcp_syn : bool;
  tcp_ack : bool;
  tcp_doff : Z
}.

Definition ip_from_ipv4 (a : Z) : ip_address := IPv4 a.
Definition ip_from_ipv6 (a : Z) : ip_address := IPv6 a.

(** A TCP option, [struct tcp_option], with one field for each member path
    the engine reads or writes ([data.mp_join.syn.address_id] is
    [mp_join_syn_address_id], and so on).  The struct is declared in a
    header; the model keeps members the code names differently apart. *)
Record tcp_option := Build_tcp_option {
  opt_kind : Z;
  opt_length : Z;
  mp_capable_subtype : Z;
  mp_capable_syn_key : Z;
  mp_capable_no_syn_sender_key : Z;
  mp_capable_no_syn_receiver_key : Z;
  mp_join_syn_address_id : Z;
  mp_join_syn_no_ack_receiver_token : Z;
  mp_join_syn_no_ack_sender_random_number : Z;
  mp_join_syn_ack_sender_random_number : Z;
  mp_join_syn_ack_sender_hmac : Z;
  mp_join_no_syn_sender_hmac : list Z;
  dss_flag_dsn : bool;
  dss_flag_dack : bool;
  dss_dsn_data_seq_nbr_8oct : Z;
  dss_dsn_w_cs_data_level_length : Z;
  dss_dsn_w_cs_subflow_seq_nbr : Z;
  dss_dsn_w_cs_checksum : Z;
  dss_dsn_wo_cs_data_level_length : Z;
  dss_dsn_wo_cs_subflow_seq_nbr : Z;
  dss_dack_data_ack_8oct : Z
}.

Definition with_mp_capable_syn_key (v : Z) (r : tcp_option) : tcp_option :=
  Build_tcp_option (opt_kind r) (opt_length r) (mp_capable_subtype r) v
    (mp_capable_no_syn_sender_key r) (mp_capable_no_syn_receiver_key r)
    (mp_join_syn_address_id r) (mp_join_syn_no_ack_receiver_token r)
    (mp_join_syn_no_ack_sender_random_number r)
    (mp_join_syn_ack_sender_random_number r) (mp_join_syn_ack_sender_hmac r)
    (mp_join_no_syn_sender_hmac r) (dss_flag_dsn r) (dss_flag_dack r)
    (dss_dsn_data_seq_nbr_8oct r) (dss_dsn_w_cs_data_level_length r)
    (dss_dsn_w_cs_subflow_seq_nbr r) (dss_dsn_w_cs_checksum r)
    (dss_dsn_wo_cs_data_level_length r) (dss_dsn_wo_cs_subflow_seq_nbr r)
    (dss_dack_data_ack_8oct r).

Definition with_mp_capable_no_syn_sender_key (v : Z) (r : tcp_option) : tcp_option :=
  Build_tcp_option (opt_kind r) (opt_length r) (mp_capable_subtype r)
    (mp_capable_syn_key r) v (mp_capable_no_syn_receiver_key r)
    (mp_join_syn_address_id r) (mp_join_syn_no_ack_receiver_token r)
    (mp_join_syn_no_ack_sender_random_number r)
    (mp_join_syn_ack_sender_random_number r) (mp_join_syn_ack_sender_hmac r)
    (mp_join_no_syn_sender_hmac r) (dss_flag_dsn r) (dss_flag_dack r)
    (dss_dsn_data_seq_nbr_8oct r) (dss_dsn_w_cs_data_level_length r)
    (dss_dsn_w_cs_subflow_seq_nbr r) (dss_dsn_w_cs_checksum r)
    (dss_dsn_wo_cs_data_level_length r) (dss_dsn_wo_cs_subflow_seq_nbr r)
    (dss_dack_data_ack_8oct r).

Definition with_mp_capable_no_syn_receiver_key (v : Z) (r : tcp_option) : tcp_option :=
  Build_tcp_option (opt_kind r) (opt_length r) (mp_capable_subtype r)
    (mp_capable_syn_key r) (mp_capable_no_syn_sender_key r) v
    (mp_join_syn_address_id r) (mp_join_syn_no_ack_receiver_token r)
    (mp_join_syn_no_ack_sender_random_number r)
    (mp_join_syn_ack_sender_random_number r) (mp_join_syn_ack_sender_hmac r)
    (mp_join_no_syn_sender_hmac r) (dss_flag_dsn r) (dss_flag_dack r)
    (dss_dsn_data_seq_nbr_8oct r) (dss_dsn_w_cs_data_level_length r)
    (dss_dsn_w_cs_subflow_seq_nbr r) (dss_dsn_w_cs_checksum r)
    (dss_dsn_wo_cs_data_level_length r) (dss_dsn_wo_cs_subflow_seq_nbr r)
    (dss_dack_data_ack_8oct r).

Definition with_mp_join_syn_address_id (v : Z) (r : tcp_option) : tcp_option :=
  Build_tcp_option (opt_kind r) (opt_length r) (mp_capable_subtype r)
    (mp_capable_syn_key r) (mp_capable_no_syn_sender_key r)
    (mp_capable_no_syn_receiver_key r) v
    (mp_join_syn_no_ack_receiver_token r)
    (mp_join_syn_no_ack_sender_random_number r)
    (mp_join_syn_ack_sender_random_number r) (mp_join_syn_ack_sender_hmac r)
    (mp_join_no_syn_sender_hmac r) (dss_flag_dsn r) (dss_flag_dack r)
    (dss_dsn_data_seq_nbr_8oct r) (dss_dsn_w_cs_data_level_length r)
    (dss_dsn_w_cs_subflow_seq_nbr r) (dss_dsn_w_cs_checksum r)
    (dss_dsn_wo_cs_data_level_length r) (dss_dsn_wo_cs_subflow_seq_nbr r)
    (dss_dack_data_ack_8oct r).

Definition with_mp_join_syn_no_ack_receiver_token (v : Z) (r : tcp_option) : tcp_option :=
  Build_tcp_option (opt_kind r) (opt_length r) (mp_capable_subtype r)
    (mp_capable_syn_key r) (mp_capable_no_syn_sender_key r)
    (mp_capable_no_syn_receiver_key r) (mp_join_syn_address_id r) v
    (mp_join_syn_no_ack_sender_random_number r)
    (mp_join_syn_ack_sender_random_number r) (mp_join_syn_ack_sender_hmac r)
    (mp_join_no_syn_sender_hmac r) (dss_flag_dsn r) (dss_flag_dack r)
    (dss_dsn_data_seq_nbr_8oct r) (dss_dsn_w_cs_data_level_length r)
    (dss_dsn_w_cs_subflow_seq_nbr r) (dss_dsn_w_cs_checksum r)
    (dss_dsn_wo_cs_data_level_length r) (dss_dsn_wo_cs_subflow_seq_nbr r)
    (dss_dack_data_ack_8oct r).

Definition with_mp_join_syn_no_ack_sender_random_number (v : Z) (r : tcp_option) : tcp_option :=
  Build_tcp_option (opt_kind r) (opt_length r) (mp_capable_subtype r)
    (mp_capable_syn_key r) (mp_capable_no_syn_sender_key r)
    (mp_capable_no_syn_receiver_key r) (mp_join_syn_address_id r)
    (mp_join_syn_no_ack_receiver_token r) v
    (mp_join_syn_ack_sender_random_number r) (mp_join_syn_ack_sender_hmac r)
    (mp_join_no_syn_sender_hmac r) (dss_flag_dsn r) (dss_flag_dack r)
    (dss_dsn_data_seq_nbr_8oct r) (dss_dsn_w_cs_data_level_length r)
    (dss_dsn_w_cs_subflow_seq_nbr r) (dss_dsn_w_cs_checksum r)
    (dss_dsn_wo_cs_data_level_length r) (dss_dsn_wo_cs_subflow_seq_nbr r)
    (dss_dack_data_ack_8oct r).

Definition with_mp_join_syn_ack_sender_random_number (v : Z) (r : tcp_option) : tcp_option :=
  Build_tcp_option (opt_kind r) (opt_length r) (mp_capable_subtype r)
    (mp_capable_syn_key r) (mp_capable_no_syn_sender_key r)
    (mp_capable_no_syn_receiver_key r) (mp_join_syn_address_id r)
    (mp_join_syn_no_ack_receiver_token r)
    (mp_join_syn_no_ack_sender_random_number r) v
    (mp_join_syn_ack_sender_hmac r) (mp_join_no_syn_sender_hmac r)
    (dss_flag_dsn r) (dss_flag_dack r) (dss_dsn_data_seq_nbr_8oct r)
    (dss_dsn_w_cs_data_level_length r) (dss_dsn_w_cs_subflow_seq_nbr r)
    (dss_dsn_w_cs_checksum r) (dss_dsn_wo_cs_data_level_length r)
    (dss_dsn_wo_cs_subflow_seq_nbr r) (dss_dack_data_ack_8oct r).

Definition with_mp_join_syn_ack_sender_hmac (v : Z) (r : tcp_option) : tcp_option :=
  Build_tcp_option (opt_kind r) (opt_length r) (mp_capable_subtype r)
    (mp_capable_syn_key r) (mp_capable_no_syn_sender_key r)
    (mp_capable_no_syn_receiver_key r) (mp_join_syn_address_id r)
    (mp_join_syn_no_ack_receiver_token r)
    (mp_join_syn_no_ack_sender_random_number r)
    (mp_join_syn_ack_sender_random_number r) v (mp_join_no_syn_sender_hmac r)
    (dss_flag_dsn r) (dss_flag_dack r) (dss_dsn_data_seq_nbr_8oct r)
    (dss_dsn_w_cs_data_level_length r) (dss_dsn_w_cs_subflow_seq_nbr r)
    (dss_dsn_w_cs_checksum r) (dss_dsn_wo_cs_data_level_length r)
    (dss_dsn_wo_cs_subflow_seq_nbr r) (dss_dack_data_ack_8oct r).

Definition with_mp_join_no_syn_sender_hmac (v : list Z) (r : tcp_option) : tcp_option :=
  Build_tcp_option (opt_kind r) (opt_length r) (mp_capable_subtype r)
    (mp_capable_syn_key r) (mp_capable_no_syn_sender_key r)
    (mp_capable_no_syn_receiver_key r) (mp_join_syn_address_id r)
    (mp_join_syn_no_ack_receiver_token r)
    (mp_join_syn_no_ack_sender_random_number r)
    (mp_join_syn_ack_sender_random_number r) (mp_join_syn_ack_sender_hmac r)
    v (dss_flag_dsn r) (dss_flag_dack r) (dss_dsn_data_seq_nbr_8oct r)
    (dss_dsn_w_cs_data_level_length r) (dss_dsn_w_cs_subflow_seq_nbr r)
    (dss_dsn_w_cs_checksum r) (dss_dsn_wo_cs_data_level_length r)
    (dss_dsn_wo_cs_subflow_seq_nbr r) (dss_dack_data_ack_8oct r).

Definition with_dss_dsn_data_seq_nbr_8oct (v : Z) (r : tcp_option) : tcp_option :=
  Build_tcp_option (opt_kind r) (opt_length r) (mp_capable_subtype r)
    (mp_capable_syn_key r) (mp_capable_no_syn_sender_key r)
    (mp_capable_no_syn_receiver_key r) (mp_join_syn_address_id r)
    (mp_join_syn_no_ack_receiver_token r)
    (mp_join_syn_no_ack_sender_random_number r)
    (mp_join_syn_ack_sender_random_number r) (mp_join_syn_ack_sender_hmac r)
    (mp_join_no_syn_sender_hmac r) (dss_flag_dsn r) (dss_flag_dack r) v
    (dss_dsn_w_cs_data_level_length r) (dss_dsn_w_cs_subflow_seq_nbr r)
    (dss_dsn_w_cs_checksum r) (dss_dsn_wo_cs_data_level_length r)
    (dss_dsn_wo_cs_subflow_seq_nbr r) (dss_dack_data_ack_8oct r).

Definition with_dss_dsn_w_cs_data_level_length (v : Z) (r : tcp_option) : tcp_option :=
  Build_tcp_option (opt_kind r) (opt_length r) (mp_capable_subtype r)
    (mp_capable_syn_key r) (mp_capable_no_syn_sender_key r)
    (mp_capable_no_syn_receiver_key r) (mp_join_syn_address_id r)
    (mp_join_syn_no_ack_receiver_token r)
    (mp_join_syn_no_ack_sender_random_number r)
    (mp_join_syn_ack_sender_random_number r) (mp_join_syn_ack_sender_hmac r)
    (mp_join_no_syn_sender_hmac r) (dss_flag_dsn r) (dss_flag_dack r)
    (dss_dsn_data_seq_nbr_8oct r) v (dss_dsn_w_cs_subflow_seq_nbr r)
    (dss_dsn_w_cs_checksum r) (dss_dsn_wo_cs_data_level_length r)
    (dss_dsn_wo_cs_subflow_seq_nbr r) (dss_dack_data_ack_8oct r).

Definition with_dss_dsn_w_cs_subflow_seq_nbr (v : Z) (r : tcp_option) : tcp_option :=
  Build_tcp_option (opt_kind r) (opt_length r) (mp_capable_subtype r)
    (mp_capable_syn_key r) (mp_capable_no_syn_sender_key r)
    (mp_capable_no_syn_receiver_key r) (mp_join_syn_address_id r)
    (mp_join_syn_no_ack_receiver_token r)
    (mp_join_syn_no_ack_sender_random_number r)
    (mp_join_syn_ack_sender_random_number r) (mp_join_syn_ack_sender_hmac r)
    (mp_join_no_syn_sender_hmac r) (dss_flag_dsn r) (dss_flag_dack r)
    (dss_dsn_data_seq_nbr_8oct r) (dss_dsn_w_cs_data_level_length r) v
    (dss_dsn_w_cs_checksum r) (dss_dsn_wo_cs_data_level_length r)
    (dss_dsn_wo_cs_subflow_seq_nbr r) (dss_dack_data_ack_8oct r).

Definition with_dss_dsn_w_cs_checksum (v : Z) (r : tcp_option) : tcp_option :=
  Build_tcp_option (opt_kind r) (opt_length r) (mp_capable_subtype r)
    (mp_capable_syn_key r) (mp_capable_no_syn_sender_key r)
    (mp_capable_no_syn_receiver_key r) (mp_join_syn_address_id r)
    (mp_join_syn_no_ack_receiver_token r)
    (mp_join_syn_no_ack_sender_random_number r)
    (mp_join_syn_ack_sender_random_number r) (mp_join_syn_ack_sender_hmac r)
    (mp_join_no_syn_sender_hmac r) (dss_flag_dsn r) (dss_flag_dack r)
    (dss_dsn_data_seq_nbr_8oct r) (dss_dsn_w_cs_data_level_length r)
    (dss_dsn_w_cs_subflow_seq_nbr r) v (dss_dsn_wo_cs_data_level_length r)
    (dss_dsn_wo_cs_subflow_seq_nbr r) (dss_dack_data_ack_8oct r).

Definition with_dss_dsn_wo_cs_data_level_length (v : Z) (r : tcp_option) : tcp_option :=
  Build_tcp_option (opt_kind r) (opt_length r) (mp_capable_subtype r)
    (mp_capable_syn_key r) (mp_capable_no_syn_sender_key r)
    (mp_capable_no_syn_receiver_key r) (mp_join_syn_address_id r)
    (mp_join_syn_no_ack_receiver_token r)
    (mp_join_syn_no_ack_sender_random_number r)
    (mp_join_syn_ack_sender_random_number r) (mp_join_syn_ack_sender_hmac r)
    (mp_join_no_syn_sender_hmac r) (dss_flag_dsn r) (dss_flag_dack r)
    (dss_dsn_data_seq_nbr_8oct r) (dss_dsn_w_cs_data_level_length r)
    (dss_dsn_w_cs_subflow_seq_nbr r) (dss_dsn_w_cs_checksum r) v
    (dss_dsn_wo_cs_subflow_seq_nbr r) (dss_dack_data_ack_8oct r).

Definition with_dss_dsn_wo_cs_subflow_seq_nbr (v : Z) (r : tcp_option) : tcp_option :=
  Build_tcp_option (opt_kind r) (opt_length r) (mp_capable_subtype r)
    (mp_capable_syn_key r) (mp_capable_no_syn_sender_key r)
    (mp_capable_no_syn_receiver_key r) (mp_join_syn_address_id r)
    (mp_join_syn_no_ack_receiver_token r)
    (mp_join_syn_no_ack_sender_random_number r)
    (mp_join_syn_ack_sender_random_number r) (mp_join_syn_ack_sender_hmac r)
    (mp_join_no_syn_sender_hmac r) (dss_flag_dsn r) (dss_flag_dack r)
    (dss_dsn_data_seq_nbr_8oct r) (dss_dsn_w_cs_data_level_length r)
    (dss_dsn_w_cs_subflow_seq_nbr r) (dss_dsn_w_cs_checksum r)
    (dss_dsn_wo_cs_data_level_length r) v (dss_dack_data_ack_8oct r).

Definition with_dss_dack_data_ack_8oct (v : Z) (r : tcp_option) : tcp_option :=
  Build_tcp_option (opt_kind r) (opt_length r) (mp_capable_subtype r)
    (mp_capable_syn_key r) (mp_capable_no_syn_sender_key r)
    (mp_capable_no_syn_receiver_key r) (mp_join_syn_address_id r)
    (mp_join_syn_no_ack_receiver_token r)
    (mp_join_syn_no_ack_sender_random_number r)
    (mp_join_syn_ack_sender_random_number r) (mp_join_syn_ack_sender_hmac r)
    (mp_join_no_syn_sender_hmac r) (dss_flag_dsn r) (dss_flag_dack r)
    (dss_dsn_data_seq_nbr_8oct r) (dss_dsn_w_cs_data_level_length r)
    (dss_dsn_w_cs_subflow_seq_nbr r) (dss_dsn_w_cs_checksum r)
    (dss_dsn_wo_cs_data_level_length r) (dss_dsn_wo_cs_subflow_seq_nbr r) v.

Record packet := {
  ip_bytes : Z;
  ipv4 : option ipv4_hdr;
  ipv6 : option ipv6_hdr;
  tcp : tcp_hdr;
  tcp_options : list tcp_option
}.

Definition null_option : tcp_option :=
  Build_tcp_option 0 0 0 0 0 0 0 0 0 0 0 [] false false 0 0 0 0 0 0 0.

(** [tcp_opt_to_modify] points to an option inside the packet: the option
    number [i] of the packet. *)
Definition option_at (p : packet) (i : nat) : tcp_option :=
  nth i (tcp_options p) null_option.

Fixpoint replace_nth {A : Type} (i : nat) (x : A) (l : list A) : list A :=
  match l, i with
  | [], _ => []
  | _ :: r, O => x :: r
  | y :: r, S k => y :: replace_nth k x r
  end.

Definition store_option (p : packet) (i : nat) (o : tcp_option) : packet :=
  {| ip_bytes := ip_bytes p; ipv4 := ipv4 p; ipv6 := ipv6 p; tcp := tcp p;
     tcp_options := replace_nth i o (tcp_options p) |}.

(** [get_tcp_option(packet, kind)] of the packet layer: the first option of
    the given kind, or NULL. *)
Definition get_tcp_option (p : packet) (k : Z) : option tcp_option :=
  find (fun o => opt_kind o =? k) (tcp_options p).

(** ** Subflows *)

(** Modelled from the spec: [struct mp_subflow] is declared in the header,
    which is not part of the sources at hand; its fields are those the code
    uses, with the widths of the spec's data model: ports of 16 bits,
    nonces and the subflow sequence number of 32 bits, address ids of 8
    bits.  The [next] pointer is the list the subflows are kept in. *)
Record mp_subflow := Build_mp_subflow {
  src_ip : ip_address;
  dst_ip : ip_address;
  src_port : Z;
  dst_port : Z;
  packetdrill_rand_nbr : Z;
  kernel_rand_nbr : Z;
  packetdrill_addr_id : Z;
  kernel_addr_id : Z;
  subflow_sequence_number : Z
}.

Definition with_src_ip (v : ip_address) (r : mp_subflow) : mp_subflow :=
  Build_mp_subflow v (dst_ip r) (src_port r) (dst_port r)
    (packetdrill_rand_nbr r) (kernel_rand_nbr r) (packetdrill_addr_id r)
    (kernel_addr_id r) (subflow_sequence_number r).

Definition with_dst_ip (v : ip_address) (r : mp_subflow) : mp_subflow :=
  Build_mp_subflow (src_ip r) v (src_port r) (dst_port r)
    (packetdrill_rand_nbr r) (kernel_rand_nbr r) (packetdrill_addr_id r)
    (kernel_addr_id r) (subflow_sequence_number r).

Definition with_src_port (v : Z) (r : mp_subflow) : mp_subflow :=
  Build_mp_subflow (src_ip r) (dst_ip r) v (dst_port r)
    (packetdrill_rand_nbr r) (kernel_rand_nbr r) (packetdrill_addr_id r)
    (kernel_addr_id r) (subflow_sequence_number r).

Definition with_dst_port (v : Z) (r : mp_subflow) : mp_subflow :=
  Build_mp_subflow (src_ip r) (dst_ip r) (src_port r) v
    (packetdrill_rand_nbr r) (kernel_rand_nbr r) (packetdrill_addr_id r)
    (kernel_addr_id r) (subflow_sequence_number r).

Definition with_packetdrill_rand_nbr (v : Z) (r : mp_subflow) : mp_subflow :=
  Build_mp_subflow (src_ip r) (dst_ip r) (src_port r) (dst_port r) v
    (kernel_rand_nbr r) (packetdrill_addr_id r) (kernel_addr_id r)
    (subflow_sequence_number r).

Definition with_kernel_rand_nbr (v : Z) (r : mp_subflow) : mp_subflow :=
  Build_mp_subflow (src_ip r) (dst_ip r) (src_port r) (dst_port r)
    (packetdrill_rand_nbr r) v (packetdrill_addr_id r) (kernel_addr_id r)
    (subflow_sequence_number r).

Definition with_packetdrill_addr_id (v : Z) (r : mp_subflow) : mp_subflow :=
  Build_mp_subflow (src_ip r) (dst_ip r) (src_port r) (dst_port r)
    (packetdrill_rand_nbr r) (kernel_rand_nbr r) v (kernel_addr_id r)
    (subflow_sequence_number r).

Definition with_kernel_addr_id (v : Z) (r : mp_subflow) : mp_subflow :=
  Build_mp_subflow (src_ip r) (dst_ip r) (src_port r) (dst_port r)
    (packetdrill_rand_nbr r) (kernel_rand_nbr r) (packetdrill_addr_id r) v
    (subflow_sequence_number r).

Definition with_subflow_sequence_number (v : Z) (r : mp_subflow) : mp_subflow :=
  Build_mp_subflow (src_ip r) (dst_ip r) (src_port r) (dst_port r)
    (packetdrill_rand_nbr r) (kernel_rand_nbr r) (packetdrill_addr_id r)
    (kernel_addr_id r) v.

(** ** Variables *)

(** A [char *]: the bytes of the block it points to, and the bytes that lie
    behind the block in memory.  Reading past the block continues in
    [beyond]; reading past that is undefined. *)
Record chars_ptr := {
  allocated : list Z;
  beyond : list Z
}.

Definition memory_at (p : chars_ptr) : list Z := allocated p ++ beyond p.

(** The characters of the C string in [mem], up to its first NUL. *)
Fixpoint c_chars (mem : list Z) : result (list Z) :=
  match mem with
  | [] => Undefined
  | b :: r => if b =? 0 then Done [] else cs <- c_chars r ;; Done (b :: cs)
  end.

Definition strlen (p : chars_ptr) : result nat :=
  cs <- c_chars (memory_at p) ;; Done (List.length cs).

(** A string literal or a string of the parser: terminated in its block. *)
Definition c_string (cs : list Z) : chars_ptr :=
  {| allocated := cs ++ [0]; beyond := [] |}.

(** The two key slots of [mp_state] a variable can point to. *)
Inductive key_slot := PacketdrillKeySlot | KernelKeySlot.

(** [void *value] of a variable: the address of a key of [mp_state], or a
    buffer of its own. *)
Inductive var_value :=
  | KeyPtr (slot : key_slot)
  | Buffer (bytes : list Z).

Record mp_var := {
  name : list Z;
  value : var_value;
  mptcp_subtype : Z;
  script_defined : bool
}.

(** ** Session state *)

(** Modelled from the spec: the type of the global [mp_state] is declared
    in the header; its fields are those the code uses, with the widths of
    the spec's data model: keys, [initial_dsn] and [initial_dack] of 64
    bits, the address id counter of 8 bits.  [random_draws] is not a field
    of the struct: it counts the numbers drawn from the random generator of
    the process so far. *)
Record mp_state_t := Build_mp_state {
  packetdrill_key : Z;
  packetdrill_key_set : bool;
  kernel_key : Z;
  kernel_key_set : bool;
  vars_queue : list chars_ptr;
  vars : list mp_var;
  last_packetdrill_addr_id : Z;
  subflows : list mp_subflow;
  initial_dsn : Z;
  initial_dack : Z;
  random_draws : nat
}.

Definition with_packetdrill_key (v : Z) (r : mp_state_t) : mp_state_t :=
  Build_mp_state v (packetdrill_key_set r) (kernel_key r) (kernel_key_set r)
    (vars_queue r) (vars r) (last_packetdrill_addr_id r) (subflows r)
    (initial_dsn r) (initial_dack r) (random_draws r).

Definition with_packetdrill_key_set (v : bool) (r : mp_state_t) : mp_state_t :=
  Build_mp_state (packetdrill_key r) v (kernel_key r) (kernel_key_set r)
    (vars_queue r) (vars r) (last_packetdrill_addr_id r) (subflows r)
    (initial_dsn r) (initial_dack r) (random_draws r).

Definition with_kernel_key (v : Z) (r : mp_state_t) : mp_state_t :=
  Build_mp_state (packetdrill_key r) (packetdrill_key_set r) v
    (kernel_key_set r) (vars_queue r) (vars r) (last_packetdrill_addr_id r)
    (subflows r) (initial_dsn r) (initial_dack r) (random_draws r).

Definition with_kernel_key_set (v : bool) (r : mp_state_t) : mp_state_t :=
  Build_mp_state (packetdrill_key r) (packetdrill_key_set r) (kernel_key r) v
    (vars_queue r) (vars r) (last_packetdrill_addr_id r) (subflows r)
    (initial_dsn r) (initial_dack r) (random_draws r).

Definition with_vars_queue (v : list chars_ptr) (r : mp_state_t) : mp_state_t :=
  Build_mp_state (packetdrill_key r) (packetdrill_key_set r) (kernel_key r)
    (kernel_key_set r) v (vars r) (last_packetdrill_addr_id r) (subflows r)
    (initial_dsn r) (initial_dack r) (random_draws r).

Definition with_vars (v : list mp_var) (r : mp_state_t) : mp_state_t :=
  Build_mp_state (packetdrill_key r) (packetdrill_key_set r) (kernel_key r)
    (kernel_key_set r) (vars_queue r) v (last_packetdrill_addr_id r)
    (subflows r) (initial_dsn r) (initial_dack r) (random_draws r).

Definition with_last_packetdrill_addr_id (v : Z) (r : mp_state_t) : mp_state_t :=
  Build_mp_state (packetdrill_key r) (packetdrill_key_set r) (kernel_key r)
    (kernel_key_set r) (vars_queue r) (vars r) v (subflows r) (initial_dsn r)
    (initial_dack r) (random_draws r).

Definition with_subflows (v : list mp_subflow) (r : mp_state_t) : mp_state_t :=
  Build_mp_state (packetdrill_key r) (packetdrill_key_set r) (kernel_key r)
    (kernel_key_set r) (vars_queue r) (vars r) (last_packetdrill_addr_id r) v
    (initial_dsn r) (initial_dack r) (random_draws r).

Definition with_initial_dsn (v : Z) (r : mp_state_t) : mp_state_t :=
  Build_mp_state (packetdrill_key r) (packetdrill_key_set r) (kernel_key r)
    (kernel_key_set r) (vars_queue r) (vars r) (last_packetdrill_addr_id r)
    (subflows r) v (initial_dack r) (random_draws r).

Definition with_initial_dack (v : Z) (r : mp_state_t) : mp_state_t :=
  Build_mp_state (packetdrill_key r) (packetdrill_key_set r) (kernel_key r)
    (kernel_key_set r) (vars_queue r) (vars r) (last_packetdrill_addr_id r)
    (subflows r) (initial_dsn r) v (random_draws r).

Definition with_random_draws (v : nat) (r : mp_state_t) : mp_state_t :=
  Build_mp_state (packetdrill_key r) (packetdrill_key_set r) (kernel_key r)
    (kernel_key_set r) (vars_queue r) (vars r) (last_packetdrill_addr_id r)
    (subflows r) (initial_dsn r) (initial_dack r) v.


(** The global [mp_state] before [init_mp_state]: an object of static
    storage, all zero. *)
Definition mp_state_zero : mp_state_t :=
  Build_mp_state 0 false 0 false [] [] 0 [] 0 0 0.

(** ** What the headers and the other modules provide *)

(** The constants of the TCP option header: the option kind, the MPTCP
    subtypes and the lengths of the option variants, and the capacity of
    the queue of names. *)
Class Header := {
  TCPOPT_MPTCP : Z;
  MP_CAPABLE_SUBTYPE : Z;
  MP_JOIN_SUBTYPE : Z;
  DSS_SUBTYPE : Z;
  TCPOLEN_MP_CAPABLE_SYN : Z;
  TCPOLEN_MP_CAPABLE : Z;
  TCPOLEN_MP_JOIN_SYN : Z;
  TCPOLEN_MP_JOIN_SYN_ACK : Z;
  TCPOLEN_MP_JOIN_ACK : Z;
  TCPOLEN_DSS_DSN8 : Z;
  TCPOLEN_DSS_DSN8_WOCS : Z;
  QUEUE_SIZE : nat
}.

(** The values of RFC 6824, whose encoding the options follow. *)
Definition rfc6824 : Header := {|
  TCPOPT_MPTCP := 30;
  MP_CAPABLE_SUBTYPE := 0;
  MP_JOIN_SUBTYPE := 1;
  DSS_SUBTYPE := 2;
  TCPOLEN_MP_CAPABLE_SYN := 12;
  TCPOLEN_MP_CAPABLE := 20;
  TCPOLEN_MP_JOIN_SYN := 12;
  TCPOLEN_MP_JOIN_SYN_ACK := 16;
  TCPOLEN_MP_JOIN_ACK := 24;
  TCPOLEN_DSS_DSN8 := 20;
  TCPOLEN_DSS_DSN8_WOCS := 18;
  QUEUE_SIZE := 16
|}.

(** The process around the engine: the numbers its random generator
    returns, what [malloc] hands out (the bytes behind a block allocated
    for a name, and the content of a block allocated for a subflow), and the
    Internet checksum of the packet layer, over the TCP segment of a packet
    and over a buffer of bytes. *)
Class Process := {
  random : nat -> Z;
  malloc_beyond : list Z;
  malloc_mp_subflow : mp_subflow;
  tcp_segment_checksum : packet -> Z;
  checksum : list Z -> Z
}.

(** ** Crypto derivations *)

(** Modelled from the spec: [sha1_least_32bits] is called here and defined
    in a file that is not part of the sources at hand.  The spec's
    [token32]: the high 32 bits of SHA1 of the 8-byte network-order
    serialization of the key. *)
Definition sha1_least_32bits (key : Z) : Z :=
  be_decode (firstn 4 (SHA1.sha1 (be_bytes 8 key))).

(** Modelled from the spec: [sha1_least_64bits], defined next to
    [sha1_least_32bits].  The spec's [idsn64]: the low 64 bits of SHA1 of
    the same serialization. *)
Definition sha1_least_64bits (key : Z) : Z :=
  be_decode (skipn 12 (SHA1.sha1 (be_bytes 8 key))).

(** Modelled from the spec: [hmac_sha1(key, key_length, data, data_length,
    output)], defined in the same absent file.  The spec's [hmac160]: the
    full HMAC-SHA1 tag. *)
Definition hmac_sha1 (key : list Z) (key_length : nat)
    (data : list Z) (data_length : nat) : list Z :=
  SHA1.hmac (firstn key_length key) (firstn data_length data).

(** Modelled from the spec: [hmac_sha1_truncat_64], defined in the same
    absent file.  The spec's [hmac64]: the leading 64 bits of the tag. *)
Definition hmac_sha1_truncat_64 (key : list Z) (key_length : nat)
    (data : list Z) (data_length : nat) : Z :=
  be_decode (firstn 8 (hmac_sha1 key key_length data data_length)).

(** ** The queue of names *)

(** Modelled from the spec: the queue module is not part of the sources at
    hand.  A first-in first-out queue; [queue_enqueue] fails when the
    queue is at capacity, [queue_front] and [queue_dequeue] fail ([None])
    when it is empty. *)
Definition queue_init : list chars_ptr := [].

Definition queue_enqueue {hdr : Header} (q : list chars_ptr) (el : chars_ptr)
    : Z * list chars_ptr :=
  if (QUEUE_SIZE <=? List.length q)%nat then (STATUS_ERR, q)
  else (STATUS_OK, q ++ [el]).

Definition queue_front (q : list chars_ptr) : option chars_ptr :=
  match q with
  | [] => None
  | el :: _ => Some el
  end.

Definition queue_dequeue (q : list chars_ptr)
    : option (chars_ptr * list chars_ptr) :=
  match q with
  | [] => None
  | el :: r => Some (el, r)
  end.

Section Engine.
Context {host : Host} {hdr : Header} {proc : Process}.

(** ** State and variables *)

Definition init_mp_state (st : mp_state_t) : mp_state_t :=
  with_last_packetdrill_addr_id 0
    (with_vars []
      (with_vars_queue queue_init
        (with_kernel_key_set false
          (with_packetdrill_key_set false st)))).

Definition set_packetdrill_key (sender_key : Z) (st : mp_state_t) : mp_state_t :=
  with_packetdrill_key_set true (with_packetdrill_key sender_key st).

Definition set_kernel_key (receiver_key : Z) (st : mp_state_t) : mp_state_t :=
  with_kernel_key_set true (with_kernel_key receiver_key st).

(** The copy holds the [strlen(name)] characters of the name and nothing
    else: [malloc(name_length)], [memcpy(new_el, name, name_length)]. *)
Definition enqueue_var (name : chars_ptr) (st : mp_state_t)
    : result (Z * mp_state_t) :=
  name_length <- strlen name ;;
  let new_el := {| allocated := firstn name_length (memory_at name);
                   beyond := malloc_beyond |} in
  let '(full_err, q) := queue_enqueue (vars_queue st) new_el in
  Done (full_err, with_vars_queue q st).

Definition dequeue_var (st : mp_state_t) : option (chars_ptr * mp_state_t) :=
  match queue_dequeue (vars_queue st) with
  | None => None
  | Some (name, q) => Some (name, with_vars_queue q st)
  end.

(** [HASH_ADD_KEYPTR]: the table takes the variable without looking for an
    older one of the same name; the newest is the first found. *)
Definition add_mp_var (var : mp_var) (st : mp_state_t) : mp_state_t :=
  with_vars (var :: vars st) st.

(** [save_mp_var_name]: [strlen(name) + 1] bytes are copied, the name with
    its terminator. *)
Definition save_mp_var_name (name : chars_ptr) : result (list Z) :=
  c_chars (memory_at name).

Definition add_mp_var_key (name : chars_ptr) (key : key_slot) (st : mp_state_t)
    : result mp_state_t :=
  var_name <- save_mp_var_name name ;;
  Done (add_mp_var {| name := var_name; value := KeyPtr key;
                      mptcp_subtype := MP_CAPABLE_SUBTYPE;
                      script_defined := false |} st).

Definition add_mp_var_script_defined (name : chars_ptr) (value : list Z)
    (length : nat) (st : mp_state_t) : result mp_state_t :=
  var_name <- save_mp_var_name name ;;
  if (List.length value <? length)%nat then Undefined
  else Done (add_mp_var {| name := var_name;
                           value := Buffer (firstn length value);
                           mptcp_subtype := MP_CAPABLE_SUBTYPE;
                           script_defined := true |} st).

Definition chars_eqb (a b : list Z) : bool :=
  if list_eq_dec Z.eq_dec a b then true else false.

Definition has_name (cs : list Z) (var : mp_var) : bool :=
  chars_eqb (name var) cs.

(** [HASH_FIND_STR]: the key is the [strlen(name)] characters at [name]. *)
Definition find_mp_var (name : chars_ptr) (st : mp_state_t)
    : result (option mp_var) :=
  cs <- c_chars (memory_at name) ;;
  Done (find (has_name cs) (vars st)).

(** Reading a [u64] through the [value] pointer of a variable. *)
Definition read_u64 (v : var_value) (st : mp_state_t) : result Z :=
  match v with
  | KeyPtr PacketdrillKeySlot => Done (packetdrill_key st)
  | KeyPtr KernelKeySlot => Done (kernel_key st)
  | Buffer bytes =>
      if (List.length bytes <? 8)%nat then Undefined
      else Done (host_decode (firstn 8 bytes))
  end.

Definition find_next_key (st : mp_state_t)
    : result (option var_value * mp_state_t) :=
  match dequeue_var st with
  | None => Done (None, st)
  | Some (var_name, st) =>
      var <- find_mp_var var_name st ;;
      match var with
      | None => Done (None, st)
      | Some var =>
          if negb (mptcp_subtype var =? MP_CAPABLE_SUBTYPE) then Done (None, st)
          else Done (Some (value var), st)
      end
  end.

(** ** Random numbers *)

Definition generate_32 (st : mp_state_t) : Z * mp_state_t :=
  (random (random_draws st) mod 2 ^ 32,
   with_random_draws (S (random_draws st)) st).

Definition rand_64 (st : mp_state_t) : Z * mp_state_t :=
  (random (random_draws st) mod 2 ^ 64,
   with_random_draws (S (random_draws st)) st).

(** ** Subflows *)

Definition u8 (x : Z) : Z := x mod 2 ^ 8.
Definition u16 (x : Z) : Z := x mod 2 ^ 16.
Definition u32 (x : Z) : Z := x mod 2 ^ 32.
Definition u64 (x : Z) : Z := x mod 2 ^ 64.

(** A [struct mp_subflow *] is NULL ([None]) or points to the subflow
    number [i] of the list [mp_state.subflows]. *)
Definition subflow_at (st : mp_state_t) (i : nat) : mp_subflow :=
  nth i (subflows st) malloc_mp_subflow.

Definition update_subflow (i : nat) (f : mp_subflow -> mp_subflow)
    (st : mp_state_t) : mp_state_t :=
  with_subflows (replace_nth i (f (subflow_at st i)) (subflows st)) st.

Definition new_subflow_inbound (inbound_packet : packet) (st : mp_state_t)
    : option nat * mp_state_t :=
  let subflow := malloc_mp_subflow in
  let addresses :=
    match ipv4 inbound_packet, ipv6 inbound_packet with
    | Some ip4, _ =>
        Some (ip_from_ipv4 (ipv4_src_ip ip4), ip_from_ipv4 (ipv4_dst_ip ip4))
    | None, Some ip6 =>
        Some (ip_from_ipv6 (ipv6_src_ip ip6), ip_from_ipv6 (ipv6_dst_ip ip6))
    | None, None => None
    end in
  match addresses with
  | None => (None, st)
  | Some (src, dst) =>
      let subflow := with_dst_ip dst (with_src_ip src subflow) in
      let subflow :=
        with_src_port (ntohs (tcp_src_port (tcp inbound_packet))) subflow in
      let subflow :=
        with_dst_port (ntohs (tcp_dst_port (tcp inbound_packet))) subflow in
      let '(rand, st) := generate_32 st in
      let subflow := with_packetdrill_rand_nbr rand subflow in
      let subflow :=
        with_packetdrill_addr_id (last_packetdrill_addr_id st) subflow in
      let st :=
        with_last_packetdrill_addr_id (u8 (last_packetdrill_addr_id st + 1)) st in
      let subflow := with_subflow_sequence_number 0 subflow in
      (Some 0%nat, with_subflows (subflow :: subflows st) st)
  end.

Definition new_subflow_outbound (outbound_packet : packet) (st : mp_state_t)
    : option nat * mp_state_t :=
  let subflow := malloc_mp_subflow in
  match get_tcp_option outbound_packet TCPOPT_MPTCP with
  | None => (None, st)
  | Some mp_join_syn =>
      let addresses :=
        match ipv4 outbound_packet, ipv6 outbound_packet with
        | Some ip4, _ =>
            Some (ip_from_ipv4 (ipv4_dst_ip ip4), ip_from_ipv4 (ipv4_src_ip ip4))
        | None, Some ip6 =>
            Some (ip_from_ipv6 (ipv6_dst_ip ip6), ip_from_ipv6 (ipv6_src_ip ip6))
        | None, None => None
        end in
      match addresses with
      | None => (None, st)
      | Some (src, dst) =>
          let subflow := with_dst_ip dst (with_src_ip src subflow) in
          let subflow :=
            with_src_port (ntohs (tcp_dst_port (tcp outbound_packet))) subflow in
          let subflow :=
            with_dst_port (ntohs (tcp_src_port (tcp outbound_packet))) subflow in
          let subflow :=
            with_kernel_rand_nbr
              (mp_join_syn_no_ack_sender_random_number mp_join_syn) subflow in
          let subflow :=
            with_kernel_addr_id (mp_join_syn_address_id mp_join_syn) subflow in
          let subflow := with_subflow_sequence_number 0 subflow in
          (Some 0%nat, with_subflows (subflow :: subflows st) st)
      end
  end.

(** The [while] loop over the list: the first subflow that matches. *)
Fixpoint first_match (matches : mp_subflow -> bool) (l : list mp_subflow)
    : option nat :=
  match l with
  | [] => None
  | subflow :: next =>
      if matches subflow then Some 0%nat
      else option_map S (first_match matches next)
  end.

Definition find_matching_subflow (p : packet)
    (matches : mp_subflow -> packet -> bool) (st : mp_state_t) : option nat :=
  first_match (fun subflow => matches subflow p) (subflows st).

Definition does_subflow_match_outbound_packet (subflow : mp_subflow)
    (outbound_packet : packet) : bool :=
  (dst_port subflow =? ntohs (tcp_src_port (tcp outbound_packet))) &&
  (src_port subflow =? ntohs (tcp_dst_port (tcp outbound_packet))).

Definition find_subflow_matching_outbound_packet (outbound_packet : packet)
    (st : mp_state_t) : option nat :=
  find_matching_subflow outbound_packet does_subflow_match_outbound_packet st.

Definition does_subflow_match_inbound_packet (subflow : mp_subflow)
    (inbound_packet : packet) : bool :=
  (dst_port subflow =? ntohs (tcp_dst_port (tcp inbound_packet))) &&
  (src_port subflow =? ntohs (tcp_src_port (tcp inbound_packet))).

Definition find_subflow_matching_inbound_packet (inbound_packet : packet)
    (st : mp_state_t) : option nat :=
  find_matching_subflow inbound_packet does_subflow_match_inbound_packet st.

(** ** MP_CAPABLE *)

Definition is_script_defined_key (var : option mp_var) : option var_value :=
  match var with
  | Some var =>
      if (mptcp_subtype var =? MP_CAPABLE_SUBTYPE) && script_defined var
      then Some (value var) else None
  | None => None
  end.

Definition mptcp_gen_key (st : mp_state_t) : result (Z * mp_state_t) :=
  match queue_front (vars_queue st) with
  | None => Done (STATUS_ERR, st)
  | Some snd_var_name =>
      snd_var <- find_mp_var snd_var_name st ;;
      st <- match is_script_defined_key snd_var with
            | Some v => key <- read_u64 v st ;; Done (set_packetdrill_key key st)
            | None => Done st
            end ;;
      if negb (packetdrill_key_set st) then
        let '(key, st) := rand_64 st in
        let st := set_packetdrill_key key st in
        st <- add_mp_var_key snd_var_name PacketdrillKeySlot st ;;
        Done (STATUS_OK, st)
      else Done (STATUS_OK, st)
  end.

Definition mptcp_set_mp_cap_syn_key (tcp_opt : tcp_option) (st : mp_state_t)
    : result (Z * mp_state_t * tcp_option) :=
  '(key, st) <- find_next_key st ;;
  match key with
  | None => Done (STATUS_ERR, st, tcp_opt)
  | Some key =>
      k <- read_u64 key st ;;
      Done (STATUS_OK, st, with_mp_capable_syn_key k tcp_opt)
  end.

Definition mptcp_set_mp_cap_keys (tcp_opt : tcp_option) (st : mp_state_t)
    : result (Z * mp_state_t * tcp_option) :=
  '(key, st) <- find_next_key st ;;
  match key with
  | None => Done (STATUS_ERR, st, tcp_opt)
  | Some key =>
      k <- read_u64 key st ;;
      let tcp_opt := with_mp_capable_no_syn_sender_key k tcp_opt in
      '(key, st) <- find_next_key st ;;
      match key with
      | None => Done (STATUS_ERR, st, tcp_opt)
      | Some key =>
          k <- read_u64 key st ;;
          Done (STATUS_OK, st, with_mp_capable_no_syn_receiver_key k tcp_opt)
      end
  end.

Definition extract_and_set_kernel_key (live_packet : packet) (st : mp_state_t)
    : result (Z * mp_state_t) :=
  match get_tcp_option live_packet TCPOPT_MPTCP with
  | None => Done (STATUS_ERR, st)
  | Some mpcap_opt =>
      st <- match queue_front (vars_queue st) with
            | Some var_name =>
                var <- find_mp_var var_name st ;;
                match is_script_defined_key var with
                | Some v => key <- read_u64 v st ;; Done (set_kernel_key key st)
                | None => Done st
                end
            | None => Done st
            end ;;
      if negb (kernel_key_set st) then
        let st := set_kernel_key (mp_capable_syn_key mpcap_opt) st in
        match queue_front (vars_queue st) with
        | None => Done (STATUS_ERR, st)
        | Some var_name =>
            st <- add_mp_var_key var_name KernelKeySlot st ;;
            Done (STATUS_OK, st)
        end
      else Done (STATUS_OK, st)
  end.

Definition mptcp_subtype_mp_capable (st : mp_state_t)
    (packet_to_modify live_packet : packet) (i : nat) (direction : direction_t)
    : result (Z * mp_state_t * packet) :=
  let tcp_opt_to_modify := option_at packet_to_modify i in
  let syn := tcp_syn (tcp packet_to_modify) in
  let ack := tcp_ack (tcp packet_to_modify) in
  let inbound :=
    match direction with DIRECTION_INBOUND => true | _ => false end in
  let outbound :=
    match direction with DIRECTION_OUTBOUND => true | _ => false end in
  let gen_and_set :=
    '(error, st) <- mptcp_gen_key st ;;
    '(error', st, opt) <- mptcp_set_mp_cap_syn_key tcp_opt_to_modify st ;;
    Done (c_or error' error, st, store_option packet_to_modify i opt) in
  if (opt_length tcp_opt_to_modify =? TCPOLEN_MP_CAPABLE_SYN) && syn &&
     inbound && negb ack
  then gen_and_set
  else if (opt_length tcp_opt_to_modify =? TCPOLEN_MP_CAPABLE_SYN) && syn &&
          outbound
  then
    '(error, st) <- extract_and_set_kernel_key live_packet st ;;
    '(error, st, opt) <- mptcp_set_mp_cap_syn_key tcp_opt_to_modify st ;;
    Done (error, st, store_option packet_to_modify i opt)
  else if (opt_length tcp_opt_to_modify =? TCPOLEN_MP_CAPABLE) && negb syn &&
          ack
  then
    '(error, st, opt) <- mptcp_set_mp_cap_keys tcp_opt_to_modify st ;;
    let packet_to_modify := store_option packet_to_modify i opt in
    let st := with_initial_dsn (sha1_least_64bits (packetdrill_key st)) st in
    match direction with
    | DIRECTION_INBOUND =>
        let '(_, st) := new_subflow_inbound packet_to_modify st in
        Done (error, st, packet_to_modify)
    | DIRECTION_OUTBOUND =>
        let '(_, st) := new_subflow_outbound packet_to_modify st in
        Done (error, st, packet_to_modify)
    | DIRECTION_INVALID => Done (STATUS_ERR, st, packet_to_modify)
    end
  else if (opt_length tcp_opt_to_modify =? TCPOLEN_MP_CAPABLE_SYN) && syn &&
          inbound && ack
  then gen_and_set
  else Done (STATUS_ERR, st, packet_to_modify).

(** ** MP_JOIN *)

(** [unsigned char hmac_key[16]] starts out indeterminate ([None]); a
    store through an [unsigned long *] at byte [offset] writes
    [sizeof(unsigned long)] bytes of the value, in the host's order. *)
Definition hmac_key_uninitialised : list (option Z) := repeat None 16.

Definition store_unsigned_long (buffer : list (option Z)) (offset : nat)
    (v : Z) : list (option Z) :=
  firstn offset buffer
    ++ map Some (host_bytes sizeof_unsigned_long v)
    ++ skipn (offset + sizeof_unsigned_long) buffer.

(** Reading a buffer is defined when all of its bytes have been written. *)
Fixpoint read_buffer (buffer : list (option Z)) : result (list Z) :=
  match buffer with
  | [] => Done []
  | Some b :: r => bs <- read_buffer r ;; Done (b :: bs)
  | None :: _ => Undefined
  end.

(** [unsigned msg[2]] read as eight bytes. *)
Definition hmac_msg (msg0 msg1 : Z) : list Z :=
  host_bytes 4 msg0 ++ host_bytes 4 msg1.

Definition mptcp_subtype_mp_join (st : mp_state_t)
    (packet_to_modify live_packet : packet) (i : nat) (direction : direction_t)
    : result (Z * mp_state_t * packet) :=
  let tcp_opt_to_modify := option_at packet_to_modify i in
  let syn := tcp_syn (tcp packet_to_modify) in
  let ack := tcp_ack (tcp packet_to_modify) in
  let inbound :=
    match direction with DIRECTION_INBOUND => true | _ => false end in
  let outbound :=
    match direction with DIRECTION_OUTBOUND => true | _ => false end in
  let length := opt_length tcp_opt_to_modify in
  if inbound && negb ack && syn && (length =? TCPOLEN_MP_JOIN_SYN) then
    match new_subflow_inbound packet_to_modify st with
    | (None, st) => Done (STATUS_ERR, st, packet_to_modify)
    | (Some subflow, st) =>
        let opt :=
          with_mp_join_syn_no_ack_receiver_token
            (htonl (sha1_least_32bits (kernel_key st))) tcp_opt_to_modify in
        let opt :=
          with_mp_join_syn_no_ack_sender_random_number
            (packetdrill_rand_nbr (subflow_at st subflow)) opt in
        let opt :=
          with_mp_join_syn_address_id
            (packetdrill_addr_id (subflow_at st subflow)) opt in
        Done (STATUS_OK, st, store_option packet_to_modify i opt)
    end
  else if outbound && ack && syn && (length =? TCPOLEN_MP_JOIN_SYN_ACK) then
    match find_subflow_matching_outbound_packet live_packet st,
          get_tcp_option live_packet TCPOPT_MPTCP with
    | Some subflow, Some live_mp_join =>
        let st :=
          update_subflow subflow
            (with_kernel_addr_id (mp_join_syn_address_id live_mp_join)) st in
        let st :=
          update_subflow subflow
            (with_kernel_rand_nbr
               (mp_join_syn_ack_sender_random_number live_mp_join)) st in
        let hmac_key := hmac_key_uninitialised in
        let hmac_key := store_unsigned_long hmac_key 0 (kernel_key st) in
        let hmac_key := store_unsigned_long hmac_key 8 (packetdrill_key st) in
        let msg :=
          hmac_msg (kernel_rand_nbr (subflow_at st subflow))
                   (packetdrill_rand_nbr (subflow_at st subflow)) in
        let opt :=
          with_mp_join_syn_address_id
            (mp_join_syn_address_id live_mp_join) tcp_opt_to_modify in
        let opt :=
          with_mp_join_syn_ack_sender_random_number
            (mp_join_syn_ack_sender_random_number live_mp_join) opt in
        key <- read_buffer hmac_key ;;
        let opt :=
          with_mp_join_syn_ack_sender_hmac
            (hmac_sha1_truncat_64 key 16 msg 8) opt in
        Done (STATUS_OK, st, store_option packet_to_modify i opt)
    | _, _ => Done (STATUS_ERR, st, packet_to_modify)
    end
  else if inbound && ack && negb syn && (length =? TCPOLEN_MP_JOIN_ACK) then
    match find_subflow_matching_inbound_packet packet_to_modify st with
    | None => Done (STATUS_ERR, st, packet_to_modify)
    | Some subflow =>
        let hmac_key := hmac_key_uninitialised in
        let hmac_key := store_unsigned_long hmac_key 0 (packetdrill_key st) in
        let hmac_key := store_unsigned_long hmac_key 8 (kernel_key st) in
        let msg :=
          hmac_msg (packetdrill_rand_nbr (subflow_at st subflow))
                   (kernel_rand_nbr (subflow_at st subflow)) in
        key <- read_buffer hmac_key ;;
        let sender_hmac := hmac_sha1 key 16 msg 8 in
        let opt :=
          with_mp_join_no_syn_sender_hmac (firstn 20 sender_hmac)
            tcp_opt_to_modify in
        Done (STATUS_OK, st, store_option packet_to_modify i opt)
    end
  else if outbound && negb ack && syn && (length =? TCPOLEN_MP_JOIN_SYN) then
    match new_subflow_outbound live_packet st with
    | (None, _) => Undefined
    | (Some subflow, st) =>
        let opt :=
          with_mp_join_syn_address_id
            (kernel_addr_id (subflow_at st subflow)) tcp_opt_to_modify in
        let opt :=
          with_mp_join_syn_no_ack_sender_random_number
            (htonl (kernel_rand_nbr (subflow_at st subflow))) opt in
        let opt :=
          with_mp_join_syn_no_ack_receiver_token
            (htonl (sha1_least_32bits (kernel_key st))) opt in
        Done (STATUS_OK, st, store_option packet_to_modify i opt)
    end
  else if inbound && ack && syn && (length =? TCPOLEN_MP_JOIN_SYN_ACK) then
    match find_subflow_matching_inbound_packet packet_to_modify st with
    | None => Done (STATUS_ERR, st, packet_to_modify)
    | Some subflow =>
        let '(rand, st) := generate_32 st in
        let st := update_subflow subflow (with_packetdrill_rand_nbr rand) st in
        let hmac_key := hmac_key_uninitialised in
        let hmac_key := store_unsigned_long hmac_key 0 (packetdrill_key st) in
        let hmac_key := store_unsigned_long hmac_key 8 (kernel_key st) in
        let msg :=
          hmac_msg (packetdrill_rand_nbr (subflow_at st subflow))
                   (kernel_rand_nbr (subflow_at st subflow)) in
        let opt :=
          with_mp_join_syn_address_id
            (last_packetdrill_addr_id st) tcp_opt_to_modify in
        let st :=
          with_last_packetdrill_addr_id
            (u8 (last_packetdrill_addr_id st + 1)) st in
        let opt :=
          with_mp_join_syn_ack_sender_random_number
            (htonl (packetdrill_rand_nbr (subflow_at st subflow))) opt in
        key <- read_buffer hmac_key ;;
        let opt :=
          with_mp_join_syn_ack_sender_hmac
            (htobe64 (hmac_sha1_truncat_64 key 16 msg 8)) opt in
        Done (STATUS_OK, st, store_option packet_to_modify i opt)
    end
  else if outbound && ack && negb syn && (length =? TCPOLEN_MP_JOIN_ACK) then
    match find_subflow_matching_outbound_packet packet_to_modify st with
    | None => Done (STATUS_ERR, st, packet_to_modify)
    | Some subflow =>
        let hmac_key := hmac_key_uninitialised in
        let hmac_key := store_unsigned_long hmac_key 0 (kernel_key st) in
        let hmac_key := store_unsigned_long hmac_key 8 (packetdrill_key st) in
        let msg :=
          hmac_msg (kernel_rand_nbr (subflow_at st subflow))
                   (packetdrill_rand_nbr (subflow_at st subflow)) in
        key <- read_buffer hmac_key ;;
        let sender_hmac := hmac_sha1 key 16 msg 8 in
        let opt :=
          with_mp_join_no_syn_sender_hmac (firstn 20 sender_hmac)
            tcp_opt_to_modify in
        Done (STATUS_OK, st, store_option packet_to_modify i opt)
    end
  else Done (STATUS_ERR, st, packet_to_modify).

(** ** DSS *)

(** The payload length the handler computes, in [u16] variables. *)
Definition tcp_payload_length (packet_to_modify : packet) (ip4 : ipv4_hdr) : Z :=
  let packet_total_length := u16 (ip_bytes packet_to_modify) in
  let tcp_header_length := u16 (tcp_doff (tcp packet_to_modify) * 4) in
  let ip_header_length := u16 (ipv4_ihl ip4 * 8) in
  let tcp_header_wo_options := 20 in
  u16 (packet_total_length - ip_header_length
       - (tcp_header_length - tcp_header_wo_options)).

(** The sixteen bytes of [buffer_checksum]. *)
Definition buffer_checksum (dsn ssn dll : Z) : list Z :=
  host_bytes 8 dsn ++ host_bytes 4 ssn ++ host_bytes 2 dll ++ host_bytes 2 0.

Definition mptcp_subtype_dss (st : mp_state_t)
    (packet_to_modify live_packet : packet) (i : nat) (direction : direction_t)
    : result (Z * mp_state_t * packet) :=
  let tcp_opt_to_modify := option_at packet_to_modify i in
  match direction with
  | DIRECTION_INBOUND =>
      '(st, opt) <-
        (if dss_flag_dsn tcp_opt_to_modify &&
            (opt_length tcp_opt_to_modify =? TCPOLEN_DSS_DSN8)
         then
           match ipv4 packet_to_modify with
           | None => Undefined
           | Some ip4 =>
               let tcp_payload_length := tcp_payload_length packet_to_modify ip4 in
               let opt :=
                 with_dss_dsn_data_seq_nbr_8oct
                   (htobe64 (u64 (initial_dsn st +
                                  dss_dsn_data_seq_nbr_8oct tcp_opt_to_modify)))
                   tcp_opt_to_modify in
               let opt :=
                 with_dss_dsn_w_cs_data_level_length
                   (htons tcp_payload_length) opt in
               match find_subflow_matching_inbound_packet packet_to_modify st with
               | None => Undefined
               | Some subflow =>
                   let opt :=
                     with_dss_dsn_w_cs_subflow_seq_nbr
                       (htonl (subflow_sequence_number (subflow_at st subflow)))
                       opt in
                   let st :=
                     update_subflow subflow
                       (fun s =>
                          with_subflow_sequence_number
                            (u32 (subflow_sequence_number s + tcp_payload_length))
                            s) st in
                   let buffer :=
                     buffer_checksum (dss_dsn_data_seq_nbr_8oct opt)
                       (dss_dsn_w_cs_subflow_seq_nbr opt)
                       (dss_dsn_w_cs_data_level_length opt) in
                   let opt := with_dss_dsn_w_cs_checksum 0 opt in
                   let opt :=
                     with_dss_dsn_w_cs_checksum
                       (u16 (tcp_segment_checksum
                               (store_option packet_to_modify i opt)
                             + checksum buffer)) opt in
                   Done (st, opt)
               end
           end
         else if dss_flag_dsn tcp_opt_to_modify &&
                 (opt_length tcp_opt_to_modify =? TCPOLEN_DSS_DSN8_WOCS)
         then
           match ipv4 packet_to_modify with
           | None => Undefined
           | Some ip4 =>
               let tcp_payload_length := tcp_payload_length packet_to_modify ip4 in
               let opt :=
                 with_dss_dsn_data_seq_nbr_8oct
                   (htobe64 (u64 (initial_dsn st +
                                  dss_dsn_data_seq_nbr_8oct tcp_opt_to_modify + 1)))
                   tcp_opt_to_modify in
               let opt :=
                 with_dss_dsn_wo_cs_data_level_length
                   (htons tcp_payload_length) opt in
               match find_subflow_matching_inbound_packet packet_to_modify st with
               | None => Undefined
               | Some subflow =>
                   let opt :=
                     with_dss_dsn_wo_cs_subflow_seq_nbr
                       (htonl (subflow_sequence_number (subflow_at st subflow)))
                       opt in
                   let st :=
                     update_subflow subflow
                       (fun s =>
                          with_subflow_sequence_number
                            (u32 (subflow_sequence_number s + tcp_payload_length))
                            s) st in
                   Done (st, opt)
               end
           end
         else Done (st, tcp_opt_to_modify)) ;;
      let opt :=
        if dss_flag_dack opt
        then with_dss_dack_data_ack_8oct
               (htobe64 (u64 (initial_dack st + dss_dack_data_ack_8oct opt))) opt
        else opt in
      Done (STATUS_OK, st, store_option packet_to_modify i opt)
  | DIRECTION_OUTBOUND => Done (STATUS_OK, st, packet_to_modify)
  | DIRECTION_INVALID => Done (STATUS_ERR, st, packet_to_modify)
  end.

(** ** The per-packet entry point *)

(** The [switch] on the subtype of an MPTCP option. *)
Definition mptcp_subtype_switch (st : mp_state_t)
    (packet_to_modify live_packet : packet) (i : nat) (direction : direction_t)
    : result (Z * mp_state_t * packet) :=
  let subtype := mp_capable_subtype (option_at packet_to_modify i) in
  if subtype =? MP_CAPABLE_SUBTYPE then
    mptcp_subtype_mp_capable st packet_to_modify live_packet i direction
  else if subtype =? MP_JOIN_SUBTYPE then
    mptcp_subtype_mp_join st packet_to_modify live_packet i direction
  else if subtype =? DSS_SUBTYPE then
    mptcp_subtype_dss st packet_to_modify live_packet i direction
  else Done (STATUS_ERR, st, packet_to_modify).

(** The options not yet visited are [remaining] many, from number [i] on. *)
Fixpoint options_loop (remaining : nat) (i : nat) (st : mp_state_t)
    (packet_to_modify live_packet : packet) (direction : direction_t)
    : result (Z * mp_state_t * packet) :=
  match remaining with
  | O => Done (STATUS_OK, st, packet_to_modify)
  | S remaining =>
      let tcp_opt_to_modify := option_at packet_to_modify i in
      if opt_kind tcp_opt_to_modify =? TCPOPT_MPTCP then
        '(error, st, packet_to_modify) <-
          mptcp_subtype_switch st packet_to_modify live_packet i direction ;;
        if negb (error =? 0) then Done (STATUS_ERR, st, packet_to_modify)
        else options_loop remaining (S i) st packet_to_modify live_packet
               direction
      else options_loop remaining (S i) st packet_to_modify live_packet
             direction
  end.

Definition mptcp_insert_and_extract_opt_fields (st : mp_state_t)
    (packet_to_modify live_packet : packet) (direction : direction_t)
    : result (Z * mp_state_t * packet) :=
  options_loop (List.length (tcp_options packet_to_modify)) 0 st
    packet_to_modify live_packet direction.

End Engine.


(** ** Sockets and freeing *)

(** Modelled from the spec: [struct socket] is declared in a header that is
    not part of the sources at hand; of a socket the engine reads the two
    ports of the live connection, [live.local.port] and
    [live.remote.port]. *)
Record socket := {
  live_local_port : Z;
  live_remote_port : Z
}.

Definition find_subflow_matching_socket (socket : socket) (st : mp_state_t)
    : option nat :=
  first_match
    (fun subflow =>
       (dst_port subflow =? live_remote_port socket) &&
       (src_port subflow =? live_local_port socket))
    (subflows st).

(** What [free] is called on when the variables are freed: the name of a
    variable, the value a variable points to, or the variable itself. *)
Inductive freed_pointer :=
  | FreedName (var : mp_var)
  | FreedValue (v : var_value)
  | FreedVar (var : mp_var).

(** [free_vars] walks the table from the variable added first to the one
    added last, and returns the pointers it frees, in order. *)
Definition free_vars {hdr : Header} (st : mp_state_t) : list freed_pointer :=
  flat_map
    (fun var =>
       FreedName var ::
       (if mptcp_subtype var =? MP_CAPABLE_SUBTYPE
        then if script_defined var then [FreedValue (value var)] else []
        else []) ++
       [FreedVar var])
    (rev (vars st)).

(** ** Runs of the engine *)

Section Runs.
Context {host : Host} {hdr : Header} {proc : Process}.

(** The states the engine can be in: [init_mp_state] on the zeroed global,
    then names queued and values bound by the parser, and packets handled,
    in any order. *)
Inductive reachable : mp_state_t -> Prop :=
  | reachable_init : reachable (init_mp_state mp_state_zero)
  | reachable_enqueue_var st name error st' :
      reachable st ->
      enqueue_var name st = Done (error, st') ->
      reachable st'
  | reachable_script_defined st name value length st' :
      reachable st ->
      add_mp_var_script_defined name value length st = Done st' ->
      reachable st'
  | reachable_packet st packet_to_modify live_packet direction error st' p' :
      reachable st ->
      mptcp_insert_and_extract_opt_fields st packet_to_modify live_packet
        direction = Done (error, st', p') ->
      reachable st'.

(** The payload length the DSS handler computes for a packet. *)
Definition payload_of (p : packet) : Z :=
  match ipv4 p with
  | Some ip4 => tcp_payload_length p ip4
  | None => 0
  end.

(** The subflow sequence number the DSS handler left in option [o'], which
    was [o] before: the field of the variant, read back from network
    order. *)
Definition written_subflow_seq (o o' : tcp_option) : Z :=
  ntohl (if opt_length o =? TCPOLEN_DSS_DSN8
         then dss_dsn_w_cs_subflow_seq_nbr o'
         else dss_dsn_wo_cs_subflow_seq_nbr o').

(** The DSS handler on a sequence of inbound options, one after the other
    (option [i] of packet [p] for each [(p, i)]), and the subflow sequence
    numbers it wrote. *)
Fixpoint dss_run (st : mp_state_t) (l : list (packet * nat))
    : result (mp_state_t * list Z) :=
  match l with
  | [] => Done (st, [])
  | (p, i) :: r =>
      '(_, st, p') <- mptcp_subtype_dss st p p i DIRECTION_INBOUND ;;
      '(st, written) <- dss_run st r ;;
      Done (st, written_subflow_seq (option_at p i) (option_at p' i) :: written)
  end.

(** The sum of the payload lengths of the packets of a sequence. *)
Definition payload_sum (l : list (packet * nat)) : Z :=
  fold_right (fun pi sum => payload_of (fst pi) + sum) 0 l.

(** An inbound DSS option with a DSN, in a packet of the subflow number [k]
    of state [st]. *)
Definition dss_dsn_on (st : mp_state_t) (k : nat) (pi : packet * nat) : Prop :=
  let o := option_at (fst pi) (snd pi) in
  (snd pi < List.length (tcp_options (fst pi)))%nat /\
  dss_flag_dsn o = true /\
  (opt_length o = TCPOLEN_DSS_DSN8 \/ opt_length o = TCPOLEN_DSS_DSN8_WOCS) /\
  ipv4 (fst pi) <> None /\
  find_subflow_matching_inbound_packet (fst pi) st = Some k.









(** A function of the engine that leaves [initial_dack] and the subflows
    as they were. *)
Definition untouched (st st' : mp_state_t) : Prop :=
  initial_dack st' = initial_dack st /\ subflows st' = subflows st.

(** Where a subflow is: its addresses and ports, and the address id
    packetdrill gave it. *)
Definition endpoints (s : mp_subflow) :=
  (src_ip s, dst_ip s, src_port s, dst_port s, packetdrill_addr_id s).

(** The state [st'] continues [st]: variables were only added, in front and
    bound to keys of the session; names were only taken from the front of
    the queue; a key that was set is still set; numbers were only drawn;
    subflows were only added, in front, and none has moved. *)
Definition extends (st st' : mp_state_t) : Prop :=
  (exists new,
     vars st' = new ++ vars st /\
     Forall (fun var => script_defined var = false) new) /\
  (exists used, vars_queue st = used ++ vars_queue st') /\
  (packetdrill_key_set st = true -> packetdrill_key_set st' = true) /\
  (kernel_key_set st = true -> kernel_key_set st' = true) /\
  (random_draws st <= random_draws st')%nat /\
  (exists new,
     map endpoints (subflows st') = new ++ map endpoints (subflows st)).

(** What the engine reads of an option to decide how to handle it: kind,
    length, subtype and the two DSS flags. *)
Definition same_option_shape (o o' : tcp_option) : Prop :=
  opt_kind o' = opt_kind o /\
  opt_length o' = opt_length o /\
  mp_capable_subtype o' = mp_capable_subtype o /\
  dss_flag_dsn o' = dss_flag_dsn o /\
  dss_flag_dack o' = dss_flag_dack o.


End Runs.

(** ** A session, as a script would drive it *)

Module Session.

Definition little_endian_lp64 : Host :=
  {| byte_order := LittleEndian; sizeof_unsigned_long := 8 |}.

Definition big_endian_lp64 : Host :=
  {| byte_order := BigEndian; sizeof_unsigned_long := 8 |}.

(** A process whose generator returns 0x1122334455667788 first, whose heap
    holds a zero byte behind each name, and whose checksums are zero. *)
Definition quiet_process : Process := {|
  random := fun n =>
    match n with
    | O => 0x1122334455667788
    | S _ => 0xcafebabe + Z.of_nat n
    end;
  malloc_beyond := [0];
  malloc_mp_subflow := Build_mp_subflow (IPv4 0) (IPv4 0) 0 0 0 0 0 0 0;
  tcp_segment_checksum := fun _ => 0;
  checksum := fun _ => 0
|}.

#[local] Existing Instance little_endian_lp64.
#[local] Existing Instance rfc6824.
#[local] Existing Instance quiet_process.

Definition final_state (r : result (Z * mp_state_t * packet)) : mp_state_t :=
  match r with
  | Done (_, st, _) => st
  | Undefined => mp_state_zero
  end.

Definition mptcp_option (length subtype : Z) : tcp_option :=
  Build_tcp_option 30 length subtype 0 0 0 0 0 0 0 0 [] false false
    0 0 0 0 0 0 0.

Definition dss_dsn_option (length raw_dsn : Z) : tcp_option :=
  Build_tcp_option 30 length 2 0 0 0 0 0 0 0 0 [] true false
    raw_dsn 0 0 0 0 0 0.

Definition ipv4_header : ipv4_hdr :=
  {| ipv4_ihl := 5; ipv4_src_ip := 0x0a000001; ipv4_dst_ip := 0x0a000002 |}.

Definition tcp_packet (bytes src dst : Z) (syn ack : bool) (doff : Z)
    (options : list tcp_option) : packet :=
  {| ip_bytes := bytes; ipv4 := Some ipv4_header; ipv6 := None;
     tcp := {| tcp_src_port := src; tcp_dst_port := dst; tcp_syn := syn;
               tcp_ack := ack; tcp_doff := doff |};
     tcp_options := options |}.

(** The names [<c>] and [<s>] of the script. *)
Definition name_c : chars_ptr := c_string [99].
Definition name_s : chars_ptr := c_string [115].

Definition after_enqueue (name : chars_ptr) (st : mp_state_t) : mp_state_t :=
  match enqueue_var name st with
  | Done (_, st) => st
  | Undefined => st
  end.

(** The MP_CAPABLE handshake: inbound SYN, outbound SYN/ACK whose live
    packet carries the key 0xAABBCCDDEEFF0011, inbound ACK. *)
Definition syn_packet : packet :=
  tcp_packet 52 1000 2000 true false 8 [mptcp_option 12 0].

Definition syn_ack_packet : packet :=
  tcp_packet 52 2000 1000 true true 8 [mptcp_option 12 0].

Definition live_syn_ack_packet : packet :=
  tcp_packet 52 2000 1000 true true 8
    [with_mp_capable_syn_key 0xaabbccddeeff0011 (mptcp_option 12 0)].

Definition ack_packet : packet :=
  tcp_packet 60 1000 2000 false true 10 [mptcp_option 20 0].

Definition st_start : mp_state_t := init_mp_state mp_state_zero.

Definition st_syn : mp_state_t := Eval vm_compute in
  final_state (mptcp_insert_and_extract_opt_fields
                 (after_enqueue name_c st_start)
                 syn_packet syn_packet DIRECTION_INBOUND).

Definition st_syn_ack : mp_state_t := Eval vm_compute in
  final_state (mptcp_insert_and_extract_opt_fields
                 (after_enqueue name_s st_syn)
                 syn_ack_packet live_syn_ack_packet DIRECTION_OUTBOUND).

Definition st_established : mp_state_t := Eval vm_compute in
  final_state (mptcp_insert_and_extract_opt_fields
                 (after_enqueue name_s (after_enqueue name_c st_syn_ack))
                 ack_packet ack_packet DIRECTION_INBOUND).

(** Two inbound data packets on the first subflow, with payloads of 1000
    and 500 bytes, and DSS options with a checksum. *)
Definition dss_packet_1 : packet :=
  tcp_packet 1060 1000 2000 false true 10 [dss_dsn_option 20 0].


(** A second subflow: inbound MP_JOIN SYN from another port, outbound
    SYN/ACK whose live packet carries the nonce 0xDEADBEEF and address
    id 5, inbound ACK. *)
Definition join_syn_packet : packet :=
  tcp_packet 52 1001 2000 true false 8 [mptcp_option 12 1].

Definition join_syn_ack_packet : packet :=
  tcp_packet 56 2000 1001 true true 9 [mptcp_option 16 1].

Definition live_join_syn_ack_packet : packet :=
  tcp_packet 56 2000 1001 true true 9
    [with_mp_join_syn_address_id 5
       (with_mp_join_syn_ack_sender_random_number 0xdeadbeef
          (mptcp_option 16 1))].

Definition join_ack_packet : packet :=
  tcp_packet 64 1001 2000 false true 11 [mptcp_option 24 1].

Definition st_join_syn : mp_state_t := Eval vm_compute in
  final_state (mptcp_insert_and_extract_opt_fields st_established
                 join_syn_packet join_syn_packet DIRECTION_INBOUND).

Definition st_join_syn_ack : mp_state_t := Eval vm_compute in
  final_state (mptcp_insert_and_extract_opt_fields st_join_syn
                 join_syn_ack_packet live_join_syn_ack_packet
                 DIRECTION_OUTBOUND).

(** An inbound data packet from a port no subflow was opened on. *)
Definition dss_packet_unknown : packet :=
  tcp_packet 1060 1002 2000 false true 10 [dss_dsn_option 20 0].

(** A live packet without any MPTCP option: an outbound SYN of a kernel
    that does not join, or a SYN/ACK of a kernel that does not speak
    MPTCP. *)
Definition live_plain_syn_packet : packet :=
  tcp_packet 40 2000 1003 true false 5 [].

Definition join_syn_out_packet : packet :=
  tcp_packet 52 2000 1003 true false 8 [mptcp_option 12 1].

Definition live_plain_syn_ack_packet : packet :=
  tcp_packet 40 2000 1000 true true 5 [].

(** The script binds [<s>] to the key 2 before the SYN/ACK. *)
Definition st_script_defined_s : mp_state_t := Eval vm_compute in
  match add_mp_var_script_defined name_s (le_bytes 8 2) 8 st_syn with
  | Done st => after_enqueue name_s st
  | Undefined => st_syn
  end.

(** A process like [quiet_process], but with the bytes of "x" and a zero
    behind each block allocated for a name. *)
Definition noisy_process : Process := {|
  random := @random quiet_process;
  malloc_beyond := [120; 0];
  malloc_mp_subflow := @malloc_mp_subflow quiet_process;
  tcp_segment_checksum := fun _ => 0;
  checksum := fun _ => 0
|}.

(** After the handshake the script binds [<k>] to the key 7 and uses the
    name in the MP_CAPABLE option of another inbound SYN. *)
Definition name_k : chars_ptr := c_string [107].

Definition st_script_defined_k : mp_state_t := Eval vm_compute in
  match add_mp_var_script_defined name_k (le_bytes 8 7) 8 st_established with
  | Done st => after_enqueue name_k st
  | Undefined => st_established
  end.

End Session.
(** * Properties *)

(** ** Bytes *)

Module BytesFacts.

Lemma le_bytes_length n : forall v, length (le_bytes n v) = n.
Proof. induction n; intros; simpl; [reflexivity | now rewrite IHn]. Qed.

Lemma be_bytes_length n v : length (be_bytes n v) = n.
Proof. unfold be_bytes. rewrite length_rev. apply le_bytes_length. Qed.

Lemma le_bytes_is_byte n : forall v, Forall is_byte (le_bytes n v).
Proof.
  induction n; intros; simpl; constructor; auto.
  unfold is_byte. apply Z.mod_pos_bound. lia.
Qed.

Lemma be_bytes_is_byte n v : Forall is_byte (be_bytes n v).
Proof.
  unfold be_bytes. apply Forall_forall. intros x Hx.
  apply in_rev in Hx.
  exact (proj1 (Forall_forall _ _) (le_bytes_is_byte n v) x Hx).
Qed.

Lemma le_decode_le_bytes n :
  forall v, le_decode (le_bytes n v) = v mod 2 ^ (8 * Z.of_nat n).
Proof.
  induction n; intros v.
  - simpl. now rewrite Z.mod_1_r.
  - cbn [le_bytes le_decode]. rewrite IHn.
    replace (8 * Z.of_nat (S n)) with (8 + 8 * Z.of_nat n) by lia.
    rewrite Z.pow_add_r by lia. change (2 ^ 8) with 256.
    rewrite Z.rem_mul_r by lia. reflexivity.
Qed.

Lemma be_decode_be_bytes n v :
  be_decode (be_bytes n v) = v mod 2 ^ (8 * Z.of_nat n).
Proof.
  unfold be_decode, be_bytes. rewrite rev_involutive. apply le_decode_le_bytes.
Qed.

Lemma le_bytes_le_decode :
  forall l, Forall is_byte l -> le_bytes (length l) (le_decode l) = l.
Proof.
  induction 1 as [|b r Hb Hr IH]; [reflexivity|].
  cbn [length le_bytes le_decode]. unfold is_byte in Hb.
  assert (Hm : (b + 256 * le_decode r) mod 256 = b).
  { rewrite (Z.mul_comm 256), Z.mod_add by lia. apply Z.mod_small. exact Hb. }
  assert (Hd : (b + 256 * le_decode r) / 256 = le_decode r).
  { rewrite (Z.mul_comm 256), Z.div_add by lia.
    rewrite (Z.div_small b 256) by exact Hb. lia. }
  rewrite Hm, Hd.
  now rewrite IH.
Qed.

Lemma be_bytes_be_decode l :
  Forall is_byte l -> be_bytes (length l) (be_decode l) = l.
Proof.
  intros H. unfold be_bytes, be_decode.
  rewrite <- (length_rev l).
  rewrite le_bytes_le_decode.
  - apply rev_involutive.
  - apply Forall_forall. intros x Hx. apply in_rev in Hx.
    exact (proj1 (Forall_forall _ _) H x Hx).
Qed.

Lemma le_bytes_mod n :
  forall v, le_bytes n (v mod 2 ^ (8 * Z.of_nat n)) = le_bytes n v.
Proof.
  intros v.
  rewrite <- (le_bytes_length n v) at 1.
  rewrite <- le_decode_le_bytes.
  apply le_bytes_le_decode, le_bytes_is_byte.
Qed.

Lemma be_bytes_mod n v : be_bytes n (v mod 2 ^ (8 * Z.of_nat n)) = be_bytes n v.
Proof. unfold be_bytes. now rewrite le_bytes_mod. Qed.

End BytesFacts.
Export BytesFacts.

(** ** SHA-1 *)

Module SHA1Facts.
Import SHA1.

Lemma sha1_length msg : length (sha1 msg) = 20%nat.
Proof.
  unfold sha1, digest_bytes. rewrite !length_app, !be_bytes_length. reflexivity.
Qed.


Lemma hmac_length key msg : length (hmac key msg) = 20%nat.
Proof. apply sha1_length. Qed.

(** FIPS 180 and RFC 2202 test vectors. *)
Example sha1_abc :
  sha1 [0x61; 0x62; 0x63] =
  [0xa9; 0x99; 0x3e; 0x36; 0x47; 0x06; 0x81; 0x6a; 0xba; 0x3e;
   0x25; 0x71; 0x78; 0x50; 0xc2; 0x6c; 0x9c; 0xd0; 0xd8; 0x9d].
Proof. vm_compute. reflexivity. Qed.

Example sha1_empty :
  sha1 [] =
  [0xda; 0x39; 0xa3; 0xee; 0x5e; 0x6b; 0x4b; 0x0d; 0x32; 0x55;
   0xbf; 0xef; 0x95; 0x60; 0x18; 0x90; 0xaf; 0xd8; 0x07; 0x09].
Proof. vm_compute. reflexivity. Qed.

Example hmac_rfc2202_2 :
  hmac [0x4a; 0x65; 0x66; 0x65]
       [0x77; 0x68; 0x61; 0x74; 0x20; 0x64; 0x6f; 0x20; 0x79; 0x61; 0x20;
        0x77; 0x61; 0x6e; 0x74; 0x20; 0x66; 0x6f; 0x72; 0x20; 0x6e; 0x6f;
        0x74; 0x68; 0x69; 0x6e; 0x67; 0x3f] =
  [0xef; 0xfc; 0xdf; 0x6a; 0xe5; 0xeb; 0x2f; 0xa2; 0xd2; 0x74;
   0x16; 0xd5; 0xf1; 0x84; 0xdf; 0x9c; 0x25; 0x9a; 0x7c; 0x79].
Proof. vm_compute. reflexivity. Qed.

End SHA1Facts.
Export SHA1Facts.

(** ** Byte order *)

Section ByteOrderFacts.
Context {host : Host}.

Lemma host_bytes_length n v : List.length (host_bytes n v) = n.
Proof.
  unfold host_bytes. destruct byte_order;
    [apply le_bytes_length | apply be_bytes_length].
Qed.

Lemma host_bytes_host_decode l :
  Forall is_byte l -> host_bytes (List.length l) (host_decode l) = l.
Proof.
  intros H. unfold host_bytes, host_decode. destruct byte_order.
  - now apply le_bytes_le_decode.
  - now apply be_bytes_be_decode.
Qed.

Lemma host_decode_host_bytes n v :
  host_decode (host_bytes n v) = v mod 2 ^ (8 * Z.of_nat n).
Proof.
  unfold host_bytes, host_decode. destruct byte_order.
  - apply le_decode_le_bytes.
  - apply be_decode_be_bytes.
Qed.

(** What [htons], [htonl] and [htobe64] leave in memory is the argument in
    network byte order. *)
Lemma host_bytes_htons x : host_bytes 2 (htons x) = be_bytes 2 x.
Proof.
  unfold htons. rewrite <- (be_bytes_length 2 x) at 1.
  apply host_bytes_host_decode, be_bytes_is_byte.
Qed.

Lemma host_bytes_htonl x : host_bytes 4 (htonl x) = be_bytes 4 x.
Proof.
  unfold htonl. rewrite <- (be_bytes_length 4 x) at 1.
  apply host_bytes_host_decode, be_bytes_is_byte.
Qed.


Lemma ntohs_htons x : ntohs (htons x) = x mod 2 ^ 16.
Proof. unfold ntohs. rewrite host_bytes_htons. apply be_decode_be_bytes. Qed.

Lemma ntohl_htonl x : ntohl (htonl x) = x mod 2 ^ 32.
Proof. unfold ntohl. rewrite host_bytes_htonl. apply be_decode_be_bytes. Qed.

End ByteOrderFacts.

(** ** Options inside a packet *)

Lemma nth_replace_nth {A : Type} (d x : A) :
  forall (l : list A) (i : nat),
    (i < List.length l)%nat -> nth i (replace_nth i x l) d = x.
Proof.
  induction l as [|y r IH]; intros i Hi; simpl in Hi; [lia|].
  destruct i; simpl; [reflexivity | apply IH; lia].
Qed.

Lemma nth_replace_nth_other {A : Type} (d x : A) :
  forall (l : list A) (i j : nat),
    i <> j -> nth j (replace_nth i x l) d = nth j l d.
Proof.
  induction l as [|y r IH]; intros i j Hij; simpl.
  - destruct i; reflexivity.
  - destruct i, j; simpl; try reflexivity; try lia. apply IH. lia.
Qed.

Lemma replace_nth_length {A : Type} (x : A) :
  forall (l : list A) (i : nat), List.length (replace_nth i x l) = List.length l.
Proof.
  induction l as [|y r IH]; intros i; simpl.
  - destruct i; reflexivity.
  - destruct i; simpl; [reflexivity | now rewrite IH].
Qed.

Lemma option_at_store_option p i o :
  (i < List.length (tcp_options p))%nat -> option_at (store_option p i o) i = o.
Proof. intros Hi. unfold option_at, store_option. simpl. now apply nth_replace_nth. Qed.

Lemma store_option_headers p i o :
  tcp (store_option p i o) = tcp p /\ ipv4 (store_option p i o) = ipv4 p /\
  ipv6 (store_option p i o) = ipv6 p /\ ip_bytes (store_option p i o) = ip_bytes p.
Proof. repeat split. Qed.

(** ** The subflow list *)

Section SubflowFacts.
Context {host : Host} {hdr : Header} {proc : Process}.

Lemma first_match_bound matches :
  forall l k, first_match matches l = Some k -> (k < List.length l)%nat.
Proof.
  induction l as [|s r IH]; intros k H; simpl in H; [discriminate|].
  destruct (matches s).
  - injection H as <-. simpl. lia.
  - destruct (first_match matches r) as [j|] eqn:E; [|discriminate].
    injection H as <-. simpl. specialize (IH j eq_refl). lia.
Qed.

(** Changing a subflow in a way the predicate does not see leaves the
    result of the search as it was. *)
Lemma first_match_replace_nth matches (f : mp_subflow -> mp_subflow) d :
  (forall s, matches (f s) = matches s) ->
  forall l i,
    first_match matches (replace_nth i (f (nth i l d)) l) = first_match matches l.
Proof.
  intros Hf. induction l as [|s r IH]; intros i; simpl.
  - destruct i; reflexivity.
  - destruct i; simpl.
    + now rewrite Hf.
    + now rewrite IH.
Qed.

Lemma find_inbound_update_subflow p k f st :
  (forall s, src_port (f s) = src_port s /\ dst_port (f s) = dst_port s) ->
  find_subflow_matching_inbound_packet p (update_subflow k f st) =
  find_subflow_matching_inbound_packet p st.
Proof.
  intros Hf.
  unfold find_subflow_matching_inbound_packet, find_matching_subflow,
    update_subflow, subflow_at. simpl.
  apply (first_match_replace_nth
           (fun s => does_subflow_match_inbound_packet s p) f).
  intros s. unfold does_subflow_match_inbound_packet.
  destruct (Hf s) as [-> ->]. reflexivity.
Qed.

Lemma find_inbound_bound p st k :
  find_subflow_matching_inbound_packet p st = Some k ->
  (k < List.length (subflows st))%nat.
Proof. apply first_match_bound. Qed.

Lemma subflow_at_update_subflow k f st :
  (k < List.length (subflows st))%nat ->
  subflow_at (update_subflow k f st) k = f (subflow_at st k).
Proof.
  intros Hk. unfold subflow_at, update_subflow. simpl.
  now apply nth_replace_nth.
Qed.

Lemma subflow_at_update_subflow_other k j f st :
  k <> j -> subflow_at (update_subflow k f st) j = subflow_at st j.
Proof.
  intros Hk. unfold subflow_at, update_subflow. simpl.
  now apply nth_replace_nth_other.
Qed.

End SubflowFacts.

(** ** The DSS handler *)

Section DssFacts.
Context {host : Host} {hdr : Header} {proc : Process}.

(** The [u16] computation of the payload length, without its intermediate
    truncations. *)
Lemma tcp_payload_length_eq p ip4 :
  tcp_payload_length p ip4 =
  (ip_bytes p - 8 * ipv4_ihl ip4 - (4 * tcp_doff (tcp p) - 20)) mod 2 ^ 16.
Proof.
  unfold tcp_payload_length, u16.
  set (m := 2 ^ 16). set (a := ip_bytes p). set (b := ipv4_ihl ip4 * 8).
  set (c := tcp_doff (tcp p) * 4).
  assert (Hm : m <> 0) by (unfold m; lia).
  rewrite (Z.mod_eq a m), (Z.mod_eq b m), (Z.mod_eq c m) by exact Hm.
  replace (a - m * (a / m) - (b - m * (b / m)) - (c - m * (c / m) - 20))
    with (a - b - (c - 20) + (b / m + c / m - a / m) * m) by ring.
  rewrite Z.mod_add by exact Hm.
  f_equal. unfold a, b, c. ring.
Qed.

(** With an IPv4 header of twenty bytes ([ihl = 5]) this is the length of
    the TCP payload: the packet without its IP and TCP headers. *)
Lemma tcp_payload_length_ihl5 p ip4 :
  ipv4_ihl ip4 = 5 ->
  tcp_payload_length p ip4 = (ip_bytes p - 20 - 4 * tcp_doff (tcp p)) mod 2 ^ 16.
Proof.
  intros H. rewrite tcp_payload_length_eq, H. f_equal. ring.
Qed.

(** What the handler does with an inbound DSS option that carries a DSN,
    for both variants. *)
Lemma dss_dsn_step st p live i ip4 k :
  let o := option_at p i in
  let len := tcp_payload_length p ip4 in
  dss_flag_dsn o = true ->
  opt_length o = TCPOLEN_DSS_DSN8 \/
  (opt_length o = TCPOLEN_DSS_DSN8_WOCS /\
   TCPOLEN_DSS_DSN8_WOCS <> TCPOLEN_DSS_DSN8) ->
  ipv4 p = Some ip4 ->
  find_subflow_matching_inbound_packet p st = Some k ->
  exists o',
    mptcp_subtype_dss st p live i DIRECTION_INBOUND =
    Done (STATUS_OK,
          update_subflow k
            (fun s => with_subflow_sequence_number
                        (u32 (subflow_sequence_number s + len)) s) st,
          store_option p i o') /\
    (opt_length o = TCPOLEN_DSS_DSN8 ->
     dss_dsn_data_seq_nbr_8oct o' =
       htobe64 (u64 (initial_dsn st + dss_dsn_data_seq_nbr_8oct o)) /\
     dss_dsn_w_cs_data_level_length o' = htons len /\
     dss_dsn_w_cs_subflow_seq_nbr o' =
       htonl (subflow_sequence_number (subflow_at st k))) /\
    (opt_length o = TCPOLEN_DSS_DSN8_WOCS ->
     TCPOLEN_DSS_DSN8_WOCS <> TCPOLEN_DSS_DSN8 ->
     dss_dsn_data_seq_nbr_8oct o' =
       htobe64 (u64 (initial_dsn st + dss_dsn_data_seq_nbr_8oct o + 1)) /\
     dss_dsn_wo_cs_data_level_length o' = htons len /\
     dss_dsn_wo_cs_subflow_seq_nbr o' =
       htonl (subflow_sequence_number (subflow_at st k))).
Proof.
  intros o len Hflag Hlen Hip Hfind.
  unfold mptcp_subtype_dss. fold o. rewrite Hflag, Hip, Hfind.
  destruct Hlen as [Hlen | [Hlen Hne]].
  - rewrite Hlen, Z.eqb_refl. cbn [andb bind].
    eexists. split; [reflexivity|]. split.
    + intros _.
      match goal with |- context [if ?c then _ else _] => destruct c end;
        repeat split.
    + intros Hw Hne. congruence.
  - rewrite Hlen. apply Z.eqb_neq in Hne as Hne'. rewrite Hne', Z.eqb_refl.
    cbn [andb bind].
    eexists. split; [reflexivity|]. split.
    + intros Hw. congruence.
    + intros _ _.
      match goal with |- context [if ?c then _ else _] => destruct c end;
        repeat split.
Qed.

End DssFacts.

Section DssClaims.
Context {host : Host} {hdr : Header} {proc : Process}.


(** The data-level length the handler leaves in the option, in general:
    the payload length it computed, with [ihl * 8] for the IP header. *)
Lemma dss_data_level_length_general st p live i ip4 k :
  let o := option_at p i in
  (i < List.length (tcp_options p))%nat ->
  dss_flag_dsn o = true ->
  opt_length o = TCPOLEN_DSS_DSN8 \/
  (opt_length o = TCPOLEN_DSS_DSN8_WOCS /\
   TCPOLEN_DSS_DSN8_WOCS <> TCPOLEN_DSS_DSN8) ->
  ipv4 p = Some ip4 ->
  find_subflow_matching_inbound_packet p st = Some k ->
  exists st' p',
    mptcp_subtype_dss st p live i DIRECTION_INBOUND = Done (STATUS_OK, st', p') /\
    let o' := option_at p' i in
    (if opt_length o =? TCPOLEN_DSS_DSN8
     then dss_dsn_w_cs_data_level_length o'
     else dss_dsn_wo_cs_data_level_length o') =
    htons (tcp_payload_length p ip4).
Proof.
  intros o Hi Hflag Hlen Hip Hfind.
  destruct (dss_dsn_step st p live i ip4 k Hflag Hlen Hip Hfind)
    as (o' & Hrun & Hw & Hwo).
  eexists. eexists. split; [exact Hrun|].
  cbn zeta. rewrite (option_at_store_option p i o' Hi).
  destruct Hlen as [Hlen | [Hlen Hne]].
  - fold o. rewrite Hlen, Z.eqb_refl. now destruct (Hw Hlen) as (_ & -> & _).
  - fold o. rewrite Hlen, (proj2 (Z.eqb_neq _ _) Hne).
    now destruct (Hwo Hlen Hne) as (_ & -> & _).
Qed.

(** C4, as the code has it.  For an inbound DSS option that carries a DSN,
    in either variant, on a packet of a known subflow whose IPv4 header has
    twenty bytes ([ihl = 5]), the handler returns and the data-level length
    it leaves in the option is the length of the TCP payload, the bytes of
    the packet less the IP header and less the TCP header with its options,
    as a 16-bit number in network byte order. *)
Theorem dss_data_level_length_written st p live i ip4 k :
  let o := option_at p i in
  let ip_header_len := 4 * ipv4_ihl ip4 in
  let tcp_header_len := 4 * tcp_doff (tcp p) in
  (i < List.length (tcp_options p))%nat ->
  dss_flag_dsn o = true ->
  opt_length o = TCPOLEN_DSS_DSN8 \/
  (opt_length o = TCPOLEN_DSS_DSN8_WOCS /\
   TCPOLEN_DSS_DSN8_WOCS <> TCPOLEN_DSS_DSN8) ->
  ipv4 p = Some ip4 ->
  ipv4_ihl ip4 = 5 ->
  find_subflow_matching_inbound_packet p st = Some k ->
  exists st' p',
    mptcp_subtype_dss st p live i DIRECTION_INBOUND = Done (STATUS_OK, st', p') /\
    let o' := option_at p' i in
    let written :=
      if opt_length o =? TCPOLEN_DSS_DSN8
      then dss_dsn_w_cs_data_level_length o'
      else dss_dsn_wo_cs_data_level_length o' in
    host_bytes 2 written = be_bytes 2 (ip_bytes p - ip_header_len - tcp_header_len) /\
    ntohs written = (ip_bytes p - ip_header_len - tcp_header_len) mod 2 ^ 16.
Proof.
  intros o ip_header_len tcp_header_len Hi Hflag Hlen Hip H5 Hfind.
  destruct (dss_data_level_length_general st p live i ip4 k
              Hi Hflag Hlen Hip Hfind) as (st' & p' & Hrun & Hwritten).
  exists st', p'. split; [exact Hrun|].
  cbn zeta in Hwritten |- *. fold o in Hwritten. rewrite Hwritten.
  rewrite (tcp_payload_length_ihl5 p ip4 H5).
  unfold ip_header_len, tcp_header_len. rewrite H5.
  replace (ip_bytes p - 4 * 5 - 4 * tcp_doff (tcp p))
    with (ip_bytes p - 20 - 4 * tcp_doff (tcp p)) by ring.
  split.
  - rewrite host_bytes_htons. apply (be_bytes_mod 2).
  - rewrite ntohs_htons. apply Z.mod_mod. lia.
Qed.

End DssClaims.

(** ** Sequences of DSS options on one subflow *)

Section DssSequences.
Context {host : Host} {hdr : Header} {proc : Process}.

Lemma u32_add_u32_l a b : u32 (u32 a + b) = u32 (a + b).
Proof. unfold u32. apply Zplus_mod_idemp_l. Qed.

Lemma payload_sum_snoc l pi :
  payload_sum (l ++ [pi]) = payload_sum l + payload_of (fst pi).
Proof.
  induction l as [|x r IH]; simpl; [lia|]. rewrite IH. lia.
Qed.

Lemma firstn_S_nth_error {A : Type} :
  forall (l : list A) n x,
    nth_error l n = Some x -> firstn (S n) l = firstn n l ++ [x].
Proof.
  induction l as [|y r IH]; intros n x H.
  - destruct n; discriminate.
  - destruct n as [|n].
    + simpl in H. injection H as ->. reflexivity.
    + simpl in H. change (firstn (S (S n)) (y :: r)) with (y :: firstn (S n) r).
      rewrite (IH n x H). reflexivity.
Qed.

(** The DSS handler moves no subflow and changes no port. *)
Lemma dss_dsn_on_update_subflow st k f pi :
  (forall s, src_port (f s) = src_port s /\ dst_port (f s) = dst_port s) ->
  dss_dsn_on st k pi -> dss_dsn_on (update_subflow k f st) k pi.
Proof.
  intros Hf (Hi & Hflag & Hlen & Hip & Hfind).
  repeat split; try assumption.
  now rewrite find_inbound_update_subflow.
Qed.

(** The numbers written along a sequence are the sequence number the
    subflow had at first plus the payload lengths of the packets before. *)
Lemma dss_run_written :
  TCPOLEN_DSS_DSN8_WOCS <> TCPOLEN_DSS_DSN8 ->
  forall l st k,
    Forall (dss_dsn_on st k) l ->
    exists st' written,
      dss_run st l = Done (st', written) /\
      List.length written = List.length l /\
      (forall n, (n < List.length l)%nat ->
         nth n written 0 =
         u32 (subflow_sequence_number (subflow_at st k)
              + payload_sum (firstn n l))) /\
      u32 (subflow_sequence_number (subflow_at st' k)) =
      u32 (subflow_sequence_number (subflow_at st k) + payload_sum l).
Proof.
  intros Hne. induction l as [|[p i] r IH]; intros st k Hall.
  - exists st, []. repeat split.
    + intros n Hn. simpl in Hn. lia.
    + simpl. now rewrite Z.add_0_r.
  - inversion Hall as [|x y Hhead Hrest]; subst.
    destruct Hhead as (Hi & Hflag & Hlen & Hip & Hfind).
    cbn [fst snd] in Hi, Hflag, Hlen, Hip, Hfind.
    destruct (ipv4 p) as [ip4|] eqn:Eip; [clear Hip | contradiction].
    assert (Hlen' : opt_length (option_at p i) = TCPOLEN_DSS_DSN8 \/
                    (opt_length (option_at p i) = TCPOLEN_DSS_DSN8_WOCS /\
                     TCPOLEN_DSS_DSN8_WOCS <> TCPOLEN_DSS_DSN8))
      by (destruct Hlen; [left | right]; auto).
    destruct (dss_dsn_step st p p i ip4 k Hflag Hlen' Eip Hfind)
      as (o' & Hrun & Hw & Hwo).
    set (f := fun s => with_subflow_sequence_number
                         (u32 (subflow_sequence_number s
                               + tcp_payload_length p ip4)) s) in *.
    assert (Hf : forall s, src_port (f s) = src_port s /\
                           dst_port (f s) = dst_port s) by (intros s; split; reflexivity).
    assert (Hrest' : Forall (dss_dsn_on (update_subflow k f st) k) r).
    { eapply Forall_impl; [|exact Hrest].
      intros pi. now apply dss_dsn_on_update_subflow. }
    destruct (IH _ _ Hrest') as (st' & written & Hrun' & Hlength & Hnth & Hlast).
    pose proof (find_inbound_bound _ _ _ Hfind) as Hk.
    rewrite (subflow_at_update_subflow k f st Hk) in Hnth, Hlast.
    unfold f in Hnth, Hlast. cbn [subflow_sequence_number with_subflow_sequence_number] in Hnth, Hlast.
    assert (Hpay : payload_of p = tcp_payload_length p ip4)
      by (unfold payload_of; now rewrite Eip).
    eexists. eexists. split.
    { cbn [dss_run]. rewrite Hrun. cbn [bind]. rewrite Hrun'. cbn [bind].
      reflexivity. }
    split; [simpl; now rewrite Hlength|]. split.
    + intros [|n] Hn.
      * cbn [nth firstn payload_sum fold_right]. rewrite Z.add_0_r.
        rewrite (option_at_store_option p i o' Hi).
        unfold written_subflow_seq.
        destruct Hlen as [Hlen | Hlen].
        -- rewrite Hlen, Z.eqb_refl.
           destruct (Hw Hlen) as (_ & _ & ->). apply ntohl_htonl.
        -- rewrite Hlen, (proj2 (Z.eqb_neq _ _) Hne).
           destruct (Hwo Hlen Hne) as (_ & _ & ->). apply ntohl_htonl.
      * cbn [nth firstn]. rewrite Hnth by (simpl in Hn; lia).
        rewrite u32_add_u32_l. f_equal.
        change (payload_sum ((p, i) :: firstn n r))
          with (payload_of p + payload_sum (firstn n r)).
        rewrite Hpay. ring.
    + rewrite Hlast, u32_add_u32_l. f_equal.
      change (payload_sum ((p, i) :: r)) with (payload_of p + payload_sum r).
      rewrite Hpay. ring.
Qed.

(** Back to back on one subflow: each number written is the one written
    before plus the payload length of the packet before. *)
Lemma dss_run_advances :
  TCPOLEN_DSS_DSN8_WOCS <> TCPOLEN_DSS_DSN8 ->
  forall l st k,
    Forall (dss_dsn_on st k) l ->
    exists st' written,
      dss_run st l = Done (st', written) /\
      List.length written = List.length l /\
      (l <> [] ->
       nth 0 written 0 = u32 (subflow_sequence_number (subflow_at st k))) /\
      (forall n pi,
         nth_error l n = Some pi -> (S n < List.length l)%nat ->
         nth (S n) written 0 = u32 (nth n written 0 + payload_of (fst pi))) /\
      u32 (subflow_sequence_number (subflow_at st' k)) =
      u32 (subflow_sequence_number (subflow_at st k) + payload_sum l).
Proof.
  intros Hne l st k Hall.
  destruct (dss_run_written Hne l st k Hall)
    as (st' & written & Hrun & Hlength & Hnth & Hlast).
  exists st', written. repeat split; try assumption.
  - intros Hl. rewrite Hnth.
    + simpl. now rewrite Z.add_0_r.
    + destruct l; [contradiction | simpl; lia].
  - intros n pi Hpi Hn.
    rewrite (Hnth (S n) Hn), (Hnth n) by lia.
    rewrite (firstn_S_nth_error l n pi Hpi), payload_sum_snoc.
    rewrite u32_add_u32_l. f_equal. ring.
Qed.

(** A new subflow starts at sequence number 0. *)
Lemma new_subflow_inbound_starts_at_zero p st k st' :
  new_subflow_inbound p st = (Some k, st') ->
  subflow_sequence_number (subflow_at st' k) = 0.
Proof.
  unfold new_subflow_inbound.
  destruct (ipv4 p) as [ip4|]; [|destruct (ipv6 p) as [ip6|]];
    intros H; try discriminate; injection H as <- <-; reflexivity.
Qed.

Lemma new_subflow_outbound_starts_at_zero p st k st' :
  new_subflow_outbound p st = (Some k, st') ->
  subflow_sequence_number (subflow_at st' k) = 0.
Proof.
  unfold new_subflow_outbound.
  destruct (get_tcp_option p TCPOPT_MPTCP); [|discriminate].
  destruct (ipv4 p) as [ip4|]; [|destruct (ipv6 p) as [ip6|]];
    intros H; try discriminate; injection H as <- <-; reflexivity.
Qed.

End DssSequences.

(** ** The DSS handler in the session *)

Import Session.


Lemma dss_data_level_length_written_witness :
  exists st' p',
    @mptcp_subtype_dss little_endian_lp64 rfc6824 quiet_process
      st_established dss_packet_1 dss_packet_1 0 DIRECTION_INBOUND =
    Done (STATUS_OK, st', p') /\
    @host_bytes little_endian_lp64 2
      (dss_dsn_w_cs_data_level_length (option_at p' 0)) =
    be_bytes 2 1000.
Proof.
  destruct (@dss_data_level_length_written little_endian_lp64 rfc6824
              quiet_process st_established dss_packet_1 dss_packet_1 0
              ipv4_header 0%nat)
    as (st' & p' & Hrun & Hw & _).
  - simpl. lia.
  - reflexivity.
  - left. reflexivity.
  - reflexivity.
  - reflexivity.
  - reflexivity.
  - exists st', p'. split; [exact Hrun|].
    exact Hw.
Defined.

(** C4, as the claim has it, at the first data packet of the session: the
    packet has 1060 bytes, an IP header of 20 bytes and a TCP header of 40
    bytes, so the claim's length is 1060 - 20 - (40 - 20) = 1020; the
    handler writes 1000, the length of the payload. *)
Lemma dss_data_level_length_counterexample :
  let p := dss_packet_1 in
  let ip_header_len := 4 * ipv4_ihl ipv4_header in
  let tcp_header_len := 4 * tcp_doff (tcp p) in
  let claimed := ip_bytes p - ip_header_len - (tcp_header_len - 20) in
  exists st' p',
    @mptcp_subtype_dss little_endian_lp64 rfc6824 quiet_process
      st_established p p 0 DIRECTION_INBOUND = Done (STATUS_OK, st', p') /\
    claimed = 1020 /\
    @ntohs little_endian_lp64
      (dss_dsn_w_cs_data_level_length (option_at p' 0)) = 1000 /\
    dss_dsn_w_cs_data_level_length (option_at p' 0) <>
      @htons little_endian_lp64 claimed.
Proof.
  cbv zeta. eexists. eexists. split; [vm_compute; reflexivity|].
  split; [reflexivity|]. split; [vm_compute; reflexivity|].
  vm_compute. discriminate.
Qed.

(** ** Null subflows *)

Section NullSubflow.
Context {host : Host} {hdr : Header} {proc : Process}.

(** The DSS handler dereferences the result of the search without a test:
    when no subflow matches, its behaviour is undefined. *)
Lemma dss_dsn_no_subflow st p live i ip4 :
  let o := option_at p i in
  dss_flag_dsn o = true ->
  opt_length o = TCPOLEN_DSS_DSN8 \/ opt_length o = TCPOLEN_DSS_DSN8_WOCS ->
  ipv4 p = Some ip4 ->
  find_subflow_matching_inbound_packet p st = None ->
  mptcp_subtype_dss st p live i DIRECTION_INBOUND = Undefined.
Proof.
  intros o Hflag Hlen Hip Hfind.
  unfold mptcp_subtype_dss. fold o. rewrite Hflag, Hip, Hfind.
  destruct Hlen as [-> | ->].
  - now rewrite Z.eqb_refl.
  - rewrite Z.eqb_refl. now destruct (_ =? _).
Qed.

(** So does the MP_JOIN handler for an outbound SYN with the result of
    [new_subflow_outbound]. *)
Lemma mp_join_syn_out_no_subflow st p live i st' :
  tcp_syn (tcp p) = true -> tcp_ack (tcp p) = false ->
  opt_length (option_at p i) = TCPOLEN_MP_JOIN_SYN ->
  new_subflow_outbound live st = (None, st') ->
  mptcp_subtype_mp_join st p live i DIRECTION_OUTBOUND = Undefined.
Proof.
  intros Hsyn Hack Hlen Hnew.
  unfold mptcp_subtype_mp_join. rewrite Hsyn, Hack, Hlen, Hnew, Z.eqb_refl.
  reflexivity.
Qed.

End NullSubflow.

(** C10, at a data packet from a port no subflow was opened on and at an
    outbound MP_JOIN SYN whose live packet has no MPTCP option: the search
    and the creation return NULL, and the handlers dereference it. *)
Theorem null_subflow_dereferenced :
  @find_subflow_matching_inbound_packet little_endian_lp64
    dss_packet_unknown st_established = None /\
  @mptcp_insert_and_extract_opt_fields little_endian_lp64 rfc6824 quiet_process
    st_established dss_packet_unknown dss_packet_unknown DIRECTION_INBOUND =
  Undefined /\
  fst (@new_subflow_outbound little_endian_lp64 rfc6824 quiet_process
         live_plain_syn_packet st_established) = None /\
  @mptcp_insert_and_extract_opt_fields little_endian_lp64 rfc6824 quiet_process
    st_established join_syn_out_packet live_plain_syn_packet DIRECTION_OUTBOUND =
  Undefined.
Proof. repeat split; vm_compute; reflexivity. Qed.

(** ** The queue of names *)

Section NameFacts.
Context {host : Host} {hdr : Header} {proc : Process}.

Lemma c_chars_unterminated l : ~ In 0 l -> c_chars l = Undefined.
Proof.
  induction l as [|b r IH]; intros H; [reflexivity|].
  cbn [c_chars]. destruct (b =? 0) eqn:E.
  - apply Z.eqb_eq in E. subst. exfalso. apply H. now left.
  - rewrite IH; [reflexivity|]. intros Hin. apply H. now right.
Qed.

Lemma c_chars_terminated cs rest :
  ~ In 0 cs -> c_chars (cs ++ 0 :: rest) = Done cs.
Proof.
  induction cs as [|b r IH]; intros H; [reflexivity|].
  cbn [app c_chars]. destruct (b =? 0) eqn:E.
  - apply Z.eqb_eq in E. subst. exfalso. apply H. now left.
  - rewrite IH; [reflexivity|]. intros Hin. apply H. now right.
Qed.

(** What [enqueue_var] puts on the queue for the name [cs]: a block with
    the characters of the name and no terminator.  Read as a string, the
    block alone is not terminated; what a reader finds depends on the bytes
    that happen to lie behind it. *)
Lemma enqueue_var_block cs st :
  ~ In 0 cs ->
  (List.length (vars_queue st) < QUEUE_SIZE)%nat ->
  let new_el := {| allocated := cs; beyond := malloc_beyond |} in
  enqueue_var (c_string cs) st =
    Done (STATUS_OK, with_vars_queue (vars_queue st ++ [new_el]) st) /\
  c_chars (allocated new_el) = Undefined /\
  c_chars (memory_at new_el) = c_chars (cs ++ malloc_beyond).
Proof.
  intros Hcs Hq new_el. split; [|split].
  - unfold enqueue_var, strlen, c_string, memory_at. cbn [allocated beyond].
    rewrite <- app_assoc. cbn [app].
    rewrite (c_chars_terminated cs [] Hcs). cbn [bind].
    rewrite firstn_app, firstn_all, Nat.sub_diag. cbn [firstn].
    rewrite app_nil_r. unfold queue_enqueue.
    destruct (QUEUE_SIZE <=? List.length (vars_queue st))%nat eqn:E.
    + apply Nat.leb_le in E. lia.
    + reflexivity.
  - now apply c_chars_unterminated.
  - reflexivity.
Qed.

End NameFacts.

(** C9, at the name "c" with the bytes of "x" and a zero behind the
    allocated block: the name that comes back from the queue is a block of
    one byte without a terminator; read as a string it is "cx", and the
    variable bound to "c" is found under the name that was queued and not
    under the name that was popped. *)
Theorem enqueue_var_drops_terminator :
  exists st1 popped st2 var,
    @enqueue_var rfc6824 noisy_process name_c st_start = Done (STATUS_OK, st1) /\
    dequeue_var st1 = Some (popped, st2) /\
    allocated popped = [99] /\
    c_chars (allocated popped) = Undefined /\
    c_chars (memory_at name_c) = Done [99] /\
    c_chars (memory_at popped) = Done [99; 120] /\
    find_mp_var name_c st_syn = Done (Some var) /\
    find_mp_var popped st_syn = Done None.
Proof.
  do 4 eexists. repeat split; vm_compute; reflexivity.
Qed.

(** ** Errors *)

(** C8, at an outbound SYN/ACK whose live packet has no MPTCP option while
    the script has bound the name of the key: [extract_and_set_kernel_key]
    fails, [mptcp_set_mp_cap_syn_key] succeeds and its status replaces the
    error, so that the entry point returns [STATUS_OK]. *)
Theorem mp_capable_syn_ack_masks_error :
  @extract_and_set_kernel_key little_endian_lp64 rfc6824
    live_plain_syn_ack_packet st_script_defined_s =
  Done (STATUS_ERR, st_script_defined_s) /\
  exists st' p',
    @mptcp_insert_and_extract_opt_fields little_endian_lp64 rfc6824
      quiet_process st_script_defined_s syn_ack_packet
      live_plain_syn_ack_packet DIRECTION_OUTBOUND =
    Done (STATUS_OK, st', p') /\
    mp_capable_syn_key (option_at p' 0) = 2.
Proof.
  split; [vm_compute; reflexivity|].
  do 2 eexists. split; vm_compute; reflexivity.
Qed.

(** ** Keys *)

Section KeyFacts.
Context {host : Host} {hdr : Header} {proc : Process}.

Lemma set_packetdrill_key_twice k1 k2 st :
  set_packetdrill_key k2 (set_packetdrill_key k1 st) = set_packetdrill_key k2 st.
Proof. reflexivity. Qed.

Lemma set_kernel_key_twice k1 k2 st :
  set_kernel_key k2 (set_kernel_key k1 st) = set_kernel_key k2 st.
Proof. reflexivity. Qed.

Lemma chars_eqb_refl cs : chars_eqb cs cs = true.
Proof. unfold chars_eqb. destruct (list_eq_dec Z.eq_dec cs cs); congruence. Qed.

(** A name bound by [add_mp_var_key] is found afterwards, and is not
    script-defined. *)
Lemma find_mp_var_add_mp_var_key n slot st st' :
  add_mp_var_key n slot st = Done st' ->
  exists var,
    find_mp_var n st' = Done (Some var) /\ is_script_defined_key (Some var) = None.
Proof.
  unfold add_mp_var_key, save_mp_var_name, find_mp_var.
  destruct (c_chars (memory_at n)) as [cs|]; [|discriminate].
  cbn [bind]. intros H. injection H as <-.
  eexists. split.
  - cbn [add_mp_var vars with_vars find]. unfold has_name at 1.
    cbn [name]. rewrite chars_eqb_refl. reflexivity.
  - cbn [is_script_defined_key script_defined]. now rewrite andb_false_r.
Qed.

(** With the key set and no script-defined value under the name at the
    front of the queue, [mptcp_gen_key] changes nothing. *)
Lemma mptcp_gen_key_keeps st n var :
  packetdrill_key_set st = true ->
  queue_front (vars_queue st) = Some n ->
  find_mp_var n st = Done var ->
  is_script_defined_key var = None ->
  mptcp_gen_key st = Done (STATUS_OK, st).
Proof.
  intros Hset Hq Hfind Hvar. unfold mptcp_gen_key.
  rewrite Hq, Hfind. cbn [bind]. rewrite Hvar. cbn [bind].
  now rewrite Hset.
Qed.

(** A script-defined value under that name replaces the key, set or not. *)
Lemma mptcp_gen_key_script_defined st n var v key :
  queue_front (vars_queue st) = Some n ->
  find_mp_var n st = Done var ->
  is_script_defined_key var = Some v ->
  read_u64 v st = Done key ->
  mptcp_gen_key st = Done (STATUS_OK, set_packetdrill_key key st).
Proof.
  intros Hq Hfind Hvar Hread. unfold mptcp_gen_key.
  rewrite Hq, Hfind. cbn [bind]. rewrite Hvar, Hread. reflexivity.
Qed.

Lemma extract_and_set_kernel_key_keeps st live mpcap_opt n var :
  get_tcp_option live TCPOPT_MPTCP = Some mpcap_opt ->
  kernel_key_set st = true ->
  queue_front (vars_queue st) = Some n ->
  find_mp_var n st = Done var ->
  is_script_defined_key var = None ->
  extract_and_set_kernel_key live st = Done (STATUS_OK, st).
Proof.
  intros Hopt Hset Hq Hfind Hvar. unfold extract_and_set_kernel_key.
  rewrite Hopt, Hq, Hfind. cbn [bind]. rewrite Hvar. cbn [bind].
  now rewrite Hset.
Qed.

Lemma extract_and_set_kernel_key_script_defined st live mpcap_opt n var v key :
  get_tcp_option live TCPOPT_MPTCP = Some mpcap_opt ->
  queue_front (vars_queue st) = Some n ->
  find_mp_var n st = Done var ->
  is_script_defined_key var = Some v ->
  read_u64 v st = Done key ->
  extract_and_set_kernel_key live st = Done (STATUS_OK, set_kernel_key key st).
Proof.
  intros Hopt Hq Hfind Hvar Hread. unfold extract_and_set_kernel_key.
  rewrite Hopt, Hq, Hfind. cbn [bind]. rewrite Hvar, Hread. reflexivity.
Qed.

Lemma read_u64_set_packetdrill_key v key st :
  read_u64 v st = Done key ->
  read_u64 v (set_packetdrill_key key st) = Done key.
Proof. destruct v as [[|]|bytes]; simpl; intros H; congruence. Qed.

(** A second call of [mptcp_gen_key] right after a successful one changes
    nothing: the key it generated or adopted stays. *)
Lemma mptcp_gen_key_idempotent st st' :
  mptcp_gen_key st = Done (STATUS_OK, st') ->
  mptcp_gen_key st' = Done (STATUS_OK, st').
Proof.
  unfold mptcp_gen_key at 1.
  destruct (queue_front (vars_queue st)) as [n|] eqn:Hq; [|discriminate].
  destruct (find_mp_var n st) as [var|] eqn:Hfind; [|discriminate].
  cbn [bind].
  destruct (is_script_defined_key var) as [v|] eqn:Hvar.
  - destruct (read_u64 v st) as [key|] eqn:Hread; [|discriminate].
    cbn [bind]. change (packetdrill_key_set (set_packetdrill_key key st)) with true.
    cbn [negb]. intros H. injection H as <-.
    exact (mptcp_gen_key_script_defined (set_packetdrill_key key st) n var v
             key Hq Hfind Hvar (read_u64_set_packetdrill_key v key st Hread)).
  - cbn [bind]. destruct (packetdrill_key_set st) eqn:Hset; cbn [negb].
    + intros H. injection H as <-.
      now apply (mptcp_gen_key_keeps st n var).
    + destruct (rand_64 st) as [key st1] eqn:Hrand.
      destruct (add_mp_var_key n PacketdrillKeySlot (set_packetdrill_key key st1))
        as [st2|] eqn:Hadd; [|discriminate].
      cbn [bind]. intros H. injection H as <-.
      destruct (find_mp_var_add_mp_var_key _ _ _ _ Hadd) as (var' & Hfind' & Hvar').
      apply (mptcp_gen_key_keeps st2 n (Some var')); try assumption.
      * unfold add_mp_var_key in Hadd.
        destruct (save_mp_var_name n); [|discriminate].
        injection Hadd as <-. reflexivity.
      * unfold add_mp_var_key in Hadd.
        destruct (save_mp_var_name n); [|discriminate].
        injection Hadd as <-. cbn [vars_queue add_mp_var with_vars].
        unfold rand_64 in Hrand. injection Hrand as _ <-. exact Hq.
Qed.

(** C7, as the code has it.  The two setters store their argument on every
    call: after two calls the key is the second value.  What keeps a key
    is the code around them: once the key is set, [mptcp_gen_key] and
    [extract_and_set_kernel_key] change nothing, unless the name at the
    front of the queue is bound to a script-defined value, which becomes
    the key; and a second call of [mptcp_gen_key] right after a successful
    one changes nothing. *)
Theorem keys_kept_by_callers st n var :
  queue_front (vars_queue st) = Some n ->
  find_mp_var n st = Done var ->
  (forall k1 k2,
     packetdrill_key (set_packetdrill_key k2 (set_packetdrill_key k1 st)) = k2 /\
     kernel_key (set_kernel_key k2 (set_kernel_key k1 st)) = k2 /\
     set_packetdrill_key k1 (set_packetdrill_key k1 st) = set_packetdrill_key k1 st /\
     set_kernel_key k1 (set_kernel_key k1 st) = set_kernel_key k1 st) /\
  (is_script_defined_key var = None ->
   (packetdrill_key_set st = true -> mptcp_gen_key st = Done (STATUS_OK, st)) /\
   (forall live mpcap_opt,
      get_tcp_option live TCPOPT_MPTCP = Some mpcap_opt ->
      kernel_key_set st = true ->
      extract_and_set_kernel_key live st = Done (STATUS_OK, st))) /\
  (forall v key,
     is_script_defined_key var = Some v -> read_u64 v st = Done key ->
     mptcp_gen_key st = Done (STATUS_OK, set_packetdrill_key key st) /\
     (forall live mpcap_opt,
        get_tcp_option live TCPOPT_MPTCP = Some mpcap_opt ->
        extract_and_set_kernel_key live st =
        Done (STATUS_OK, set_kernel_key key st))) /\
  (forall st',
     mptcp_gen_key st = Done (STATUS_OK, st') ->
     mptcp_gen_key st' = Done (STATUS_OK, st')).
Proof.
  intros Hq Hfind. split; [|split; [|split]].
  - intros k1 k2. repeat split.
  - intros Hvar. split.
    + intros Hset. now apply (mptcp_gen_key_keeps st n var).
    + intros live mpcap_opt Hopt Hset.
      now apply (extract_and_set_kernel_key_keeps st live mpcap_opt n var).
  - intros v key Hvar Hread. split.
    + now apply (mptcp_gen_key_script_defined st n var v).
    + intros live mpcap_opt Hopt.
      now apply (extract_and_set_kernel_key_script_defined
                   st live mpcap_opt n var v).
  - apply mptcp_gen_key_idempotent.
Qed.

End KeyFacts.

Lemma keys_kept_by_callers_witness :
  @mptcp_gen_key little_endian_lp64 rfc6824 quiet_process
    (after_enqueue name_c st_established) =
  Done (STATUS_OK, after_enqueue name_c st_established).
Proof.
  destruct (@keys_kept_by_callers little_endian_lp64 rfc6824 quiet_process
              (after_enqueue name_c st_established)
              {| allocated := [99]; beyond := [0] |}
              (Some {| name := [99]; value := KeyPtr PacketdrillKeySlot;
                       mptcp_subtype := 0; script_defined := false |}))
    as (_ & Hkeep & _).
  - vm_compute. reflexivity.
  - vm_compute. reflexivity.
  - exact (proj1 (Hkeep eq_refl) eq_refl).
Defined.

(** C7, as the claim has it: with the key of the handshake set, a call of
    the setter changes it, and so does [mptcp_gen_key] at the next inbound
    MP_CAPABLE SYN when the script has bound the name at the front of the
    queue to the value 7. *)
Lemma key_changes_counterexample :
  packetdrill_key_set st_established = true /\
  packetdrill_key st_established = 0x1122334455667788 /\
  packetdrill_key (set_packetdrill_key 1 st_established) = 1 /\
  packetdrill_key_set st_script_defined_k = true /\
  packetdrill_key st_script_defined_k = 0x1122334455667788 /\
  exists st' p',
    @mptcp_insert_and_extract_opt_fields little_endian_lp64 rfc6824
      quiet_process st_script_defined_k syn_packet syn_packet
      DIRECTION_INBOUND = Done (STATUS_OK, st', p') /\
    packetdrill_key st' = 7.
Proof.
  repeat split; try reflexivity.
  do 2 eexists. split; vm_compute; reflexivity.
Qed.

(** ** Case analysis on function bodies *)

(** Case analysis on the calls and tests of a function body that returned. *)
Ltac returned H :=
  repeat
    (match type of H with
     | Undefined = Done _ => discriminate H
     | context [bind ?r _] =>
         let E := fresh "E" in destruct r eqn:E; cbn [bind] in H
     | context [match ?x with _ => _ end] =>
         let E := fresh "E" in destruct x eqn:E
     end; try discriminate H);
  repeat
    match goal with
    | E : None = Some _ |- _ => discriminate E
    | E : Undefined = Done _ |- _ => discriminate E
    | E : context [bind ?r _] |- _ =>
        let E' := fresh "E" in destruct r eqn:E'; cbn [bind] in E
    | E : context [match ?x with _ => _ end] |- _ =>
        let E' := fresh "E" in destruct x eqn:E'
    end.

(** The state that was returned differs from the one at entry in fields
    that are not looked at. *)
Ltac same_state :=
  repeat match goal with
         | H : Done _ = Done _ |- _ => injection H as H; subst
         | H : (_, _) = (_, _) |- _ => injection H as H; subst
         | H : Some _ = Some _ |- _ => injection H as H; subst
         end;
  unfold untouched, add_mp_var, set_packetdrill_key, set_kernel_key,
    update_subflow in *;
  cbn in *;
  repeat match goal with
         | H : _ /\ _ |- _ => destruct H
         end;
  first [ congruence | split; congruence ].

(** ** What the handlers leave alone *)

Section Frames.
Context {host : Host} {hdr : Header} {proc : Process}.

Lemma untouched_refl st : untouched st st.
Proof. split; reflexivity. Qed.

Lemma untouched_trans st1 st2 st3 :
  untouched st1 st2 -> untouched st2 st3 -> untouched st1 st3.
Proof. intros [H1 H2] [H3 H4]. split; congruence. Qed.

Lemma add_mp_var_key_untouched n slot st st' :
  add_mp_var_key n slot st = Done st' -> untouched st st'.
Proof. unfold add_mp_var_key. intros H. returned H. same_state. Qed.

Lemma find_next_key_untouched st key st' :
  find_next_key st = Done (key, st') -> untouched st st'.
Proof.
  unfold find_next_key, dequeue_var. intros H. returned H; same_state.
Qed.

Lemma mptcp_gen_key_untouched st error st' :
  mptcp_gen_key st = Done (error, st') -> untouched st st'.
Proof.
  unfold mptcp_gen_key, rand_64. intros H. returned H;
    repeat match goal with
           | E : add_mp_var_key _ _ _ = Done _ |- _ =>
               apply add_mp_var_key_untouched in E
           end; same_state.
Qed.

Lemma mptcp_set_mp_cap_syn_key_untouched o st error st' o' :
  mptcp_set_mp_cap_syn_key o st = Done (error, st', o') -> untouched st st'.
Proof.
  unfold mptcp_set_mp_cap_syn_key. intros H. returned H;
    repeat match goal with
           | E : find_next_key _ = Done _ |- _ =>
               apply find_next_key_untouched in E
           end; same_state.
Qed.

Lemma mptcp_set_mp_cap_keys_untouched o st error st' o' :
  mptcp_set_mp_cap_keys o st = Done (error, st', o') -> untouched st st'.
Proof.
  unfold mptcp_set_mp_cap_keys. intros H. returned H;
    repeat match goal with
           | E : find_next_key _ = Done _ |- _ =>
               apply find_next_key_untouched in E
           end; same_state.
Qed.

Lemma extract_and_set_kernel_key_untouched live st error st' :
  extract_and_set_kernel_key live st = Done (error, st') -> untouched st st'.
Proof.
  unfold extract_and_set_kernel_key. intros H. returned H;
    repeat match goal with
           | E : add_mp_var_key _ _ _ = Done _ |- _ =>
               apply add_mp_var_key_untouched in E
           end; same_state.
Qed.

(** A new subflow is put in front of the others, with sequence number 0. *)
Lemma new_subflow_inbound_prepends p st r st' :
  new_subflow_inbound p st = (r, st') ->
  initial_dack st' = initial_dack st /\
  exists new,
    map subflow_sequence_number (subflows st') =
      new ++ map subflow_sequence_number (subflows st) /\
    Forall (eq 0) new.
Proof.
  unfold new_subflow_inbound, generate_32. intros H.
  destruct (ipv4 p); [|destruct (ipv6 p)]; injection H as <- <-;
    (split; [reflexivity|]);
    first [ exists [0]; split; [reflexivity | repeat constructor]
          | exists []; split; [reflexivity | constructor] ].
Qed.

Lemma new_subflow_outbound_prepends p st r st' :
  new_subflow_outbound p st = (r, st') ->
  initial_dack st' = initial_dack st /\
  exists new,
    map subflow_sequence_number (subflows st') =
      new ++ map subflow_sequence_number (subflows st) /\
    Forall (eq 0) new.
Proof.
  unfold new_subflow_outbound. intros H.
  destruct (get_tcp_option p TCPOPT_MPTCP);
    [destruct (ipv4 p); [|destruct (ipv6 p)]|]; injection H as <- <-;
    (split; [reflexivity|]);
    first [ exists [0]; split; [reflexivity | repeat constructor]
          | exists []; split; [reflexivity | constructor] ].
Qed.

(** An update of a subflow that keeps its sequence number. *)
Lemma map_replace_nth_same {A B : Type} (g : A -> B) (f : A -> A) d :
  (forall x, g (f x) = g x) ->
  forall l k, map g (replace_nth k (f (nth k l d)) l) = map g l.
Proof.
  intros Hf. induction l as [|x r IH]; intros k.
  - destruct k; reflexivity.
  - destruct k; simpl; [now rewrite Hf | now rewrite IH].
Qed.


End Frames.

Ltac use_frames :=
  repeat match goal with
         | E : add_mp_var_key _ _ _ = Done _ |- _ =>
             apply add_mp_var_key_untouched in E
         | E : find_next_key _ = Done _ |- _ =>
             apply find_next_key_untouched in E
         | E : mptcp_gen_key _ = Done _ |- _ =>
             apply mptcp_gen_key_untouched in E
         | E : mptcp_set_mp_cap_syn_key _ _ = Done _ |- _ =>
             apply mptcp_set_mp_cap_syn_key_untouched in E
         | E : mptcp_set_mp_cap_keys _ _ = Done _ |- _ =>
             apply mptcp_set_mp_cap_keys_untouched in E
         | E : extract_and_set_kernel_key _ _ = Done _ |- _ =>
             apply extract_and_set_kernel_key_untouched in E
         | E : new_subflow_inbound _ _ = (_, _) |- _ =>
             apply new_subflow_inbound_prepends in E
         | E : new_subflow_outbound _ _ = (_, _) |- _ =>
             apply new_subflow_outbound_prepends in E
         end.

(** ** Subflow sequence numbers along a session *)

Section SessionSeqs.
Context {host : Host} {hdr : Header} {proc : Process}.








End SessionSeqs.

(** ** Sessions *)

Section Sessions.
Context {host : Host} {hdr : Header} {proc : Process}.








End Sessions.

(** ** The initial data ack *)

Section InitialDack.
Context {host : Host} {hdr : Header} {proc : Process}.

Lemma mptcp_subtype_mp_capable_dack st p live i direction error st' p' :
  mptcp_subtype_mp_capable st p live i direction = Done (error, st', p') ->
  initial_dack st' = initial_dack st.
Proof.
  unfold mptcp_subtype_mp_capable. intros H. returned H; use_frames; same_state.
Qed.

Lemma mptcp_subtype_mp_join_dack st p live i direction error st' p' :
  mptcp_subtype_mp_join st p live i direction = Done (error, st', p') ->
  initial_dack st' = initial_dack st.
Proof.
  unfold mptcp_subtype_mp_join, generate_32. intros H.
  returned H; use_frames; same_state.
Qed.

Lemma mptcp_subtype_dss_dack st p live i direction error st' p' :
  mptcp_subtype_dss st p live i direction = Done (error, st', p') ->
  initial_dack st' = initial_dack st.
Proof.
  unfold mptcp_subtype_dss. intros H. returned H; same_state.
Qed.

Lemma options_loop_dack remaining :
  forall i st p live direction error st' p',
    options_loop remaining i st p live direction = Done (error, st', p') ->
    initial_dack st' = initial_dack st.
Proof.
  induction remaining as [|remaining IH];
    intros i st p live direction error st' p' H.
  - cbn [options_loop] in H. same_state.
  - cbn [options_loop] in H.
    destruct (opt_kind (option_at p i) =? TCPOPT_MPTCP); [|now apply IH in H].
    destruct (mptcp_subtype_switch st p live i direction)
      as [[[e st1] p1]|] eqn:E; [|discriminate].
    cbn [bind] in H.
    assert (H1 : initial_dack st1 = initial_dack st).
    { unfold mptcp_subtype_switch in E.
      destruct (_ =? MP_CAPABLE_SUBTYPE);
        [now apply mptcp_subtype_mp_capable_dack in E|].
      destruct (_ =? MP_JOIN_SUBTYPE);
        [now apply mptcp_subtype_mp_join_dack in E|].
      destruct (_ =? DSS_SUBTYPE);
        [now apply mptcp_subtype_dss_dack in E|].
      same_state. }
    destruct (negb (e =? 0)).
    + same_state.
    + apply IH in H. congruence.
Qed.

(** An inbound DSS option with a data ack and no DSN: the handler adds
    [initial_dack] to the number in the option. *)
Lemma dss_dack_written st p live i :
  let o := option_at p i in
  dss_flag_dsn o = false ->
  dss_flag_dack o = true ->
  mptcp_subtype_dss st p live i DIRECTION_INBOUND =
  Done (STATUS_OK, st,
        store_option p i
          (with_dss_dack_data_ack_8oct
             (htobe64 (u64 (initial_dack st + dss_dack_data_ack_8oct o))) o)).
Proof.
  intros o Hdsn Hdack. unfold mptcp_subtype_dss. fold o.
  rewrite Hdsn. cbn [andb bind]. now rewrite Hdack.
Qed.

(** C3, as the code has it.  The engine never derives [initial_dack]: in
    every state it can be in, after any names queued, values bound and
    packets handled, and so after the final ACK of the MP_CAPABLE
    handshake, [initial_dack] is the zero the global started with; the data
    ack of an inbound DSS option is rewritten with that value, to the number
    the option held, in network byte order. *)
Theorem initial_dack_never_derived st :
  reachable st ->
  initial_dack st = 0 /\
  forall p live i,
    dss_flag_dsn (option_at p i) = false ->
    dss_flag_dack (option_at p i) = true ->
    mptcp_subtype_dss st p live i DIRECTION_INBOUND =
    Done (STATUS_OK, st,
          store_option p i
            (with_dss_dack_data_ack_8oct
               (htobe64 (u64 (dss_dack_data_ack_8oct (option_at p i))))
               (option_at p i))).
Proof.
  intros Hreach.
  assert (H0 : initial_dack st = 0).
  { induction Hreach as [| st name error st' _ IH H
                         | st name value length st' _ IH H
                         | st p live direction error st' p' _ IH H].
    - reflexivity.
    - unfold enqueue_var in H. returned H. same_state.
    - unfold add_mp_var_script_defined in H. returned H. same_state.
    - apply options_loop_dack in H. congruence. }
  split; [exact H0|].
  intros p live i Hdsn Hdack.
  rewrite (dss_dack_written st p live i Hdsn Hdack), H0. reflexivity.
Qed.

(** The final ACK of the MP_CAPABLE handshake sets [initial_dsn]. *)
Lemma mp_capable_ack_sets_initial_dsn st p live i direction error st' p' :
  opt_length (option_at p i) = TCPOLEN_MP_CAPABLE ->
  tcp_syn (tcp p) = false -> tcp_ack (tcp p) = true ->
  mptcp_subtype_mp_capable st p live i direction = Done (error, st', p') ->
  initial_dsn st' = sha1_least_64bits (packetdrill_key st').
Proof.
  intros Hlen Hsyn Hack. unfold mptcp_subtype_mp_capable.
  rewrite Hlen, Hsyn, Hack, Z.eqb_refl, !andb_false_r. cbn [andb negb].
  unfold new_subflow_inbound, new_subflow_outbound, generate_32.
  intros H. returned H;
    repeat match goal with
           | H : Done _ = Done _ |- _ => injection H as H; subst
           | H : (_, _) = (_, _) |- _ => injection H as H; subst
           end; reflexivity.
Qed.

End InitialDack.

(** The handshake of the session, step by step. *)
Lemma reachable_st_established :
  @reachable little_endian_lp64 rfc6824 quiet_process st_established.
Proof.
  apply (@reachable_packet little_endian_lp64 rfc6824 quiet_process
           (after_enqueue name_s (after_enqueue name_c st_syn_ack))
           ack_packet ack_packet DIRECTION_INBOUND STATUS_OK st_established
           (store_option ack_packet 0
              (with_mp_capable_no_syn_receiver_key 0xaabbccddeeff0011
                 (with_mp_capable_no_syn_sender_key 0x1122334455667788
                    (mptcp_option 20 0))))); [|vm_compute; reflexivity].
  apply (@reachable_enqueue_var little_endian_lp64 rfc6824 quiet_process
           (after_enqueue name_c st_syn_ack) name_s STATUS_OK);
    [|vm_compute; reflexivity].
  apply (@reachable_enqueue_var little_endian_lp64 rfc6824 quiet_process
           st_syn_ack name_c STATUS_OK); [|vm_compute; reflexivity].
  apply (@reachable_packet little_endian_lp64 rfc6824 quiet_process
           (after_enqueue name_s st_syn)
           syn_ack_packet live_syn_ack_packet DIRECTION_OUTBOUND STATUS_OK
           st_syn_ack
           (store_option syn_ack_packet 0
              (with_mp_capable_syn_key 0xaabbccddeeff0011 (mptcp_option 12 0))));
    [|vm_compute; reflexivity].
  apply (@reachable_enqueue_var little_endian_lp64 rfc6824 quiet_process
           st_syn name_s STATUS_OK); [|vm_compute; reflexivity].
  apply (@reachable_packet little_endian_lp64 rfc6824 quiet_process
           (after_enqueue name_c st_start)
           syn_packet syn_packet DIRECTION_INBOUND STATUS_OK st_syn
           (store_option syn_packet 0
              (with_mp_capable_syn_key 0x1122334455667788 (mptcp_option 12 0))));
    [|vm_compute; reflexivity].
  apply (@reachable_enqueue_var little_endian_lp64 rfc6824 quiet_process
           st_start name_c STATUS_OK); [|vm_compute; reflexivity].
  apply reachable_init.
Defined.

Lemma initial_dack_never_derived_witness :
  initial_dack st_established = 0.
Proof.
  exact (proj1 (@initial_dack_never_derived little_endian_lp64 rfc6824
                  quiet_process st_established reachable_st_established)).
Defined.

(** C3, as the claim has it, after the handshake of the session: the final
    ACK was handled and [initial_dsn] is the low 64 bits of SHA1 of the key
    of packetdrill, but [initial_dack] is 0 and not the low 64 bits of SHA1
    of the key of the kernel. *)
Lemma initial_dack_counterexample :
  (exists p',
     @mptcp_insert_and_extract_opt_fields little_endian_lp64 rfc6824
       quiet_process (after_enqueue name_s (after_enqueue name_c st_syn_ack))
       ack_packet ack_packet DIRECTION_INBOUND =
     Done (STATUS_OK, st_established, p')) /\
  kernel_key st_established = 0xaabbccddeeff0011 /\
  initial_dsn st_established =
    sha1_least_64bits (packetdrill_key st_established) /\
  initial_dack st_established = 0 /\
  sha1_least_64bits (kernel_key st_established) = 0x14dbeebcb34be1b4 /\
  initial_dack st_established <>
    sha1_least_64bits (kernel_key st_established).
Proof.
  split; [eexists; vm_compute; reflexivity|].
  repeat split; try (vm_compute; reflexivity).
  vm_compute. discriminate.
Qed.

(** ** The MP_JOIN handler *)

Section JoinFacts.
Context {host : Host} {hdr : Header} {proc : Process}.






(** The key buffer of the HMAC when [unsigned long] has eight bytes: the
    two keys as they lie in memory. *)
Lemma read_buffer_map_Some l : read_buffer (map Some l) = Done l.
Proof. induction l as [|b r IH]; simpl; [reflexivity | now rewrite IH]. Qed.

Lemma hmac_key_bytes a b :
  sizeof_unsigned_long = 8%nat ->
  read_buffer
    (store_unsigned_long (store_unsigned_long hmac_key_uninitialised 0 a) 8 b) =
  Done (host_bytes 8 a ++ host_bytes 8 b).
Proof.
  intros Hsize. rewrite <- read_buffer_map_Some. f_equal.
  unfold store_unsigned_long, hmac_key_uninitialised. rewrite Hsize.
  unfold host_bytes. destruct byte_order; reflexivity.
Qed.

Lemma hmac_sha1_16_8 a b c d :
  hmac_sha1 (host_bytes 8 a ++ host_bytes 8 b) 16 (hmac_msg c d) 8 =
  SHA1.hmac (host_bytes 8 a ++ host_bytes 8 b)
            (host_bytes 4 c ++ host_bytes 4 d).
Proof.
  unfold hmac_sha1, hmac_msg. f_equal.
  - apply firstn_all2. rewrite length_app, !host_bytes_length. lia.
  - apply firstn_all2. rewrite length_app, !host_bytes_length. lia.
Qed.

(** C2, as the code has it.  For an MP_JOIN ACK of a known subflow, on a
    host whose [unsigned long] has eight bytes, the handler returns and the
    twenty bytes it leaves in the option are the HMAC-SHA1 tag whose key is
    the two keys, eight bytes each as they lie in the host's memory, and
    whose message is the two nonces, four bytes each as they lie in memory:
    packetdrill's key and nonce first for an inbound ACK, the kernel's
    first for an outbound ACK.  On a big-endian host this is the network
    order of the keys and nonces. *)
Theorem mp_join_ack_sender_hmac st p live i direction k :
  sizeof_unsigned_long = 8%nat ->
  (i < List.length (tcp_options p))%nat ->
  tcp_ack (tcp p) = true ->
  tcp_syn (tcp p) = false ->
  opt_length (option_at p i) = TCPOLEN_MP_JOIN_ACK ->
  (direction = DIRECTION_INBOUND /\
   find_subflow_matching_inbound_packet p st = Some k) \/
  (direction = DIRECTION_OUTBOUND /\
   find_subflow_matching_outbound_packet p st = Some k) ->
  let local_key := packetdrill_key st in
  let peer_key := kernel_key st in
  let local_rand := packetdrill_rand_nbr (subflow_at st k) in
  let peer_rand := kernel_rand_nbr (subflow_at st k) in
  exists p',
    mptcp_subtype_mp_join st p live i direction = Done (STATUS_OK, st, p') /\
    let sender_hmac := mp_join_no_syn_sender_hmac (option_at p' i) in
    List.length sender_hmac = 20%nat /\
    (direction = DIRECTION_INBOUND ->
     sender_hmac =
       SHA1.hmac (host_bytes 8 local_key ++ host_bytes 8 peer_key)
                 (host_bytes 4 local_rand ++ host_bytes 4 peer_rand) /\
     (byte_order = BigEndian ->
      sender_hmac =
        SHA1.hmac (be_bytes 8 local_key ++ be_bytes 8 peer_key)
                  (be_bytes 4 local_rand ++ be_bytes 4 peer_rand))) /\
    (direction = DIRECTION_OUTBOUND ->
     sender_hmac =
       SHA1.hmac (host_bytes 8 peer_key ++ host_bytes 8 local_key)
                 (host_bytes 4 peer_rand ++ host_bytes 4 local_rand) /\
     (byte_order = BigEndian ->
      sender_hmac =
        SHA1.hmac (be_bytes 8 peer_key ++ be_bytes 8 local_key)
                  (be_bytes 4 peer_rand ++ be_bytes 4 local_rand))).
Proof.
  intros Hsize Hi Hack Hsyn Hlen Hdir local_key peer_key local_rand peer_rand.
  unfold mptcp_subtype_mp_join. rewrite Hack, Hsyn, Hlen, Z.eqb_refl.
  destruct Hdir as [[-> Hfind] | [-> Hfind]]; cbn [andb negb];
    rewrite ?andb_false_r; rewrite Hfind, (hmac_key_bytes _ _ Hsize);
    cbn [bind]; eexists; (split; [reflexivity|]);
    rewrite (option_at_store_option _ _ _ Hi);
    cbn [mp_join_no_syn_sender_hmac with_mp_join_no_syn_sender_hmac];
    rewrite hmac_sha1_16_8, firstn_all2 by (rewrite hmac_length; lia);
    (split; [apply hmac_length|]); split; intros Hd; try discriminate Hd;
    (split; [reflexivity|]); intros Hbe; unfold host_bytes; rewrite Hbe;
    reflexivity.
Qed.

End JoinFacts.


Lemma mp_join_ack_sender_hmac_witness :
  exists p',
    @mptcp_subtype_mp_join little_endian_lp64 rfc6824 quiet_process
      st_join_syn_ack join_ack_packet join_ack_packet 0 DIRECTION_INBOUND =
    Done (STATUS_OK, st_join_syn_ack, p') /\
    mp_join_no_syn_sender_hmac (option_at p' 0) =
    SHA1.hmac (le_bytes 8 0x1122334455667788 ++ le_bytes 8 0xaabbccddeeff0011)
              (le_bytes 4 0xcafebac0 ++ le_bytes 4 0xdeadbeef).
Proof.
  destruct (@mp_join_ack_sender_hmac little_endian_lp64 rfc6824 quiet_process
              st_join_syn_ack join_ack_packet join_ack_packet 0
              DIRECTION_INBOUND 0%nat)
    as (p' & Hrun & _ & Hin & _).
  - reflexivity.
  - simpl. lia.
  - reflexivity.
  - reflexivity.
  - reflexivity.
  - left. split; reflexivity.
  - exists p'. split; [exact Hrun|].
    exact (proj1 (Hin eq_refl)).
Defined.

(** C2, as the claim has it, at the inbound MP_JOIN ACK of the session on a
    little-endian host: the twenty bytes the handler writes are not the
    HMAC-SHA1 tag under the key made of the two keys in network order,
    whether the nonces of the message are taken in network order or as
    they lie in memory. *)
Lemma mp_join_ack_sender_hmac_counterexample :
  let local_key := packetdrill_key st_join_syn_ack in
  let peer_key := kernel_key st_join_syn_ack in
  let local_rand := packetdrill_rand_nbr (nth 0 (subflows st_join_syn_ack)
                                              (@malloc_mp_subflow quiet_process)) in
  let peer_rand := kernel_rand_nbr (nth 0 (subflows st_join_syn_ack)
                                        (@malloc_mp_subflow quiet_process)) in
  let key := be_bytes 8 local_key ++ be_bytes 8 peer_key in
  exists p',
    @mptcp_subtype_mp_join little_endian_lp64 rfc6824 quiet_process
      st_join_syn_ack join_ack_packet join_ack_packet 0 DIRECTION_INBOUND =
    Done (STATUS_OK, st_join_syn_ack, p') /\
    local_key = 0x1122334455667788 /\ peer_key = 0xaabbccddeeff0011 /\
    local_rand = 0xcafebac0 /\ peer_rand = 0xdeadbeef /\
    mp_join_no_syn_sender_hmac (option_at p' 0) <>
      SHA1.hmac key (be_bytes 4 local_rand ++ be_bytes 4 peer_rand) /\
    mp_join_no_syn_sender_hmac (option_at p' 0) <>
      SHA1.hmac key (le_bytes 4 local_rand ++ le_bytes 4 peer_rand).
Proof.
  cbv zeta. eexists. split; [vm_compute; reflexivity|].
  repeat split; try reflexivity; vm_compute; discriminate.
Qed.


(** * Further properties of the code *)

(** ** Searching and creating subflows *)

Section SubflowSearch.
Context {host : Host} {hdr : Header} {proc : Process}.

Lemma first_match_first matches d :
  forall l,
    match first_match matches l with
    | Some k =>
        (k < List.length l)%nat /\ matches (nth k l d) = true /\
        forall j, (j < k)%nat -> matches (nth j l d) = false
    | None => forall s, In s l -> matches s = false
    end.
Proof.
  induction l as [|s r IH]; cbn [first_match].
  - intros s [].
  - destruct (matches s) eqn:Hs.
    + repeat split; [simpl; lia | exact Hs | intros j Hj; lia].
    + destruct (first_match matches r) as [k|]; cbn [option_map].
      * destruct IH as (Hk & Hm & Hbefore). repeat split.
        -- simpl. lia.
        -- exact Hm.
        -- intros [|j] Hj; [exact Hs | apply Hbefore; lia].
      * intros s' [<- | Hin]; [exact Hs | now apply IH].
Qed.

Lemma first_match_ext f g :
  (forall s, f s = g s) -> forall l, first_match f l = first_match g l.
Proof.
  intros Hfg. induction l as [|s r IH]; cbn [first_match]; [reflexivity|].
  now rewrite Hfg, IH.
Qed.

(** X1.  The search returns the first subflow of the list that matches the
    packet: the subflow it returns matches and none before it does, and it
    returns NULL only when no subflow of the list matches. *)
Theorem find_matching_subflow_first p matches st :
  match find_matching_subflow p matches st with
  | Some k =>
      (k < List.length (subflows st))%nat /\
      matches (subflow_at st k) p = true /\
      forall j, (j < k)%nat -> matches (subflow_at st j) p = false
  | None => forall s, In s (subflows st) -> matches s p = false
  end.
Proof.
  unfold find_matching_subflow, subflow_at.
  exact (first_match_first (fun s => matches s p) malloc_mp_subflow (subflows st)).
Qed.

(** X2.  The three searches agree on a connection: an outbound packet finds
    the subflow that the inbound packet with the ports exchanged finds, and
    a socket finds the subflow that an inbound packet finds whose ports, in
    host order, are the socket's local and remote port. *)
Theorem searches_agree p q sock st :
  tcp_src_port (tcp q) = tcp_dst_port (tcp p) ->
  tcp_dst_port (tcp q) = tcp_src_port (tcp p) ->
  live_local_port sock = ntohs (tcp_src_port (tcp p)) ->
  live_remote_port sock = ntohs (tcp_dst_port (tcp p)) ->
  find_subflow_matching_outbound_packet q st =
    find_subflow_matching_inbound_packet p st /\
  find_subflow_matching_socket sock st =
    find_subflow_matching_inbound_packet p st.
Proof.
  intros Hsrc Hdst Hlocal Hremote.
  unfold find_subflow_matching_outbound_packet,
    find_subflow_matching_inbound_packet, find_subflow_matching_socket,
    find_matching_subflow.
  split; apply first_match_ext; intros s.
  - unfold does_subflow_match_outbound_packet,
      does_subflow_match_inbound_packet. now rewrite Hsrc, Hdst.
  - unfold does_subflow_match_inbound_packet. now rewrite Hlocal, Hremote.
Qed.

(** X3.  [new_subflow_inbound] returns NULL exactly for a packet without an
    IPv4 and without an IPv6 header, and then changes nothing.  Otherwise it
    puts a new subflow in front of the list, with the ports of the packet in
    host order, sequence number 0, a nonce drawn from the generator and the
    next address id, and counts the address id up; the packet finds the new
    subflow, also when an older subflow has the same ports. *)
Theorem new_subflow_inbound_creates p st :
  match new_subflow_inbound p st with
  | (None, st') => ipv4 p = None /\ ipv6 p = None /\ st' = st
  | (Some k, st') =>
      (ipv4 p <> None \/ ipv6 p <> None) /\
      k = 0%nat /\
      List.tl (subflows st') = subflows st /\
      let subflow := subflow_at st' 0 in
      src_port subflow = ntohs (tcp_src_port (tcp p)) /\
      dst_port subflow = ntohs (tcp_dst_port (tcp p)) /\
      subflow_sequence_number subflow = 0 /\
      packetdrill_rand_nbr subflow = random (random_draws st) mod 2 ^ 32 /\
      packetdrill_addr_id subflow = last_packetdrill_addr_id st /\
      last_packetdrill_addr_id st' = (last_packetdrill_addr_id st + 1) mod 2 ^ 8 /\
      random_draws st' = S (random_draws st) /\
      find_subflow_matching_inbound_packet p st' = Some 0%nat
  end.
Proof.
  unfold new_subflow_inbound, generate_32.
  destruct (ipv4 p) as [ip4|]; [|destruct (ipv6 p) as [ip6|]].
  3:{ repeat split. }
  all: (split; [first [left; discriminate | right; discriminate]|]).
  all: repeat split.
  all: unfold find_subflow_matching_inbound_packet, find_matching_subflow,
         does_subflow_match_inbound_packet;
       cbn [subflows with_subflows first_match dst_port src_port
            with_subflow_sequence_number with_packetdrill_addr_id
            with_packetdrill_rand_nbr with_dst_port with_src_port];
       now rewrite !Z.eqb_refl.
Qed.

(** X4.  [new_subflow_outbound] returns NULL exactly for a packet without
    an MPTCP option or without an IP header, and then changes nothing.
    Otherwise it puts a new subflow in front of the list, with the ports of
    the packet exchanged and in host order, sequence number 0, and the nonce
    and address id of the packet's first MPTCP option; it draws no number
    and leaves the address id counter; the packet finds the new subflow as
    an outbound packet. *)
Theorem new_subflow_outbound_creates p st :
  match new_subflow_outbound p st with
  | (None, st') =>
      (get_tcp_option p TCPOPT_MPTCP = None \/
       (ipv4 p = None /\ ipv6 p = None)) /\
      st' = st
  | (Some k, st') =>
      exists mp_join_syn,
        get_tcp_option p TCPOPT_MPTCP = Some mp_join_syn /\
        (ipv4 p <> None \/ ipv6 p <> None) /\
        k = 0%nat /\
        List.tl (subflows st') = subflows st /\
        let subflow := subflow_at st' 0 in
        src_port subflow = ntohs (tcp_dst_port (tcp p)) /\
        dst_port subflow = ntohs (tcp_src_port (tcp p)) /\
        subflow_sequence_number subflow = 0 /\
        kernel_rand_nbr subflow =
          mp_join_syn_no_ack_sender_random_number mp_join_syn /\
        kernel_addr_id subflow = mp_join_syn_address_id mp_join_syn /\
        last_packetdrill_addr_id st' = last_packetdrill_addr_id st /\
        random_draws st' = random_draws st /\
        find_subflow_matching_outbound_packet p st' = Some 0%nat
  end.
Proof.
  unfold new_subflow_outbound.
  destruct (get_tcp_option p TCPOPT_MPTCP) as [o|]; [|split; [now left | reflexivity]].
  destruct (ipv4 p) as [ip4|]; [|destruct (ipv6 p) as [ip6|]].
  3:{ split; [right; split; reflexivity | reflexivity]. }
  all: exists o; (split; [reflexivity|]).
  all: (split; [first [left; discriminate | right; discriminate]|]).
  all: repeat split.
  all: unfold find_subflow_matching_outbound_packet, find_matching_subflow,
         does_subflow_match_outbound_packet;
       cbn [subflows with_subflows first_match dst_port src_port
            with_subflow_sequence_number with_kernel_addr_id
            with_kernel_rand_nbr with_dst_port with_src_port];
       now rewrite !Z.eqb_refl.
Qed.

End SubflowSearch.

Lemma searches_agree_witness :
  @find_subflow_matching_outbound_packet little_endian_lp64 syn_ack_packet
    st_established = Some 0%nat /\
  find_subflow_matching_socket
    {| live_local_port := 59395; live_remote_port := 53255 |}
    st_established = Some 0%nat.
Proof.
  destruct (@searches_agree little_endian_lp64 syn_packet syn_ack_packet
              {| live_local_port := 59395; live_remote_port := 53255 |}
              st_established)
    as [Hout Hsock]; try reflexivity.
  rewrite Hout, Hsock. split; reflexivity.
Defined.

(** ** Variables and pending names *)

Section VariableFacts.
Context {host : Host} {hdr : Header} {proc : Process}.

Lemma chars_eqb_neq a b : a <> b -> chars_eqb a b = false.
Proof. intros H. unfold chars_eqb. now destruct (list_eq_dec Z.eq_dec a b). Qed.

(** X5.  A value the script declares for a name is found under that name:
    the variable is script-defined, and reading it gives the declared
    64-bit number; names with other characters are looked up as before. *)
Theorem script_defined_value_is_found var_name k st st' :
  add_mp_var_script_defined var_name (host_bytes 8 k) 8 st = Done st' ->
  exists var,
    find_mp_var var_name st' = Done (Some var) /\
    is_script_defined_key (Some var) = Some (value var) /\
    read_u64 (value var) st' = Done (k mod 2 ^ 64) /\
    forall other cs cs',
      c_chars (memory_at var_name) = Done cs ->
      c_chars (memory_at other) = Done cs' ->
      cs' <> cs ->
      find_mp_var other st' = find_mp_var other st.
Proof.
  unfold add_mp_var_script_defined, save_mp_var_name, find_mp_var.
  destruct (c_chars (memory_at var_name)) as [cs|]; [|discriminate].
  assert (Hall : firstn 8 (host_bytes 8 k) = host_bytes 8 k)
    by (apply firstn_all2; rewrite host_bytes_length; lia).
  rewrite Hall.
  cbn [bind]. rewrite host_bytes_length. cbn [Nat.ltb Nat.leb].
  intros H. injection H as <-.
  eexists. split; [|split; [|split]].
  - cbn [add_mp_var vars with_vars find]. unfold has_name at 1.
    cbn [name]. rewrite chars_eqb_refl. reflexivity.
  - cbn [is_script_defined_key mptcp_subtype script_defined value].
    now rewrite Z.eqb_refl.
  - cbn [value read_u64]. rewrite host_bytes_length, Hall.
    cbn [Nat.ltb Nat.leb]. now rewrite host_decode_host_bytes.
  - intros other cs0 cs' Hcs Hcs' Hne. injection Hcs as <-.
    rewrite Hcs'. cbn [bind add_mp_var vars with_vars find].
    unfold has_name at 1. cbn [name].
    now rewrite (chars_eqb_neq cs cs') by congruence.
Qed.

Lemma add_mp_var_key_binds var_name slot st st' :
  add_mp_var_key var_name slot st = Done st' ->
  exists var,
    find_mp_var var_name st' = Done (Some var) /\
    mptcp_subtype var = MP_CAPABLE_SUBTYPE /\
    read_u64 (value var) st' =
      Done (match slot with
            | PacketdrillKeySlot => packetdrill_key st
            | KernelKeySlot => kernel_key st
            end).
Proof.
  unfold add_mp_var_key, save_mp_var_name, find_mp_var.
  destruct (c_chars (memory_at var_name)) as [cs|]; [|discriminate].
  cbn [bind]. intros H. injection H as <-.
  eexists. split; [|split].
  - cbn [add_mp_var vars with_vars find]. unfold has_name at 1.
    cbn [name]. rewrite chars_eqb_refl. reflexivity.
  - reflexivity.
  - destruct slot; reflexivity.
Qed.

(** X6.  A name bound to a key of the session is found under that name,
    and reading the variable gives the key the session has at the time of
    reading: when the key is set again, the variable follows. *)
Theorem key_variable_follows_key var_name slot st st' :
  add_mp_var_key var_name slot st = Done st' ->
  exists var,
    find_mp_var var_name st' = Done (Some var) /\
    is_script_defined_key (Some var) = None /\
    mptcp_subtype var = MP_CAPABLE_SUBTYPE /\
    read_u64 (value var) st' =
      Done (match slot with
            | PacketdrillKeySlot => packetdrill_key st
            | KernelKeySlot => kernel_key st
            end) /\
    forall k,
      read_u64 (value var)
        (match slot with
         | PacketdrillKeySlot => set_packetdrill_key k st'
         | KernelKeySlot => set_kernel_key k st'
         end) = Done k.
Proof.
  unfold add_mp_var_key, save_mp_var_name, find_mp_var.
  destruct (c_chars (memory_at var_name)) as [cs|]; [|discriminate].
  cbn [bind]. intros H. injection H as <-.
  eexists. split; [|split; [|split; [|split]]].
  - cbn [add_mp_var vars with_vars find]. unfold has_name at 1.
    cbn [name]. rewrite chars_eqb_refl. reflexivity.
  - cbn [is_script_defined_key script_defined]. now rewrite andb_false_r.
  - reflexivity.
  - destruct slot; reflexivity.
  - intros k. destruct slot; reflexivity.
Qed.

(** X7.  [find_next_key] with no pending name returns NULL and changes
    nothing.  With a pending name it takes the first name off the queue,
    whether or not a variable is found, and changes nothing else; it
    returns the value of the variable found under that name when the
    variable is of the MP_CAPABLE kind, and NULL otherwise. *)
Theorem find_next_key_takes_first_name st r st' :
  find_next_key st = Done (r, st') ->
  match vars_queue st with
  | [] => r = None /\ st' = st
  | var_name :: pending =>
      st' = with_vars_queue pending st /\
      exists var,
        find_mp_var var_name st = Done var /\
        r = match var with
            | Some var =>
                if mptcp_subtype var =? MP_CAPABLE_SUBTYPE
                then Some (value var) else None
            | None => None
            end
  end.
Proof.
  unfold find_next_key, dequeue_var, queue_dequeue.
  destruct (vars_queue st) as [|n q].
  - intros H. injection H as <- <-. split; reflexivity.
  - change (find_mp_var n (with_vars_queue q st)) with (find_mp_var n st).
    destruct (find_mp_var n st) as [var|]; [|discriminate].
    cbn [bind]. intros H. split.
    + destruct var as [var|]; [destruct (mptcp_subtype var =? _)|];
        cbn [negb] in H; now injection H as _ <-.
    + exists var. split; [reflexivity|].
      destruct var as [var|]; [destruct (mptcp_subtype var =? _)|];
        cbn [negb] in H; now injection H as <- _.
Qed.

End VariableFacts.

Lemma script_defined_value_is_found_witness :
  exists st' var,
    @add_mp_var_script_defined rfc6824 name_s
      (@host_bytes little_endian_lp64 8 2) 8 st_syn = Done st' /\
    find_mp_var name_s st' = Done (Some var) /\
    @read_u64 little_endian_lp64 (value var) st' = Done 2.
Proof.
  eassert (Hadd :
    @add_mp_var_script_defined rfc6824 name_s
      (@host_bytes little_endian_lp64 8 2) 8 st_syn = Done _)
    by (vm_compute; reflexivity).
  destruct (@script_defined_value_is_found little_endian_lp64 rfc6824
              name_s 2 st_syn _ Hadd) as (var & Hfind & _ & Hread & _).
  eexists. exists var. split; [exact Hadd|]. split; [exact Hfind | exact Hread].
Defined.

Lemma key_variable_follows_key_witness :
  exists st' var,
    @add_mp_var_key rfc6824 name_k KernelKeySlot st_established = Done st' /\
    find_mp_var name_k st' = Done (Some var) /\
    @read_u64 little_endian_lp64 (value var) (set_kernel_key 5 st') = Done 5.
Proof.
  eassert (Hadd :
    @add_mp_var_key rfc6824 name_k KernelKeySlot st_established = Done _)
    by (vm_compute; reflexivity).
  destruct (@key_variable_follows_key little_endian_lp64 rfc6824
              name_k KernelKeySlot st_established _ Hadd)
    as (var & Hfind & _ & _ & _ & Hfollow).
  eexists. exists var. split; [exact Hadd|]. split; [exact Hfind|].
  exact (Hfollow 5).
Defined.

Lemma find_next_key_takes_first_name_witness :
  exists r st',
    @find_next_key rfc6824 (after_enqueue name_c st_established) =
    Done (r, st') /\
    st' = with_vars_queue [] (after_enqueue name_c st_established).
Proof.
  eassert (Hrun :
    @find_next_key rfc6824 (after_enqueue name_c st_established) =
    Done (_, _)) by (vm_compute; reflexivity).
  do 2 eexists. split; [exact Hrun|].
  exact (proj1 (@find_next_key_takes_first_name rfc6824 _ _ _ Hrun)).
Defined.

(** ** The MP_CAPABLE handshake *)

Section CapableFacts.
Context {host : Host} {hdr : Header} {proc : Process}.

Lemma read_u64_with_vars_queue v q st :
  read_u64 v (with_vars_queue q st) = read_u64 v st.
Proof. destruct v as [[|]|bytes]; reflexivity. Qed.

Lemma is_script_defined_key_Some var v :
  is_script_defined_key var = Some v ->
  exists var0,
    var = Some var0 /\ v = value var0 /\
    (mptcp_subtype var0 =? MP_CAPABLE_SUBTYPE) = true.
Proof.
  destruct var as [var0|]; [|discriminate]. cbn [is_script_defined_key].
  destruct (mptcp_subtype var0 =? MP_CAPABLE_SUBTYPE) eqn:Hsub;
    [|discriminate].
  destruct (script_defined var0); [|discriminate].
  intros H. injection H as <-. exists var0. repeat split. exact Hsub.
Qed.

(** X8.  [mptcp_gen_key] only looks at the first pending name: it leaves
    the queue, the key of the kernel and the subflows as they are.  It fails
    exactly when no name is pending, and then changes nothing; otherwise it
    returns STATUS_OK with the key of packetdrill set, and it draws a number
    from the generator only when the key was not set, which then is the
    key. *)
Theorem mptcp_gen_key_peeks st error st' :
  mptcp_gen_key st = Done (error, st') ->
  vars_queue st' = vars_queue st /\
  kernel_key st' = kernel_key st /\
  kernel_key_set st' = kernel_key_set st /\
  subflows st' = subflows st /\
  match vars_queue st with
  | [] => error = STATUS_ERR /\ st' = st
  | _ :: _ =>
      error = STATUS_OK /\
      packetdrill_key_set st' = true /\
      (random_draws st' = random_draws st \/
       (packetdrill_key_set st = false /\
        random_draws st' = S (random_draws st) /\
        packetdrill_key st' = random (random_draws st) mod 2 ^ 64))
  end.
Proof.
  unfold mptcp_gen_key, queue_front.
  destruct (vars_queue st) as [|n q] eqn:Hq.
  - intros H. injection H as <- <-. rewrite Hq. repeat split.
  - destruct (find_mp_var n st) as [var|]; [|discriminate]. cbn [bind].
    destruct (is_script_defined_key var) as [v|].
    + destruct (read_u64 v st) as [key|]; [|discriminate]. cbn [bind].
      change (packetdrill_key_set (set_packetdrill_key key st)) with true.
      cbn [negb]. intros H. injection H as <- <-.
      repeat split; try exact Hq. now left.
    + cbn [bind]. destruct (packetdrill_key_set st) eqn:Hset; cbn [negb].
      * intros H. injection H as <- <-. rewrite Hq.
        repeat split; [exact Hset | now left].
      * unfold rand_64, add_mp_var_key.
        destruct (save_mp_var_name n) as [cs|]; [|discriminate].
        cbn [bind]. intros H. injection H as <- <-.
        repeat split; try exact Hq. right. repeat split.
Qed.

Lemma find_next_key_bound st n q var :
  vars_queue st = n :: q ->
  find_mp_var n st = Done (Some var) ->
  (mptcp_subtype var =? MP_CAPABLE_SUBTYPE) = true ->
  find_next_key st = Done (Some (value var), with_vars_queue q st).
Proof.
  intros Hq Hfind Hsub. unfold find_next_key, dequeue_var, queue_dequeue.
  rewrite Hq.
  change (find_mp_var n (with_vars_queue q st)) with (find_mp_var n st).
  rewrite Hfind. cbn [bind]. now rewrite Hsub.
Qed.

(** The key [mptcp_gen_key] set or generated is the key the next
    [find_next_key] gives. *)
Lemma mptcp_gen_key_then_find_next_key st st1 :
  packetdrill_key_set st = false ->
  mptcp_gen_key st = Done (STATUS_OK, st1) ->
  exists v,
    find_next_key st1 =
      Done (Some v, with_vars_queue (List.tl (vars_queue st)) st1) /\
    read_u64 v (with_vars_queue (List.tl (vars_queue st)) st1) =
      Done (packetdrill_key st1) /\
    packetdrill_key_set st1 = true.
Proof.
  intros Hunset. unfold mptcp_gen_key, queue_front.
  destruct (vars_queue st) as [|n q] eqn:Hq; [discriminate|].
  destruct (find_mp_var n st) as [var|] eqn:Hfind; [|discriminate].
  cbn [bind tl].
  destruct (is_script_defined_key var) as [v|] eqn:Hvar.
  - destruct (read_u64 v st) as [key|] eqn:Hread; [|discriminate].
    cbn [bind].
    change (packetdrill_key_set (set_packetdrill_key key st)) with true.
    cbn [negb]. intros H. injection H as <-.
    destruct (is_script_defined_key_Some var v Hvar) as (var0 & -> & -> & Hsub).
    exists (value var0). split; [|split; [|reflexivity]].
    + apply (find_next_key_bound _ n q var0); [exact Hq | exact Hfind | exact Hsub].
    + rewrite read_u64_with_vars_queue.
      change (packetdrill_key (set_packetdrill_key key st)) with key.
      now apply read_u64_set_packetdrill_key.
  - cbn [bind]. rewrite Hunset. cbn [negb]. unfold rand_64.
    set (key := random (random_draws st) mod 2 ^ 64).
    set (st0 := set_packetdrill_key key
                  (with_random_draws (S (random_draws st)) st)).
    destruct (add_mp_var_key n PacketdrillKeySlot st0) as [st2|] eqn:Hadd;
      [|discriminate].
    cbn [bind]. intros H. injection H as <-.
    destruct (add_mp_var_key_binds n PacketdrillKeySlot st0 st2 Hadd)
      as (var' & Hfind' & Hsub & Hread).
    assert (Hq2 : vars_queue st2 = n :: q).
    { unfold add_mp_var_key in Hadd.
      destruct (save_mp_var_name n); [|discriminate].
      injection Hadd as <-. exact Hq. }
    assert (Hkey : packetdrill_key st2 = packetdrill_key st0 /\
                   packetdrill_key_set st2 = true).
    { unfold add_mp_var_key in Hadd.
      destruct (save_mp_var_name n); [|discriminate].
      injection Hadd as <-. split; reflexivity. }
    exists (value var'). split; [|split].
    + apply (find_next_key_bound _ n q var'); [exact Hq2 | exact Hfind'|].
      rewrite Hsub. apply Z.eqb_refl.
    + rewrite read_u64_with_vars_queue, Hread. now rewrite (proj1 Hkey).
    + exact (proj2 Hkey).
Qed.

(** X9.  The first inbound SYN: when no key of packetdrill is set and the
    handler of an MP_CAPABLE option of SYN length in an inbound SYN returns
    STATUS_OK, the key it left in the option is the key of packetdrill the
    session has from then on, the key is set, and the first pending name
    is used up. *)
Theorem mp_capable_syn_writes_session_key st p live i st' p' :
  (i < List.length (tcp_options p))%nat ->
  opt_length (option_at p i) = TCPOLEN_MP_CAPABLE_SYN ->
  tcp_syn (tcp p) = true ->
  packetdrill_key_set st = false ->
  mptcp_subtype_mp_capable st p live i DIRECTION_INBOUND =
    Done (STATUS_OK, st', p') ->
  mp_capable_syn_key (option_at p' i) = packetdrill_key st' /\
  packetdrill_key_set st' = true /\
  vars_queue st' = List.tl (vars_queue st).
Proof.
  intros Hi Hlen Hsyn Hunset. unfold mptcp_subtype_mp_capable.
  rewrite Hlen, Hsyn, Z.eqb_refl. cbn [andb negb].
  assert (Hgo :
    ('(error, st0) <- mptcp_gen_key st ;;
     '(error', st0, opt) <- mptcp_set_mp_cap_syn_key (option_at p i) st0 ;;
     Done (c_or error' error, st0, store_option p i opt)) =
    Done (STATUS_OK, st', p') ->
    mp_capable_syn_key (option_at p' i) = packetdrill_key st' /\
    packetdrill_key_set st' = true /\
    vars_queue st' = List.tl (vars_queue st)).
  { destruct (mptcp_gen_key st) as [[e1 st1]|] eqn:Hgen; [|discriminate].
    cbn [bind].
    destruct (mptcp_set_mp_cap_syn_key (option_at p i) st1)
      as [[[e2 st2] o2]|] eqn:Hset; [|discriminate].
    cbn [bind]. intros H. injection H as He <- <-.
    assert (He12 : e1 = STATUS_OK /\ e2 = STATUS_OK).
    { unfold c_or in He.
      destruct (e2 =? 0) eqn:E2; destruct (e1 =? 0) eqn:E1;
        cbn [negb orb] in He; try discriminate He.
      apply Z.eqb_eq in E1, E2. now split. }
    destruct He12 as [-> ->].
    destruct (mptcp_gen_key_then_find_next_key st st1 Hunset Hgen)
      as (v & Hnext & Hread & Hset1).
    unfold mptcp_set_mp_cap_syn_key in Hset. rewrite Hnext in Hset.
    cbn [bind] in Hset. rewrite Hread in Hset. cbn [bind] in Hset.
    injection Hset as <- <-.
    rewrite (option_at_store_option _ _ _ Hi). repeat split; assumption. }
  destruct (tcp_ack (tcp p)); cbn [andb negb];
    rewrite ?andb_false_r; exact Hgo.
Qed.

(** X10.  [extract_and_set_kernel_key]: without an MPTCP option in the live
    packet it fails and changes nothing.  With one, the key of the kernel
    is set afterwards and the queue is as before; when the key was not set
    and the first pending name has no script-defined value, the key is the
    key of the live option; and a failure then means that no name was
    pending, with the key of the live option set all the same. *)
Theorem extract_and_set_kernel_key_adopts live st error st' :
  extract_and_set_kernel_key live st = Done (error, st') ->
  match get_tcp_option live TCPOPT_MPTCP with
  | None => error = STATUS_ERR /\ st' = st
  | Some mpcap_opt =>
      kernel_key_set st' = true /\
      vars_queue st' = vars_queue st /\
      packetdrill_key st' = packetdrill_key st /\
      (error = STATUS_OK \/
       (error = STATUS_ERR /\ vars_queue st = [] /\
        st' = set_kernel_key (mp_capable_syn_key mpcap_opt) st)) /\
      (kernel_key_set st = false ->
       (forall n var,
          queue_front (vars_queue st) = Some n ->
          find_mp_var n st = Done var ->
          is_script_defined_key var = None) ->
       kernel_key st' = mp_capable_syn_key mpcap_opt)
  end.
Proof.
  unfold extract_and_set_kernel_key.
  destruct (get_tcp_option live TCPOPT_MPTCP) as [o|];
    [|intros H; injection H as <- <-; split; reflexivity].
  unfold queue_front.
  destruct (vars_queue st) as [|n q] eqn:Hq.
  - cbn [bind]. destruct (kernel_key_set st) eqn:Hset; cbn [negb].
    + intros H. injection H as <- <-. rewrite Hq.
      repeat split; [exact Hset | now left | congruence].
    + cbn [vars_queue set_kernel_key with_kernel_key_set with_kernel_key].
      rewrite Hq. intros H. injection H as <- <-.
      repeat split; try exact Hq. right. repeat split.
  - destruct (find_mp_var n st) as [var|] eqn:Hfind; [|discriminate].
    cbn [bind].
    destruct (is_script_defined_key var) as [v|] eqn:Hvar.
    + destruct (read_u64 v st) as [key|]; [|discriminate]. cbn [bind].
      change (kernel_key_set (set_kernel_key key st)) with true.
      cbn [negb]. intros H. injection H as <- <-.
      repeat split; try exact Hq; [now left|].
      intros _ Hnone. specialize (Hnone n var eq_refl Hfind). congruence.
    + cbn [bind]. destruct (kernel_key_set st) eqn:Hset; cbn [negb].
      * intros H. injection H as <- <-. rewrite Hq.
        repeat split; [exact Hset | now left | congruence].
      * cbn [vars_queue set_kernel_key with_kernel_key_set with_kernel_key].
        rewrite Hq. unfold add_mp_var_key.
        destruct (save_mp_var_name n) as [cs|]; [|discriminate].
        cbn [bind]. intros H. injection H as <- <-.
        repeat split; try exact Hq. now left.
Qed.

End CapableFacts.

Lemma mptcp_gen_key_peeks_witness :
  exists st',
    @mptcp_gen_key little_endian_lp64 rfc6824 quiet_process
      (after_enqueue name_c st_start) = Done (STATUS_OK, st') /\
    vars_queue st' = vars_queue (after_enqueue name_c st_start) /\
    packetdrill_key st' = 0x1122334455667788.
Proof.
  eassert (Hrun :
    @mptcp_gen_key little_endian_lp64 rfc6824 quiet_process
      (after_enqueue name_c st_start) = Done (STATUS_OK, _))
    by (vm_compute; reflexivity).
  eexists. split; [exact Hrun|]. split; [|reflexivity].
  exact (proj1 (@mptcp_gen_key_peeks little_endian_lp64 rfc6824 quiet_process
                  _ _ _ Hrun)).
Defined.

Lemma mp_capable_syn_writes_session_key_witness :
  exists st' p',
    @mptcp_subtype_mp_capable little_endian_lp64 rfc6824 quiet_process
      (after_enqueue name_c st_start) syn_packet syn_packet 0
      DIRECTION_INBOUND = Done (STATUS_OK, st', p') /\
    mp_capable_syn_key (option_at p' 0) = packetdrill_key st' /\
    packetdrill_key st' = 0x1122334455667788.
Proof.
  eassert (Hrun :
    @mptcp_subtype_mp_capable little_endian_lp64 rfc6824 quiet_process
      (after_enqueue name_c st_start) syn_packet syn_packet 0
      DIRECTION_INBOUND = Done (STATUS_OK, _, _))
    by (vm_compute; reflexivity).
  do 2 eexists. split; [exact Hrun|]. split; [|reflexivity].
  refine (proj1 (@mp_capable_syn_writes_session_key little_endian_lp64
                   rfc6824 quiet_process _ _ _ _ _ _ _ _ _ _ Hrun)).
  - simpl. lia.
  - reflexivity.
  - reflexivity.
  - reflexivity.
Defined.

Lemma extract_and_set_kernel_key_adopts_witness :
  exists st',
    @extract_and_set_kernel_key little_endian_lp64 rfc6824
      live_syn_ack_packet (after_enqueue name_s st_syn) =
    Done (STATUS_OK, st') /\
    kernel_key st' = 0xaabbccddeeff0011.
Proof.
  eassert (Hrun :
    @extract_and_set_kernel_key little_endian_lp64 rfc6824
      live_syn_ack_packet (after_enqueue name_s st_syn) =
    Done (STATUS_OK, _)) by (vm_compute; reflexivity).
  eexists. split; [exact Hrun|].
  refine (proj2 (proj2 (proj2 (proj2
    (@extract_and_set_kernel_key_adopts little_endian_lp64 rfc6824
       live_syn_ack_packet _ _ _ Hrun)))) eq_refl _).
  intros n var Hn Hfind. injection Hn as <-.
  vm_compute in Hfind. injection Hfind as <-. reflexivity.
Defined.

Section CapableAckFacts.
Context {host : Host} {hdr : Header} {proc : Process}.

(** X11.  [mptcp_set_mp_cap_keys] changes nothing of the state but the
    queue.  When it returns STATUS_OK it has used up the first two pending
    names, both were bound to variables of the MP_CAPABLE kind, and the
    sender key and the receiver key in the option are the values of the
    first and of the second.  When it fails, the receiver key in the option
    is untouched. *)
Theorem mptcp_set_mp_cap_keys_takes_two_names o st error st' o' :
  mptcp_set_mp_cap_keys o st = Done (error, st', o') ->
  (exists pending, st' = with_vars_queue pending st) /\
  (error = STATUS_OK ->
   exists n1 n2 pending var1 var2,
     vars_queue st = n1 :: n2 :: pending /\
     st' = with_vars_queue pending st /\
     find_mp_var n1 st = Done (Some var1) /\
     find_mp_var n2 st = Done (Some var2) /\
     read_u64 (value var1) st = Done (mp_capable_no_syn_sender_key o') /\
     read_u64 (value var2) st = Done (mp_capable_no_syn_receiver_key o')) /\
  (error <> STATUS_OK ->
   error = STATUS_ERR /\
   mp_capable_no_syn_receiver_key o' = mp_capable_no_syn_receiver_key o).
Proof.
  unfold mptcp_set_mp_cap_keys, find_next_key, dequeue_var, queue_dequeue.
  destruct (vars_queue st) as [|n1 q1] eqn:Hq.
  { cbn [bind]. intros H. injection H as <- <- <-.
    split; [|split].
    - exists []. destruct st. cbn in Hq. now subst.
    - discriminate.
    - intros _. split; reflexivity. }
  change (find_mp_var n1 (with_vars_queue q1 st)) with (find_mp_var n1 st).
  destruct (find_mp_var n1 st) as [[var1|]|] eqn:Hfind1; cbn [bind];
    [| |discriminate].
  2:{ intros H. injection H as <- <- <-.
      split; [now exists q1|]. split; [discriminate|].
      intros _. split; reflexivity. }
  destruct (mptcp_subtype var1 =? MP_CAPABLE_SUBTYPE) eqn:Hsub1;
    cbn [negb bind].
  2:{ intros H. injection H as <- <- <-.
      split; [now exists q1|]. split; [discriminate|].
      intros _. split; reflexivity. }
  rewrite read_u64_with_vars_queue.
  destruct (read_u64 (value var1) st) as [k1|] eqn:Hread1; [|discriminate].
  cbn [bind vars_queue with_vars_queue].
  destruct q1 as [|n2 q2].
  { cbn [bind]. intros H. injection H as <- <- <-.
    split; [now exists []|]. split; [discriminate|].
    intros _. split; reflexivity. }
  change (find_mp_var n2 _) with (find_mp_var n2 st).
  destruct (find_mp_var n2 st) as [[var2|]|] eqn:Hfind2; cbn [bind];
    [| |discriminate].
  2:{ intros H. injection H as <- <- <-.
      split; [now exists q2|]. split; [discriminate|].
      intros _. split; reflexivity. }
  destruct (mptcp_subtype var2 =? MP_CAPABLE_SUBTYPE) eqn:Hsub2;
    cbn [negb bind].
  2:{ intros H. injection H as <- <- <-.
      split; [now exists q2|]. split; [discriminate|].
      intros _. split; reflexivity. }
  change (read_u64 (value var2) _) with
    (read_u64 (value var2) (with_vars_queue q2 st)).
  rewrite read_u64_with_vars_queue.
  destruct (read_u64 (value var2) st) as [k2|] eqn:Hread2; [|discriminate].
  cbn [bind]. intros H. injection H as <- <- <-.
  split; [now exists q2|]. split.
  - intros _. exists n1, n2, q2, var1, var2. repeat split; assumption.
  - intros Hne. now contradiction Hne.
Qed.


Lemma find_next_key_queue_only st r st' :
  find_next_key st = Done (r, st') ->
  exists pending, st' = with_vars_queue pending st.
Proof.
  unfold find_next_key, dequeue_var, queue_dequeue.
  destruct (vars_queue st) as [|n q] eqn:Hq.
  - intros H. injection H as <- <-. exists []. destruct st. cbn in Hq.
    now subst.
  - change (find_mp_var n (with_vars_queue q st)) with (find_mp_var n st).
    destruct (find_mp_var n st) as [var|]; [|discriminate].
    cbn [bind]. intros H. exists q.
    destruct var as [var|]; [destruct (mptcp_subtype var =? _)|];
      cbn [negb] in H; now injection H as _ <-.
Qed.

Lemma mptcp_set_mp_cap_keys_queue_only o st error st' o' :
  mptcp_set_mp_cap_keys o st = Done (error, st', o') ->
  exists pending, st' = with_vars_queue pending st.
Proof.
  unfold mptcp_set_mp_cap_keys.
  destruct (find_next_key st) as [[key1 st1]|] eqn:H1; [|discriminate].
  destruct (find_next_key_queue_only _ _ _ H1) as (q1 & ->).
  cbn [bind]. destruct key1 as [key1|].
  2:{ intros H. injection H as <- <- <-. now exists q1. }
  destruct (read_u64 key1 _); [|discriminate]. cbn [bind].
  destruct (find_next_key (with_vars_queue q1 st)) as [[key2 st2]|] eqn:H2;
    [|discriminate].
  destruct (find_next_key_queue_only _ _ _ H2) as (q2 & ->).
  cbn [bind]. destruct key2 as [key2|].
  2:{ intros H. injection H as <- <- <-. now exists q2. }
  destruct (read_u64 key2 _); [|discriminate]. cbn [bind].
  intros H. injection H as <- <- <-. now exists q2.
Qed.

(** X12.  The final ACK of the handshake.  Whatever status comes back, the
    keys, their flags and the variables are as before and [initial_dsn] is
    the low 64 bits of SHA1 of the key of packetdrill: these are set also
    when the keys could not be written.  For an inbound packet with an IP
    header a subflow is put in front of the list, starting at 0, and the
    packet that comes back finds it, again whatever the status; for a
    direction that is neither inbound nor outbound the status is STATUS_ERR
    and no subflow is made. *)
Theorem mp_capable_ack_opens_first_subflow st p live i direction error st' p' :
  opt_length (option_at p i) = TCPOLEN_MP_CAPABLE ->
  tcp_syn (tcp p) = false ->
  tcp_ack (tcp p) = true ->
  mptcp_subtype_mp_capable st p live i direction = Done (error, st', p') ->
  packetdrill_key st' = packetdrill_key st /\
  kernel_key st' = kernel_key st /\
  packetdrill_key_set st' = packetdrill_key_set st /\
  kernel_key_set st' = kernel_key_set st /\
  vars st' = vars st /\
  initial_dsn st' = sha1_least_64bits (packetdrill_key st) /\
  match direction with
  | DIRECTION_INBOUND =>
      ipv4 p <> None \/ ipv6 p <> None ->
      List.tl (subflows st') = subflows st /\
      subflow_sequence_number (subflow_at st' 0) = 0 /\
      find_subflow_matching_inbound_packet p' st' = Some 0%nat
  | DIRECTION_OUTBOUND => True
  | DIRECTION_INVALID => error = STATUS_ERR /\ subflows st' = subflows st
  end.
Proof.
  intros Hlen Hsyn Hack. unfold mptcp_subtype_mp_capable.
  rewrite Hlen, Hsyn, Hack, Z.eqb_refl. cbn [andb negb].
  destruct (TCPOLEN_MP_CAPABLE =? TCPOLEN_MP_CAPABLE_SYN); cbn [andb];
    [destruct direction; cbn [andb]|].
  all: destruct (mptcp_set_mp_cap_keys (option_at p i) st)
         as [[[e st1] o1]|] eqn:Hkeys; [|discriminate].
  all: cbn [bind].
  all: destruct (mptcp_set_mp_cap_keys_queue_only _ _ _ _ _ Hkeys) as (q & ->).
  all: clear Hkeys.
  all: try destruct direction.
  all: unfold new_subflow_inbound, new_subflow_outbound, generate_32.
  all: cbn [ipv4 ipv6 tcp store_option].
  all: try (destruct (get_tcp_option _ _)).
  all: destruct (ipv4 p) as [ip4|]; [|destruct (ipv6 p) as [ip6|]].
  all: intros H; injection H as <- <- <-.
  all: repeat split.
  all: try match goal with
           | H : None <> None \/ None <> None |- _ =>
               destruct H as [H|H]; now elim H
           end.
  all: unfold find_subflow_matching_inbound_packet, find_matching_subflow,
         does_subflow_match_inbound_packet;
       cbn [subflows with_subflows first_match dst_port src_port tcp
            store_option with_subflow_sequence_number
            with_packetdrill_addr_id with_packetdrill_rand_nbr
            with_dst_port with_src_port];
       now rewrite !Z.eqb_refl.
Qed.

(** X13.  Outside its four cases the MP_CAPABLE handler returns STATUS_ERR
    and changes neither the state nor the packet: when the option has
    neither of the two lengths, when the packet has neither SYN nor ACK,
    and when a SYN comes with a direction that is neither inbound nor
    outbound. *)
Theorem mp_capable_rejects st p live i direction :
  (opt_length (option_at p i) <> TCPOLEN_MP_CAPABLE_SYN /\
   opt_length (option_at p i) <> TCPOLEN_MP_CAPABLE) \/
  (tcp_syn (tcp p) = false /\ tcp_ack (tcp p) = false) \/
  (tcp_syn (tcp p) = true /\ direction = DIRECTION_INVALID) ->
  mptcp_subtype_mp_capable st p live i direction = Done (STATUS_ERR, st, p).
Proof.
  unfold mptcp_subtype_mp_capable.
  intros [[Hsyn Hack]|[[Hsyn Hack]|[Hsyn ->]]].
  - apply Z.eqb_neq in Hsyn, Hack. now rewrite Hsyn, Hack.
  - rewrite Hsyn, Hack. cbn [negb]. now rewrite !andb_false_r.
  - rewrite Hsyn. cbn [negb]. now rewrite !andb_false_r.
Qed.

End CapableAckFacts.

Lemma mptcp_set_mp_cap_keys_takes_two_names_witness :
  exists st' o',
    @mptcp_set_mp_cap_keys little_endian_lp64 rfc6824 (mptcp_option 20 0)
      (after_enqueue name_s (after_enqueue name_c st_syn_ack)) =
    Done (STATUS_OK, st', o') /\
    mp_capable_no_syn_sender_key o' = 0x1122334455667788 /\
    mp_capable_no_syn_receiver_key o' = 0xaabbccddeeff0011 /\
    exists pending,
      st' = with_vars_queue pending
              (after_enqueue name_s (after_enqueue name_c st_syn_ack)).
Proof.
  eassert (Hrun :
    @mptcp_set_mp_cap_keys little_endian_lp64 rfc6824 (mptcp_option 20 0)
      (after_enqueue name_s (after_enqueue name_c st_syn_ack)) =
    Done (STATUS_OK, _, _)) by (vm_compute; reflexivity).
  do 2 eexists. split; [exact Hrun|].
  split; [reflexivity|]. split; [reflexivity|].
  exact (proj1 (@mptcp_set_mp_cap_keys_takes_two_names little_endian_lp64
                  rfc6824 _ _ _ _ _ Hrun)).
Defined.

Lemma mp_capable_ack_opens_first_subflow_witness :
  exists error st' p',
    @mptcp_subtype_mp_capable little_endian_lp64 rfc6824 quiet_process
      (after_enqueue name_s (after_enqueue name_c st_syn_ack))
      ack_packet ack_packet 0 DIRECTION_INBOUND = Done (error, st', p') /\
    initial_dsn st' = sha1_least_64bits 0x1122334455667788 /\
    @find_subflow_matching_inbound_packet little_endian_lp64 p' st' =
      Some 0%nat.
Proof.
  eassert (Hrun :
    @mptcp_subtype_mp_capable little_endian_lp64 rfc6824 quiet_process
      (after_enqueue name_s (after_enqueue name_c st_syn_ack))
      ack_packet ack_packet 0 DIRECTION_INBOUND = Done (_, _, _))
    by (vm_compute; reflexivity).
  do 3 eexists. split; [exact Hrun|].
  destruct (@mp_capable_ack_opens_first_subflow little_endian_lp64 rfc6824
              quiet_process _ ack_packet ack_packet 0%nat DIRECTION_INBOUND
              _ _ _ eq_refl eq_refl eq_refl Hrun)
    as (_ & _ & _ & _ & _ & Hdsn & Hnew).
  split; [exact Hdsn|].
  apply Hnew. left. discriminate.
Defined.

Lemma mp_capable_rejects_witness :
  @mptcp_subtype_mp_capable little_endian_lp64 rfc6824 quiet_process
    (after_enqueue name_c st_start)
    (tcp_packet 56 1000 2000 true false 9 [mptcp_option 16 0])
    syn_packet 0 DIRECTION_INBOUND =
  Done (STATUS_ERR, after_enqueue name_c st_start,
        tcp_packet 56 1000 2000 true false 9 [mptcp_option 16 0]).
Proof.
  apply (@mp_capable_rejects little_endian_lp64 rfc6824 quiet_process).
  left. split; discriminate.
Defined.

(** ** More on MP_JOIN *)

Section JoinHandshake.
Context {host : Host} {hdr : Header} {proc : Process}.

(** X14.  An inbound MP_JOIN SYN always returns.  Without an IP header it
    returns STATUS_ERR and changes nothing.  With one it returns STATUS_OK,
    opens a subflow in front of the list and announces it: the nonce in the
    option is the number just drawn, as it is (not converted to network
    order), the address id is the counter before the call, and the counter
    goes up by one modulo 256; the packet that comes back finds the new
    subflow. *)
Theorem mp_join_syn_inbound_announces st p live i :
  (i < List.length (tcp_options p))%nat ->
  opt_length (option_at p i) = TCPOLEN_MP_JOIN_SYN ->
  tcp_syn (tcp p) = true ->
  tcp_ack (tcp p) = false ->
  exists error st' p',
    mptcp_subtype_mp_join st p live i DIRECTION_INBOUND =
      Done (error, st', p') /\
    match ipv4 p, ipv6 p with
    | None, None => error = STATUS_ERR /\ st' = st /\ p' = p
    | _, _ =>
        let o' := option_at p' i in
        let subflow := subflow_at st' 0 in
        error = STATUS_OK /\
        mp_join_syn_no_ack_sender_random_number o' =
          random (random_draws st) mod 2 ^ 32 /\
        mp_join_syn_address_id o' = last_packetdrill_addr_id st /\
        last_packetdrill_addr_id st' =
          (last_packetdrill_addr_id st + 1) mod 2 ^ 8 /\
        random_draws st' = S (random_draws st) /\
        List.tl (subflows st') = subflows st /\
        packetdrill_rand_nbr subflow =
          mp_join_syn_no_ack_sender_random_number o' /\
        packetdrill_addr_id subflow = mp_join_syn_address_id o' /\
        find_subflow_matching_inbound_packet p' st' = Some 0%nat
    end.
Proof.
  intros Hi Hlen Hsyn Hack. unfold mptcp_subtype_mp_join.
  rewrite Hlen, Hsyn, Hack, Z.eqb_refl. cbn [andb negb].
  unfold new_subflow_inbound, generate_32.
  destruct (ipv4 p) as [ip4|]; [|destruct (ipv6 p) as [ip6|]].
  3:{ do 3 eexists. split; [reflexivity|]. repeat split. }
  all: do 3 eexists; (split; [reflexivity|]).
  all: cbv zeta; rewrite (option_at_store_option _ _ _ Hi).
  all: repeat split.
  all: unfold find_subflow_matching_inbound_packet, find_matching_subflow,
         does_subflow_match_inbound_packet;
       cbn [subflows with_subflows first_match dst_port src_port tcp
            store_option with_subflow_sequence_number
            with_packetdrill_addr_id with_packetdrill_rand_nbr
            with_dst_port with_src_port];
       now rewrite !Z.eqb_refl.
Qed.

(** X15.  An outbound MP_JOIN SYN/ACK whose live packet matches a subflow
    and carries an MPTCP option returns STATUS_OK; it takes the address id
    and the nonce of the kernel from the live option into that subflow and
    into the script option, unconverted, and writes as HMAC the leading 64
    bits of HMAC-SHA1 under the key of the kernel followed by the key of
    packetdrill, over the nonce of the kernel followed by the nonce of
    packetdrill, each in the byte order of the host.  Nothing else of the
    subflow, no other subflow and no key changes. *)
Theorem mp_join_syn_ack_outbound_absorbs st p live i k live_mp_join :
  sizeof_unsigned_long = 8%nat ->
  (i < List.length (tcp_options p))%nat ->
  opt_length (option_at p i) = TCPOLEN_MP_JOIN_SYN_ACK ->
  tcp_syn (tcp p) = true ->
  tcp_ack (tcp p) = true ->
  find_subflow_matching_outbound_packet live st = Some k ->
  get_tcp_option live TCPOPT_MPTCP = Some live_mp_join ->
  exists st' p',
    mptcp_subtype_mp_join st p live i DIRECTION_OUTBOUND =
      Done (STATUS_OK, st', p') /\
    let o' := option_at p' i in
    let address_id := mp_join_syn_address_id live_mp_join in
    let kernel_rand := mp_join_syn_ack_sender_random_number live_mp_join in
    let packetdrill_rand := packetdrill_rand_nbr (subflow_at st k) in
    subflow_at st' k =
      with_kernel_rand_nbr kernel_rand
        (with_kernel_addr_id address_id (subflow_at st k)) /\
    (forall j, j <> k -> subflow_at st' j = subflow_at st j) /\
    List.length (subflows st') = List.length (subflows st) /\
    packetdrill_key st' = packetdrill_key st /\
    kernel_key st' = kernel_key st /\
    mp_join_syn_address_id o' = address_id /\
    mp_join_syn_ack_sender_random_number o' = kernel_rand /\
    mp_join_syn_ack_sender_hmac o' =
      be_decode
        (firstn 8
           (SHA1.hmac
              (host_bytes 8 (kernel_key st) ++
               host_bytes 8 (packetdrill_key st))
              (host_bytes 4 kernel_rand ++ host_bytes 4 packetdrill_rand))).
Proof.
  intros Hsize Hi Hlen Hsyn Hack Hfind Hlive.
  pose proof (first_match_bound _ _ _ Hfind) as Hk.
  unfold mptcp_subtype_mp_join.
  rewrite Hlen, Hsyn, Hack, Z.eqb_refl. cbn [andb negb].
  rewrite Hfind, Hlive.
  set (st1 := update_subflow k (with_kernel_addr_id _) st).
  set (st2 := update_subflow k (with_kernel_rand_nbr _) st1).
  change (kernel_key st2) with (kernel_key st).
  change (packetdrill_key st2) with (packetdrill_key st).
  rewrite (hmac_key_bytes _ _ Hsize). cbn [bind].
  assert (Hk1 : (k < List.length (subflows st1))%nat).
  { unfold st1, update_subflow. cbn [subflows with_subflows].
    now rewrite replace_nth_length. }
  assert (Hat : subflow_at st2 k =
                with_kernel_rand_nbr
                  (mp_join_syn_ack_sender_random_number live_mp_join)
                  (with_kernel_addr_id (mp_join_syn_address_id live_mp_join)
                     (subflow_at st k))).
  { unfold st2. rewrite (subflow_at_update_subflow _ _ _ Hk1).
    unfold st1. now rewrite (subflow_at_update_subflow _ _ _ Hk). }
  do 2 eexists. split; [reflexivity|]. cbv zeta.
  rewrite (option_at_store_option _ _ _ Hi), Hat.
  split; [reflexivity|]. split.
  { intros j Hj. unfold st2, st1.
    rewrite !subflow_at_update_subflow_other by congruence. reflexivity. }
  split.
  { unfold st2, st1, update_subflow. cbn [subflows with_subflows].
    now rewrite !replace_nth_length. }
  repeat (split; [reflexivity|]).
  cbn [mp_join_syn_ack_sender_hmac with_mp_join_syn_ack_sender_hmac
       kernel_rand_nbr with_kernel_rand_nbr packetdrill_rand_nbr
       with_kernel_addr_id].
  unfold hmac_sha1_truncat_64. now rewrite hmac_sha1_16_8.
Qed.

(** X16.  An inbound MP_JOIN SYN/ACK on a known subflow returns STATUS_OK.
    It draws a new nonce for the subflow, which replaces the one the
    subflow had, and uses the new one in the HMAC; the nonce goes into the
    option through [htonl] and the HMAC, the leading 64 bits of HMAC-SHA1
    under the key of packetdrill followed by the key of the kernel, through
    [htobe64].  The address id in the option is the counter, which is
    counted up, while the address id of the subflow stays as it was. *)
Theorem mp_join_syn_ack_inbound_answers st p live i k :
  sizeof_unsigned_long = 8%nat ->
  (i < List.length (tcp_options p))%nat ->
  opt_length (option_at p i) = TCPOLEN_MP_JOIN_SYN_ACK ->
  tcp_syn (tcp p) = true ->
  tcp_ack (tcp p) = true ->
  find_subflow_matching_inbound_packet p st = Some k ->
  exists st' p',
    mptcp_subtype_mp_join st p live i DIRECTION_INBOUND =
      Done (STATUS_OK, st', p') /\
    let o' := option_at p' i in
    let rand := random (random_draws st) mod 2 ^ 32 in
    subflow_at st' k = with_packetdrill_rand_nbr rand (subflow_at st k) /\
    (forall j, j <> k -> subflow_at st' j = subflow_at st j) /\
    List.length (subflows st') = List.length (subflows st) /\
    random_draws st' = S (random_draws st) /\
    last_packetdrill_addr_id st' =
      (last_packetdrill_addr_id st + 1) mod 2 ^ 8 /\
    packetdrill_key st' = packetdrill_key st /\
    kernel_key st' = kernel_key st /\
    mp_join_syn_address_id o' = last_packetdrill_addr_id st /\
    mp_join_syn_ack_sender_random_number o' = htonl rand /\
    mp_join_syn_ack_sender_hmac o' =
      htobe64
        (be_decode
           (firstn 8
              (SHA1.hmac
                 (host_bytes 8 (packetdrill_key st) ++
                  host_bytes 8 (kernel_key st))
                 (host_bytes 4 rand ++
                  host_bytes 4 (kernel_rand_nbr (subflow_at st k)))))).
Proof.
  intros Hsize Hi Hlen Hsyn Hack Hfind.
  pose proof (find_inbound_bound _ _ _ Hfind) as Hk.
  unfold mptcp_subtype_mp_join.
  rewrite Hlen, Hsyn, Hack, Z.eqb_refl. cbn [andb negb].
  rewrite ?andb_false_r. cbn [andb].
  rewrite Hfind. unfold generate_32.
  set (rand := random (random_draws st) mod 2 ^ 32).
  set (st0 := with_random_draws (S (random_draws st)) st).
  set (st1 := update_subflow k (with_packetdrill_rand_nbr rand) st0).
  change (kernel_key st1) with (kernel_key st).
  change (packetdrill_key st1) with (packetdrill_key st).
  rewrite (hmac_key_bytes _ _ Hsize). cbn [bind].
  assert (Hat : forall st2,
            subflows st2 = subflows st1 ->
            subflow_at st2 k = with_packetdrill_rand_nbr rand (subflow_at st k)).
  { intros st2 H2. unfold subflow_at at 1. rewrite H2.
    change (nth k (subflows st1) malloc_mp_subflow) with (subflow_at st1 k).
    unfold st1. rewrite subflow_at_update_subflow by exact Hk. reflexivity. }
  do 2 eexists. split; [reflexivity|]. cbv zeta.
  rewrite (option_at_store_option _ _ _ Hi).
  pose proof (Hat st1 eq_refl) as Hat1.
  pose proof (Hat (with_last_packetdrill_addr_id
                     (u8 (last_packetdrill_addr_id st1 + 1)) st1) eq_refl)
    as Hat2.
  rewrite ?Hat2, ?Hat1.
  split; [reflexivity|]. split.
  { intros j Hj. unfold subflow_at at 1. cbn [subflows with_last_packetdrill_addr_id].
    change (nth j (subflows st1) malloc_mp_subflow) with (subflow_at st1 j).
    unfold st1. rewrite subflow_at_update_subflow_other by congruence.
    reflexivity. }
  split.
  { cbn [subflows with_last_packetdrill_addr_id]. unfold st1, update_subflow.
    cbn [subflows with_subflows]. now rewrite replace_nth_length. }
  repeat (split; [reflexivity|]).
  cbn [mp_join_syn_ack_sender_hmac with_mp_join_syn_ack_sender_hmac
       kernel_rand_nbr packetdrill_rand_nbr with_packetdrill_rand_nbr].
  unfold hmac_sha1_truncat_64. now rewrite hmac_sha1_16_8.
Qed.

End JoinHandshake.

Section JoinEdges.
Context {host : Host} {hdr : Header} {proc : Process}.

(** X17.  An outbound MP_JOIN SYN whose live packet has an IP header and an
    MPTCP option returns STATUS_OK and opens a subflow from the live
    packet, without drawing a number or counting the address id.  The
    script option gets the address id of the live option as it is, and the
    nonce of the live option passed through [htonl]: the four bytes of the
    field, in the order of the host's memory, are the big-endian bytes of
    the number read from the live option. *)
Theorem mp_join_syn_outbound_copies st p live i live_mp_join :
  (i < List.length (tcp_options p))%nat ->
  opt_length (option_at p i) = TCPOLEN_MP_JOIN_SYN ->
  tcp_syn (tcp p) = true ->
  tcp_ack (tcp p) = false ->
  get_tcp_option live TCPOPT_MPTCP = Some live_mp_join ->
  ipv4 live <> None \/ ipv6 live <> None ->
  exists st' p',
    mptcp_subtype_mp_join st p live i DIRECTION_OUTBOUND =
      Done (STATUS_OK, st', p') /\
    let o' := option_at p' i in
    let nonce := mp_join_syn_no_ack_sender_random_number live_mp_join in
    mp_join_syn_address_id o' = mp_join_syn_address_id live_mp_join /\
    mp_join_syn_no_ack_sender_random_number o' = htonl nonce /\
    host_bytes 4 (mp_join_syn_no_ack_sender_random_number o') =
      be_bytes 4 nonce /\
    List.tl (subflows st') = subflows st /\
    kernel_rand_nbr (subflow_at st' 0) = nonce /\
    kernel_addr_id (subflow_at st' 0) = mp_join_syn_address_id live_mp_join /\
    random_draws st' = random_draws st /\
    last_packetdrill_addr_id st' = last_packetdrill_addr_id st /\
    find_subflow_matching_outbound_packet live st' = Some 0%nat.
Proof.
  intros Hi Hlen Hsyn Hack Hlive Hip. unfold mptcp_subtype_mp_join.
  rewrite Hlen, Hsyn, Hack, Z.eqb_refl. cbn [andb negb].
  unfold new_subflow_outbound. rewrite Hlive.
  destruct (ipv4 live) as [ip4|]; [|destruct (ipv6 live) as [ip6|]].
  3:{ destruct Hip as [Hip|Hip]; now elim Hip. }
  all: do 2 eexists; (split; [reflexivity|]).
  all: cbv zeta; rewrite (option_at_store_option _ _ _ Hi).
  all: repeat split.
  all: try apply host_bytes_htonl.
  all: unfold find_subflow_matching_outbound_packet, find_matching_subflow,
         does_subflow_match_outbound_packet;
       cbn [subflows with_subflows first_match dst_port src_port tcp
            with_subflow_sequence_number with_kernel_addr_id
            with_kernel_rand_nbr with_dst_port with_src_port];
       now rewrite !Z.eqb_refl.
Qed.

(** X18.  Outside its six cases the MP_JOIN handler returns STATUS_ERR and
    changes neither the state nor the packet: when the option has none of
    the three lengths, when the packet has neither SYN nor ACK, and when
    the direction is neither inbound nor outbound. *)
Theorem mp_join_rejects st p live i direction :
  (opt_length (option_at p i) <> TCPOLEN_MP_JOIN_SYN /\
   opt_length (option_at p i) <> TCPOLEN_MP_JOIN_SYN_ACK /\
   opt_length (option_at p i) <> TCPOLEN_MP_JOIN_ACK) \/
  (tcp_syn (tcp p) = false /\ tcp_ack (tcp p) = false) \/
  direction = DIRECTION_INVALID ->
  mptcp_subtype_mp_join st p live i direction = Done (STATUS_ERR, st, p).
Proof.
  unfold mptcp_subtype_mp_join.
  intros [(Hsyn & Hsynack & Hack)|[[Hsyn Hack]| ->]].
  - apply Z.eqb_neq in Hsyn, Hsynack, Hack.
    now rewrite Hsyn, Hsynack, Hack, !andb_false_r.
  - rewrite Hsyn, Hack. cbn [negb]. now rewrite !andb_false_r.
  - reflexivity.
Qed.

(** X19.  The guarded lookups of the MP_JOIN handler: a SYN/ACK or an ACK
    for which no subflow is found, and an outbound SYN/ACK whose live
    packet has no MPTCP option, return STATUS_ERR and change neither the
    state nor the packet; for an inbound SYN/ACK no number is drawn. *)
Theorem mp_join_guards st p live i direction :
  tcp_ack (tcp p) = true ->
  match direction, tcp_syn (tcp p) with
  | DIRECTION_INBOUND, _ =>
      find_subflow_matching_inbound_packet p st = None
  | DIRECTION_OUTBOUND, true =>
      find_subflow_matching_outbound_packet live st = None \/
      get_tcp_option live TCPOPT_MPTCP = None
  | DIRECTION_OUTBOUND, false =>
      find_subflow_matching_outbound_packet p st = None
  | DIRECTION_INVALID, _ => True
  end ->
  mptcp_subtype_mp_join st p live i direction = Done (STATUS_ERR, st, p).
Proof.
  intros Hack. unfold mptcp_subtype_mp_join. rewrite Hack.
  destruct direction, (tcp_syn (tcp p)); cbn [andb negb]; intros Hnone;
    try reflexivity.
  - rewrite Hnone. now destruct (_ =? _).
  - rewrite !Hnone. now destruct (_ =? _).
  - destruct (_ =? _); [|reflexivity].
    destruct Hnone as [-> | ->]; [reflexivity|].
    now destruct (find_subflow_matching_outbound_packet live st).
  - rewrite Hnone. now destruct (_ =? _).
Qed.

End JoinEdges.

Lemma mp_join_syn_inbound_announces_witness :
  exists error st' p',
    @mptcp_subtype_mp_join little_endian_lp64 rfc6824 quiet_process
      st_established join_syn_packet join_syn_packet 0 DIRECTION_INBOUND =
      Done (error, st', p') /\
    error = STATUS_OK /\
    mp_join_syn_address_id (option_at p' 0) =
      last_packetdrill_addr_id st_established /\
    List.tl (subflows st') = subflows st_established.
Proof.
  destruct (@mp_join_syn_inbound_announces little_endian_lp64 rfc6824
              quiet_process st_established join_syn_packet join_syn_packet
              0%nat)
    as (error & st' & p' & Hrun & Hspec).
  - simpl. lia.
  - reflexivity.
  - reflexivity.
  - reflexivity.
  - exists error, st', p'. split; [exact Hrun|].
    cbn [ipv4 join_syn_packet tcp_packet] in Hspec.
    destruct Hspec as (Herr & _ & Hid & _ & _ & Htl & _).
    split; [exact Herr|]. split; [exact Hid | exact Htl].
Defined.

Lemma mp_join_syn_ack_outbound_absorbs_witness :
  exists st' p',
    @mptcp_subtype_mp_join little_endian_lp64 rfc6824 quiet_process
      st_join_syn join_syn_ack_packet live_join_syn_ack_packet 0
      DIRECTION_OUTBOUND = Done (STATUS_OK, st', p') /\
    mp_join_syn_address_id (option_at p' 0) = 5 /\
    mp_join_syn_ack_sender_random_number (option_at p' 0) = 0xdeadbeef.
Proof.
  destruct (@mp_join_syn_ack_outbound_absorbs little_endian_lp64 rfc6824
              quiet_process st_join_syn join_syn_ack_packet
              live_join_syn_ack_packet 0%nat 0%nat
              (with_mp_join_syn_address_id 5
                 (with_mp_join_syn_ack_sender_random_number 0xdeadbeef
                    (mptcp_option 16 1))))
    as (st' & p' & Hrun & _ & _ & _ & _ & _ & Hid & Hrand & _).
  - reflexivity.
  - simpl. lia.
  - reflexivity.
  - reflexivity.
  - reflexivity.
  - vm_compute. reflexivity.
  - reflexivity.
  - exists st', p'. split; [exact Hrun|]. split; [exact Hid | exact Hrand].
Defined.

Lemma mp_join_syn_ack_inbound_answers_witness :
  exists st' p',
    @mptcp_subtype_mp_join little_endian_lp64 rfc6824 quiet_process
      st_established
      (tcp_packet 56 1000 2000 true true 9 [mptcp_option 16 1])
      (tcp_packet 56 1000 2000 true true 9 [mptcp_option 16 1])
      0 DIRECTION_INBOUND = Done (STATUS_OK, st', p') /\
    mp_join_syn_address_id (option_at p' 0) =
      last_packetdrill_addr_id st_established /\
    random_draws st' = S (random_draws st_established).
Proof.
  destruct (@mp_join_syn_ack_inbound_answers little_endian_lp64 rfc6824
              quiet_process st_established
              (tcp_packet 56 1000 2000 true true 9 [mptcp_option 16 1])
              (tcp_packet 56 1000 2000 true true 9 [mptcp_option 16 1])
              0%nat 0%nat)
    as (st' & p' & Hrun & _ & _ & _ & Hdraws & _ & _ & _ & Hid & _).
  - reflexivity.
  - simpl. lia.
  - reflexivity.
  - reflexivity.
  - reflexivity.
  - vm_compute. reflexivity.
  - exists st', p'. split; [exact Hrun|]. split; [exact Hid | exact Hdraws].
Defined.

Lemma mp_join_syn_outbound_copies_witness :
  exists st' p',
    @mptcp_subtype_mp_join little_endian_lp64 rfc6824 quiet_process
      st_established join_syn_out_packet
      (tcp_packet 52 2000 1003 true false 8
         [with_mp_join_syn_address_id 7
            (with_mp_join_syn_no_ack_sender_random_number 0x01020304
               (mptcp_option 12 1))])
      0 DIRECTION_OUTBOUND = Done (STATUS_OK, st', p') /\
    mp_join_syn_address_id (option_at p' 0) = 7 /\
    @host_bytes little_endian_lp64 4
      (mp_join_syn_no_ack_sender_random_number (option_at p' 0)) =
      [1; 2; 3; 4].
Proof.
  destruct (@mp_join_syn_outbound_copies little_endian_lp64 rfc6824
              quiet_process st_established join_syn_out_packet
              (tcp_packet 52 2000 1003 true false 8
                 [with_mp_join_syn_address_id 7
                    (with_mp_join_syn_no_ack_sender_random_number 0x01020304
                       (mptcp_option 12 1))])
              0%nat
              (with_mp_join_syn_address_id 7
                 (with_mp_join_syn_no_ack_sender_random_number 0x01020304
                    (mptcp_option 12 1))))
    as (st' & p' & Hrun & Hid & _ & Hbytes & _).
  - simpl. lia.
  - reflexivity.
  - reflexivity.
  - reflexivity.
  - reflexivity.
  - left. discriminate.
  - exists st', p'. split; [exact Hrun|]. split; [exact Hid | exact Hbytes].
Defined.

Lemma mp_join_rejects_witness :
  @mptcp_subtype_mp_join little_endian_lp64 rfc6824 quiet_process
    st_established join_syn_packet join_syn_packet 0 DIRECTION_INVALID =
  Done (STATUS_ERR, st_established, join_syn_packet).
Proof.
  apply (@mp_join_rejects little_endian_lp64 rfc6824 quiet_process).
  right. right. reflexivity.
Defined.

Lemma mp_join_guards_witness :
  @mptcp_subtype_mp_join little_endian_lp64 rfc6824 quiet_process
    st_start join_ack_packet join_ack_packet 0 DIRECTION_INBOUND =
  Done (STATUS_ERR, st_start, join_ack_packet).
Proof.
  apply (@mp_join_guards little_endian_lp64 rfc6824 quiet_process).
  - reflexivity.
  - reflexivity.
Defined.

(** ** What handling a packet keeps *)

Section Growth.
Context {host : Host} {hdr : Header} {proc : Process}.

Lemma extends_refl st : extends st st.
Proof.
  repeat split; try (exists []; try split; try reflexivity; constructor);
    auto.
Qed.

Lemma extends_trans st1 st2 st3 :
  extends st1 st2 -> extends st2 st3 -> extends st1 st3.
Proof.
  intros ((n1 & Hv1 & Hf1) & (u1 & Hq1) & Hp1 & Hk1 & Hd1 & (s1 & Hs1))
         ((n2 & Hv2 & Hf2) & (u2 & Hq2) & Hp2 & Hk2 & Hd2 & (s2 & Hs2)).
  repeat split.
  - exists (n2 ++ n1). split.
    + rewrite Hv2, Hv1. apply app_assoc.
    + apply Forall_app. split; assumption.
  - exists (u1 ++ u2). rewrite Hq1, Hq2. apply app_assoc.
  - auto.
  - auto.
  - lia.
  - exists (s2 ++ s1). rewrite Hs2, Hs1. apply app_assoc.
Qed.

(** A step that changes none of the fields looked at. *)
Lemma extends_same st st1 st2 :
  extends st st1 ->
  vars st2 = vars st1 ->
  vars_queue st2 = vars_queue st1 ->
  (packetdrill_key_set st1 = true -> packetdrill_key_set st2 = true) ->
  (kernel_key_set st1 = true -> kernel_key_set st2 = true) ->
  (random_draws st1 <= random_draws st2)%nat ->
  map endpoints (subflows st2) = map endpoints (subflows st1) ->
  extends st st2.
Proof.
  intros H Hv Hq Hp Hk Hd Hs. apply (extends_trans _ _ _ H).
  repeat split; auto.
  - exists []. split; [exact Hv | constructor].
  - exists []. now rewrite Hq.
  - exists []. exact Hs.
Qed.

Lemma extends_update_subflow st st1 k f :
  (forall s, endpoints (f s) = endpoints s) ->
  extends st st1 -> extends st (update_subflow k f st1).
Proof.
  intros Hf H. apply (extends_same _ _ _ H); auto.
  unfold update_subflow, subflow_at. cbn [subflows with_subflows].
  now apply map_replace_nth_same.
Qed.

Lemma extends_add_mp_var_key st st1 n slot st2 :
  add_mp_var_key n slot st1 = Done st2 ->
  extends st st1 -> extends st st2.
Proof.
  unfold add_mp_var_key. destruct (save_mp_var_name n); [|discriminate].
  cbn [bind]. intros E H. injection E as <-.
  apply (extends_trans _ _ _ H). repeat split; auto.
  - eexists [_]. split; [reflexivity|]. repeat constructor.
  - now exists [].
  - now exists [].
Qed.

Lemma extends_find_next_key st st1 key st2 :
  find_next_key st1 = Done (key, st2) ->
  extends st st1 -> extends st st2.
Proof.
  unfold find_next_key, dequeue_var, queue_dequeue.
  destruct (vars_queue st1) as [|n q] eqn:Hq.
  - intros E H. now injection E as _ <-.
  - destruct (find_mp_var n _) as [var|]; [|discriminate]. cbn [bind].
    intros E H.
    assert (Hst : st2 = with_vars_queue q st1).
    { destruct var as [var|]; [destruct (negb _)|]; now injection E as _ <-. }
    subst st2. apply (extends_trans _ _ _ H). repeat split; auto.
    + exists []. split; [reflexivity | constructor].
    + exists [n]. exact Hq.
    + now exists [].
Qed.

Lemma extends_mptcp_gen_key st st1 error st2 :
  mptcp_gen_key st1 = Done (error, st2) ->
  extends st st1 -> extends st st2.
Proof.
  unfold mptcp_gen_key, rand_64. intros E H. returned E;
    repeat match goal with
           | E : Done _ = Done _ |- _ => injection E as E; subst
           | E : add_mp_var_key _ _ _ = Done _ |- _ =>
               apply (extends_add_mp_var_key _ _ _ _ _ E); clear E
           end;
    try exact H; apply (extends_same _ _ _ H); auto; cbn; lia.
Qed.

Lemma extends_mptcp_set_mp_cap_syn_key st st1 o error st2 o' :
  mptcp_set_mp_cap_syn_key o st1 = Done (error, st2, o') ->
  extends st st1 -> extends st st2.
Proof.
  unfold mptcp_set_mp_cap_syn_key. intros E H. returned E;
    repeat match goal with
           | E : Done _ = Done _ |- _ => injection E as E; subst
           end;
    eapply extends_find_next_key; eassumption.
Qed.

Lemma extends_mptcp_set_mp_cap_keys st st1 o error st2 o' :
  mptcp_set_mp_cap_keys o st1 = Done (error, st2, o') ->
  extends st st1 -> extends st st2.
Proof.
  unfold mptcp_set_mp_cap_keys. intros E H. returned E;
    repeat match goal with
           | E : Done _ = Done _ |- _ => injection E as E; subst
           end;
    repeat match goal with
           | E : find_next_key _ = Done (_, ?b) |- extends _ ?b =>
               apply (extends_find_next_key _ _ _ _ E); clear E
           end;
    exact H.
Qed.

Lemma extends_extract_and_set_kernel_key st st1 live error st2 :
  extract_and_set_kernel_key live st1 = Done (error, st2) ->
  extends st st1 -> extends st st2.
Proof.
  unfold extract_and_set_kernel_key. intros E H. returned E;
    repeat match goal with
           | E : Done _ = Done _ |- _ => injection E as E; subst
           | E : add_mp_var_key _ _ _ = Done _ |- _ =>
               apply (extends_add_mp_var_key _ _ _ _ _ E); clear E
           end;
    try exact H; apply (extends_same _ _ _ H); auto.
Qed.

Lemma extends_new_subflow_inbound st st1 p r st2 :
  new_subflow_inbound p st1 = (r, st2) ->
  extends st st1 -> extends st st2.
Proof.
  unfold new_subflow_inbound, generate_32. intros E H.
  apply (extends_trans _ _ _ H).
  destruct (ipv4 p); [|destruct (ipv6 p)]; injection E as <- <-;
    try apply extends_refl.
  all: repeat split; auto.
  all: try (exists []; split; [reflexivity | constructor]).
  all: try (now exists []).
  all: try (cbn; lia).
  all: eexists [_]; reflexivity.
Qed.

Lemma extends_new_subflow_outbound st st1 p r st2 :
  new_subflow_outbound p st1 = (r, st2) ->
  extends st st1 -> extends st st2.
Proof.
  unfold new_subflow_outbound. intros E H.
  apply (extends_trans _ _ _ H).
  destruct (get_tcp_option p TCPOPT_MPTCP);
    [destruct (ipv4 p); [|destruct (ipv6 p)]|]; injection E as <- <-;
    try apply extends_refl.
  all: repeat split; auto.
  all: try (exists []; split; [reflexivity | constructor]).
  all: try (now exists []).
  all: eexists [_]; reflexivity.
Qed.

End Growth.

Ltac grow :=
  repeat match goal with
         | E : Done _ = Done _ |- _ => injection E as E; subst
         | E : (_, _) = (_, _) |- _ => injection E as E; subst
         end;
  repeat first
    [ assumption
    | match goal with
      | E : mptcp_gen_key _ = Done (_, ?b) |- extends _ ?b =>
          apply (extends_mptcp_gen_key _ _ _ _ E); clear E
      | E : mptcp_set_mp_cap_syn_key _ _ = Done (_, ?b, _) |- extends _ ?b =>
          apply (extends_mptcp_set_mp_cap_syn_key _ _ _ _ _ _ E); clear E
      | E : mptcp_set_mp_cap_keys _ _ = Done (_, ?b, _) |- extends _ ?b =>
          apply (extends_mptcp_set_mp_cap_keys _ _ _ _ _ _ E); clear E
      | E : extract_and_set_kernel_key _ _ = Done (_, ?b) |- extends _ ?b =>
          apply (extends_extract_and_set_kernel_key _ _ _ _ _ E); clear E
      | E : new_subflow_inbound _ _ = (_, ?b) |- extends _ ?b =>
          apply (extends_new_subflow_inbound _ _ _ _ _ E); clear E
      | E : new_subflow_outbound _ _ = (_, ?b) |- extends _ ?b =>
          apply (extends_new_subflow_outbound _ _ _ _ _ E); clear E
      | |- extends _ (update_subflow _ _ _) =>
          apply extends_update_subflow; [intros; reflexivity|]
      | |- extends ?a ?a => apply extends_refl
      | |- extends _ (with_initial_dsn _ ?b) =>
          apply (extends_same _ b); auto
      | |- extends _ (with_last_packetdrill_addr_id _ ?b) =>
          apply (extends_same _ b); auto
      | |- extends _ (with_random_draws _ ?b) =>
          apply (extends_same _ b); [ | auto .. | cbn; lia | auto ]
      end ].

Section GrowthOfHandlers.
Context {host : Host} {hdr : Header} {proc : Process}.

Lemma extends_mptcp_subtype_mp_capable st p live i direction error st' p' :
  mptcp_subtype_mp_capable st p live i direction = Done (error, st', p') ->
  extends st st'.
Proof.
  unfold mptcp_subtype_mp_capable. intros H. returned H; grow.
Qed.

Lemma extends_mptcp_subtype_mp_join st p live i direction error st' p' :
  mptcp_subtype_mp_join st p live i direction = Done (error, st', p') ->
  extends st st'.
Proof.
  unfold mptcp_subtype_mp_join, generate_32. intros H. returned H; grow.
Qed.

Lemma extends_mptcp_subtype_dss st p live i direction error st' p' :
  mptcp_subtype_dss st p live i direction = Done (error, st', p') ->
  extends st st'.
Proof.
  unfold mptcp_subtype_dss. intros H. returned H; grow.
Qed.

Lemma extends_mptcp_subtype_switch st p live i direction error st' p' :
  mptcp_subtype_switch st p live i direction = Done (error, st', p') ->
  extends st st'.
Proof.
  unfold mptcp_subtype_switch.
  destruct (_ =? MP_CAPABLE_SUBTYPE);
    [apply extends_mptcp_subtype_mp_capable|].
  destruct (_ =? MP_JOIN_SUBTYPE); [apply extends_mptcp_subtype_mp_join|].
  destruct (_ =? DSS_SUBTYPE); [apply extends_mptcp_subtype_dss|].
  intros H. injection H as _ <- _. apply extends_refl.
Qed.

Lemma extends_options_loop remaining :
  forall i st p live direction error st' p',
    options_loop remaining i st p live direction = Done (error, st', p') ->
    extends st st'.
Proof.
  induction remaining as [|remaining IH];
    intros i st p live direction error st' p' H; cbn [options_loop] in H.
  - injection H as _ <- _. apply extends_refl.
  - destruct (opt_kind (option_at p i) =? TCPOPT_MPTCP); [|now apply IH in H].
    destruct (mptcp_subtype_switch st p live i direction)
      as [[[e st1] p1]|] eqn:E; [|discriminate].
    cbn [bind] in H. apply extends_mptcp_subtype_switch in E.
    destruct (negb (e =? 0)).
    + injection H as _ <- _. exact E.
    + apply IH in H. exact (extends_trans _ _ _ E H).
Qed.

End GrowthOfHandlers.

Section Invariants.
Context {host : Host} {hdr : Header} {proc : Process}.

(** X20.  Handling a packet never removes or changes a variable, and the
    ones it adds, in front of the others, are bound to keys of the session
    (not marked as defined by the script); of the queue of pending names it
    only takes names from the front. *)
Theorem packets_only_add_variables st p live direction error st' p' :
  mptcp_insert_and_extract_opt_fields st p live direction =
    Done (error, st', p') ->
  (exists new,
     vars st' = new ++ vars st /\
     Forall (fun var => script_defined var = false) new) /\
  (exists used, vars_queue st = used ++ vars_queue st').
Proof.
  unfold mptcp_insert_and_extract_opt_fields. intros H.
  apply extends_options_loop in H. destruct H as (Hvars & Hqueue & _).
  split; assumption.
Qed.

(** X21.  Handling a packet, whatever its options and whatever the status
    returned, never clears the flag of a key that was set and never takes
    back a number drawn from the generator. *)
Theorem key_flags_stay_set st p live direction error st' p' :
  mptcp_insert_and_extract_opt_fields st p live direction =
    Done (error, st', p') ->
  (packetdrill_key_set st = true -> packetdrill_key_set st' = true) /\
  (kernel_key_set st = true -> kernel_key_set st' = true) /\
  (random_draws st <= random_draws st')%nat.
Proof.
  unfold mptcp_insert_and_extract_opt_fields. intros H.
  apply extends_options_loop in H.
  destruct H as (_ & _ & Hp & Hk & Hd & _). repeat split; assumption.
Qed.

Lemma first_match_same_endpoints matches :
  (forall s s', endpoints s = endpoints s' -> matches s = matches s') ->
  forall l l',
    map endpoints l' = map endpoints l ->
    first_match matches l' = first_match matches l.
Proof.
  intros Hm. induction l as [|s r IH]; intros [|s' r'] H;
    try discriminate H; [reflexivity|].
  cbn [map] in H.
  assert (Hs : endpoints s' = endpoints s) by congruence.
  assert (Hr : map endpoints r' = map endpoints r) by congruence.
  cbn [first_match]. now rewrite (Hm _ _ Hs), (IH _ Hr).
Qed.

Lemma first_match_older matches :
  (forall s s', endpoints s = endpoints s' -> matches s = matches s') ->
  forall new l l',
    map endpoints l' = new ++ map endpoints l ->
    first_match matches l <> None -> first_match matches l' <> None.
Proof.
  intros Hm. induction new as [|e new IH]; intros l l' H Hfound.
  - now rewrite (first_match_same_endpoints _ Hm _ _ H).
  - destruct l' as [|s' r']; [discriminate H|].
    cbn [map app] in H.
    assert (Hr : map endpoints r' = new ++ map endpoints l) by congruence.
    cbn [first_match].
    destruct (matches s'); [discriminate|].
    specialize (IH _ _ Hr Hfound).
    destruct (first_match matches r'); [discriminate | now elim IH].
Qed.

(** X22.  Handling a packet never removes a subflow and never changes the
    addresses, the ports or the packetdrill address id of one: the subflows
    after are those before, in the same order, behind the ones just
    opened.  So a packet that matched a subflow before still matches one
    after. *)
Theorem subflows_stay_in_place st p live direction error st' p' :
  mptcp_insert_and_extract_opt_fields st p live direction =
    Done (error, st', p') ->
  (exists new,
     map endpoints (subflows st') = new ++ map endpoints (subflows st)) /\
  (forall q,
     find_subflow_matching_inbound_packet q st <> None ->
     find_subflow_matching_inbound_packet q st' <> None) /\
  (forall q,
     find_subflow_matching_outbound_packet q st <> None ->
     find_subflow_matching_outbound_packet q st' <> None).
Proof.
  unfold mptcp_insert_and_extract_opt_fields. intros H.
  apply extends_options_loop in H.
  destruct H as (_ & _ & _ & _ & _ & (new & Hnew)).
  split; [now exists new|].
  split; intros q; apply (first_match_older _) with (new := new);
    try exact Hnew; intros s s' Hs; unfold endpoints in Hs;
    injection Hs as _ _ Hsrc Hdst _;
    unfold does_subflow_match_inbound_packet,
      does_subflow_match_outbound_packet; now rewrite Hsrc, Hdst.
Qed.

Lemma free_vars_values l :
  Forall (fun var => script_defined var = true ->
                     exists bytes, value var = Buffer bytes) l ->
  Forall (fun freed => match freed with
                       | FreedValue (KeyPtr _) => False
                       | _ => True
                       end)
    (flat_map
       (fun var =>
          FreedName var ::
          (if mptcp_subtype var =? MP_CAPABLE_SUBTYPE
           then if script_defined var then [FreedValue (value var)] else []
           else []) ++
          [FreedVar var]) l).
Proof.
  induction 1 as [|var l Hvar _ IH]; cbn [flat_map]; [constructor|].
  apply Forall_app. split; [|exact IH].
  constructor; [exact I|]. apply Forall_app. split; [|repeat constructor].
  destruct (_ =? _); [|constructor].
  destruct (script_defined var); [|constructor].
  destruct (Hvar eq_refl) as (bytes & ->). repeat constructor.
Qed.

(** X23.  In every state the engine can be in, [free_vars] never calls
    [free] on the address of a key of the session: the values it frees are
    blocks that [add_mp_var_script_defined] allocated. *)
Theorem free_vars_frees_no_key st :
  reachable st ->
  Forall (fun freed => match freed with
                       | FreedValue (KeyPtr _) => False
                       | _ => True
                       end) (free_vars st).
Proof.
  intros Hreach. unfold free_vars. apply free_vars_values.
  apply Forall_rev.
  induction Hreach as [| st name error st' _ IH H
                       | st name value length st' _ IH H
                       | st p live direction error st' p' _ IH H].
  - constructor.
  - unfold enqueue_var in H. returned H.
    repeat match goal with
           | E : Done _ = Done _ |- _ => injection E as E; subst
           | E : (_, _) = (_, _) |- _ => injection E as E; subst
           end; exact IH.
  - unfold add_mp_var_script_defined in H. returned H.
    injection H as <-. constructor; [|exact IH].
    intros _. now eexists.
  - unfold mptcp_insert_and_extract_opt_fields in H.
    apply extends_options_loop in H.
    destruct H as ((new & -> & Hnew) & _).
    apply Forall_app. split; [|exact IH].
    eapply Forall_impl; [|exact Hnew].
    intros var Hvar Hdefined. congruence.
Qed.

End Invariants.

Lemma packets_only_add_variables_witness :
  exists st' p',
    @mptcp_insert_and_extract_opt_fields little_endian_lp64 rfc6824
      quiet_process (after_enqueue name_c st_start) syn_packet syn_packet
      DIRECTION_INBOUND = Done (STATUS_OK, st', p') /\
    (exists new,
       vars st' = new ++ vars (after_enqueue name_c st_start) /\
       Forall (fun var => script_defined var = false) new) /\
    (exists used,
       vars_queue (after_enqueue name_c st_start) = used ++ vars_queue st').
Proof.
  eassert (Hrun :
    @mptcp_insert_and_extract_opt_fields little_endian_lp64 rfc6824
      quiet_process (after_enqueue name_c st_start) syn_packet syn_packet
      DIRECTION_INBOUND = Done (STATUS_OK, _, _)) by (vm_compute; reflexivity).
  do 2 eexists. split; [exact Hrun|].
  exact (@packets_only_add_variables little_endian_lp64 rfc6824
           quiet_process _ _ _ _ _ _ _ Hrun).
Defined.

Lemma key_flags_stay_set_witness :
  exists st' p',
    @mptcp_insert_and_extract_opt_fields little_endian_lp64 rfc6824
      quiet_process (after_enqueue name_s (after_enqueue name_c st_syn_ack))
      ack_packet ack_packet DIRECTION_INBOUND = Done (STATUS_OK, st', p') /\
    packetdrill_key_set st' = true /\
    kernel_key_set st' = true.
Proof.
  eassert (Hrun :
    @mptcp_insert_and_extract_opt_fields little_endian_lp64 rfc6824
      quiet_process (after_enqueue name_s (after_enqueue name_c st_syn_ack))
      ack_packet ack_packet DIRECTION_INBOUND = Done (STATUS_OK, _, _))
    by (vm_compute; reflexivity).
  do 2 eexists. split; [exact Hrun|].
  destruct (@key_flags_stay_set little_endian_lp64 rfc6824 quiet_process
              _ _ _ _ _ _ _ Hrun) as (Hp & Hk & _).
  split; [apply Hp | apply Hk]; reflexivity.
Defined.

Lemma subflows_stay_in_place_witness :
  exists st' p',
    @mptcp_insert_and_extract_opt_fields little_endian_lp64 rfc6824
      quiet_process st_established join_syn_packet join_syn_packet
      DIRECTION_INBOUND = Done (STATUS_OK, st', p') /\
    @find_subflow_matching_inbound_packet little_endian_lp64
      dss_packet_1 st' <> None.
Proof.
  eassert (Hrun :
    @mptcp_insert_and_extract_opt_fields little_endian_lp64 rfc6824
      quiet_process st_established join_syn_packet join_syn_packet
      DIRECTION_INBOUND = Done (STATUS_OK, _, _)) by (vm_compute; reflexivity).
  do 2 eexists. split; [exact Hrun|].
  apply (proj1 (proj2 (@subflows_stay_in_place little_endian_lp64 rfc6824
                         quiet_process _ _ _ _ _ _ _ Hrun))).
  vm_compute. discriminate.
Defined.

Lemma reachable_st_script_defined_k :
  @reachable little_endian_lp64 rfc6824 quiet_process st_script_defined_k.
Proof.
  apply (@reachable_enqueue_var little_endian_lp64 rfc6824 quiet_process
           (match @add_mp_var_script_defined rfc6824 name_k (le_bytes 8 7) 8
                    st_established with
            | Done st => st
            | Undefined => st_established
            end) name_k STATUS_OK); [|vm_compute; reflexivity].
  apply (@reachable_script_defined little_endian_lp64 rfc6824 quiet_process
           st_established name_k (le_bytes 8 7) 8);
    [|vm_compute; reflexivity].
  exact reachable_st_established.
Defined.

Lemma free_vars_frees_no_key_witness :
  In (FreedValue (Buffer [7; 0; 0; 0; 0; 0; 0; 0]))
     (@free_vars rfc6824 st_script_defined_k) /\
  Forall (fun freed => match freed with
                       | FreedValue (KeyPtr _) => False
                       | _ => True
                       end) (@free_vars rfc6824 st_script_defined_k).
Proof.
  split.
  - vm_compute. tauto.
  - exact (@free_vars_frees_no_key little_endian_lp64 rfc6824 quiet_process
             st_script_defined_k reachable_st_script_defined_k).
Defined.

(** ** What handling a packet keeps of the packet *)

Section Shape.
Context {host : Host} {hdr : Header} {proc : Process}.


Lemma store_option_same p i :
  store_option p i (option_at p i) = p.
Proof.
  unfold store_option, option_at. destruct p as [b v4 v6 t options].
  cbn [ip_bytes ipv4 ipv6 tcp tcp_options]. f_equal.
  revert i. induction options as [|o r IH]; intros i; [now destruct i|].
  destruct i; simpl; [reflexivity | now rewrite IH].
Qed.

Lemma same_option_shape_refl o : same_option_shape o o.
Proof. repeat split. Qed.













Lemma options_loop_skips st p live direction :
  Forall (fun o => opt_kind o <> TCPOPT_MPTCP) (tcp_options p) ->
  forall remaining i,
    (i + remaining <= List.length (tcp_options p))%nat ->
    options_loop remaining i st p live direction = Done (STATUS_OK, st, p).
Proof.
  intros Hall. induction remaining as [|remaining IH]; intros i Hi;
    cbn [options_loop]; [reflexivity|].
  assert (Hkind : (opt_kind (option_at p i) =? TCPOPT_MPTCP) = false).
  { apply Z.eqb_neq. unfold option_at.
    apply (proj1 (Forall_nth _ _) Hall). lia. }
  rewrite Hkind. apply IH. lia.
Qed.

(** X25.  A packet none of whose options is an MPTCP option, and so a
    packet without options, goes through the entry point untouched: the
    status is STATUS_OK, and neither the state nor the packet changes,
    whatever the direction. *)
Theorem entry_skips_other_options st p live direction :
  Forall (fun o => opt_kind o <> TCPOPT_MPTCP) (tcp_options p) ->
  mptcp_insert_and_extract_opt_fields st p live direction =
    Done (STATUS_OK, st, p).
Proof.
  intros Hall. unfold mptcp_insert_and_extract_opt_fields.
  apply (options_loop_skips _ _ _ _ Hall). lia.
Qed.

Lemma options_loop_status remaining :
  forall i st p live direction error st' p',
    options_loop remaining i st p live direction = Done (error, st', p') ->
    error = STATUS_OK \/ error = STATUS_ERR.
Proof.
  induction remaining as [|remaining IH];
    intros i st p live direction error st' p' H; cbn [options_loop] in H.
  - injection H as <- _ _. now left.
  - destruct (opt_kind (option_at p i) =? TCPOPT_MPTCP); [|now apply IH in H].
    destruct (mptcp_subtype_switch st p live i direction)
      as [[[e st1] p1]|]; [|discriminate].
    cbn [bind] in H. destruct (negb (e =? 0)).
    + injection H as <- _ _. now right.
    + now apply IH in H.
Qed.

(** X26.  The entry point returns STATUS_OK or STATUS_ERR and no other
    status: a status of a handler that is neither (the MP_CAPABLE handler
    combines two statuses with [||], which can give 1) is not passed on. *)
Theorem entry_status_is_ok_or_err st p live direction error st' p' :
  mptcp_insert_and_extract_opt_fields st p live direction =
    Done (error, st', p') ->
  error = STATUS_OK \/ error = STATUS_ERR.
Proof. apply options_loop_status. Qed.

End Shape.

(** ** What only the MP_CAPABLE handshake touches *)

Section SessionFrame.
Context {host : Host} {hdr : Header} {proc : Process}.

(** X27.  An option whose subtype is not MP_CAPABLE, whether it is handled
    as MP_JOIN or as DSS or refused as unknown, leaves the keys and their
    flags, the variables, the queue of pending names, [initial_dsn] and
    [initial_dack] as they were: only the MP_CAPABLE handshake writes
    them. *)
Theorem only_mp_capable_touches_session st p live i direction error st' p' :
  mp_capable_subtype (option_at p i) <> MP_CAPABLE_SUBTYPE ->
  mptcp_subtype_switch st p live i direction = Done (error, st', p') ->
  packetdrill_key st' = packetdrill_key st /\
  kernel_key st' = kernel_key st /\
  packetdrill_key_set st' = packetdrill_key_set st /\
  kernel_key_set st' = kernel_key_set st /\
  vars st' = vars st /\
  vars_queue st' = vars_queue st /\
  initial_dsn st' = initial_dsn st /\
  initial_dack st' = initial_dack st.
Proof.
  intros Hsub. apply Z.eqb_neq in Hsub. unfold mptcp_subtype_switch.
  rewrite Hsub.
  unfold mptcp_subtype_mp_join, mptcp_subtype_dss, new_subflow_inbound,
    new_subflow_outbound, generate_32, update_subflow.
  intros H. returned H;
    repeat match goal with
           | E : Done _ = Done _ |- _ => injection E as E; subst
           | E : (_, _) = (_, _) |- _ => injection E as E; subst
           end; repeat split.
Qed.

(** X28.  An inbound DSS option that carries no DSN, or whose length is
    neither of the two lengths of a DSN of eight octets, is accepted with
    STATUS_OK and without a change of the state: no subflow is looked up
    and no sequence number moves.  When it carries no data ack either, the
    packet comes back as it went in. *)
Theorem dss_without_dsn_keeps_state st p live i :
  dss_flag_dsn (option_at p i) = false \/
  (opt_length (option_at p i) <> TCPOLEN_DSS_DSN8 /\
   opt_length (option_at p i) <> TCPOLEN_DSS_DSN8_WOCS) ->
  exists p',
    mptcp_subtype_dss st p live i DIRECTION_INBOUND =
      Done (STATUS_OK, st, p') /\
    (dss_flag_dack (option_at p i) = false -> p' = p).
Proof.
  intros Hno. unfold mptcp_subtype_dss.
  assert (Hfirst : dss_flag_dsn (option_at p i) &&
                   (opt_length (option_at p i) =? TCPOLEN_DSS_DSN8) = false).
  { destruct Hno as [-> | [Hlen _]]; [reflexivity|].
    apply Z.eqb_neq in Hlen. rewrite Hlen. apply andb_false_r. }
  assert (Hsecond : dss_flag_dsn (option_at p i) &&
                    (opt_length (option_at p i) =? TCPOLEN_DSS_DSN8_WOCS) =
                    false).
  { destruct Hno as [-> | [_ Hlen]]; [reflexivity|].
    apply Z.eqb_neq in Hlen. rewrite Hlen. apply andb_false_r. }
  rewrite Hfirst, Hsecond. cbn [bind].
  eexists. split; [reflexivity|].
  intros ->. apply store_option_same.
Qed.

(** X29.  An inbound MP_CAPABLE SYN for which the script queued no name:
    both steps fail, the status is 1 (the two STATUS_ERR combined by [||])
    and not STATUS_ERR, and neither the state nor the packet changes; no
    key is generated. *)
Theorem mp_capable_syn_without_name st p live i :
  vars_queue st = [] ->
  opt_length (option_at p i) = TCPOLEN_MP_CAPABLE_SYN ->
  tcp_syn (tcp p) = true ->
  mptcp_subtype_mp_capable st p live i DIRECTION_INBOUND = Done (1, st, p).
Proof.
  intros Hq Hlen Hsyn. unfold mptcp_subtype_mp_capable.
  rewrite Hlen, Hsyn, Z.eqb_refl. cbn [andb negb].
  assert (Hgen : mptcp_gen_key st = Done (STATUS_ERR, st)).
  { unfold mptcp_gen_key. now rewrite Hq. }
  assert (Hset : mptcp_set_mp_cap_syn_key (option_at p i) st =
                 Done (STATUS_ERR, st, option_at p i)).
  { unfold mptcp_set_mp_cap_syn_key, find_next_key, dequeue_var.
    now rewrite Hq. }
  destruct (tcp_ack (tcp p)); cbn [negb];
    rewrite ?Hgen; cbn [bind]; rewrite ?Hset; cbn [bind];
    rewrite ?store_option_same, ?andb_false_r; cbn [andb]; reflexivity.
Qed.

(** X30.  The DSS handler keeps the number of subflows, leaves every
    subflow other than the one the packet matches as it was, and of that
    one changes at most the sequence number. *)
Theorem dss_touches_one_subflow st p live i direction error st' p' :
  mptcp_subtype_dss st p live i direction = Done (error, st', p') ->
  List.length (subflows st') = List.length (subflows st) /\
  (forall j,
     find_subflow_matching_inbound_packet p st <> Some j ->
     subflow_at st' j = subflow_at st j) /\
  (forall j,
     with_subflow_sequence_number 0 (subflow_at st' j) =
     with_subflow_sequence_number 0 (subflow_at st j)).
Proof.
  unfold mptcp_subtype_dss. intros H. returned H;
    repeat match goal with
           | E : Done _ = Done _ |- _ => injection E as E; subst
           | E : (_, _) = (_, _) |- _ => injection E as E; subst
           end;
    try (repeat split; reflexivity).
  all: match goal with
       | E : find_subflow_matching_inbound_packet _ _ = Some ?k |- _ =>
           pose proof (find_inbound_bound _ _ _ E) as Hk
       end.
  all: split;
    [ unfold update_subflow; cbn [subflows with_subflows];
      apply replace_nth_length |].
  all: split; intros j; [intros Hj|].
  all: try (apply subflow_at_update_subflow_other; congruence).
  all: match goal with
       | |- context [update_subflow ?k _ _] =>
           destruct (Nat.eq_dec k j) as [<- | Hkj];
             [ rewrite (subflow_at_update_subflow _ _ _ Hk); reflexivity
             | rewrite (subflow_at_update_subflow_other _ _ _ _ Hkj);
               reflexivity ]
       end.
Qed.

End SessionFrame.


Lemma entry_skips_other_options_witness :
  @mptcp_insert_and_extract_opt_fields little_endian_lp64 rfc6824
    quiet_process st_established
    (tcp_packet 44 1000 2000 true false 6
       [Build_tcp_option 2 4 0 0 0 0 0 0 0 0 0 [] false false 0 0 0 0 0 0 0])
    syn_packet DIRECTION_INBOUND =
  Done (STATUS_OK, st_established,
        tcp_packet 44 1000 2000 true false 6
          [Build_tcp_option 2 4 0 0 0 0 0 0 0 0 0 [] false false
             0 0 0 0 0 0 0]).
Proof.
  apply (@entry_skips_other_options little_endian_lp64 rfc6824 quiet_process).
  constructor; [|constructor]. vm_compute. discriminate.
Defined.

Lemma entry_status_is_ok_or_err_witness :
  exists error st' p',
    @mptcp_insert_and_extract_opt_fields little_endian_lp64 rfc6824
      quiet_process st_start syn_packet syn_packet DIRECTION_INBOUND =
      Done (error, st', p') /\
    (error = STATUS_OK \/ error = STATUS_ERR).
Proof.
  eassert (Hrun :
    @mptcp_insert_and_extract_opt_fields little_endian_lp64 rfc6824
      quiet_process st_start syn_packet syn_packet DIRECTION_INBOUND =
      Done (_, _, _)) by (vm_compute; reflexivity).
  do 3 eexists. split; [exact Hrun|].
  exact (@entry_status_is_ok_or_err little_endian_lp64 rfc6824 quiet_process
           _ _ _ _ _ _ _ Hrun).
Defined.

Lemma only_mp_capable_touches_session_witness :
  exists st' p',
    @mptcp_subtype_switch little_endian_lp64 rfc6824 quiet_process
      st_established join_syn_packet join_syn_packet 0 DIRECTION_INBOUND =
      Done (STATUS_OK, st', p') /\
    packetdrill_key st' = packetdrill_key st_established /\
    vars st' = vars st_established.
Proof.
  eassert (Hrun :
    @mptcp_subtype_switch little_endian_lp64 rfc6824 quiet_process
      st_established join_syn_packet join_syn_packet 0 DIRECTION_INBOUND =
      Done (STATUS_OK, _, _)) by (vm_compute; reflexivity).
  do 2 eexists. split; [exact Hrun|].
  assert (Hsub : mp_capable_subtype (option_at join_syn_packet 0) <>
                 @MP_CAPABLE_SUBTYPE rfc6824) by (vm_compute; discriminate).
  destruct (@only_mp_capable_touches_session little_endian_lp64 rfc6824
              quiet_process _ _ _ _ _ _ _ _ Hsub Hrun)
    as (Hkey & _ & _ & _ & Hvars & _).
  split; [exact Hkey | exact Hvars].
Defined.

Lemma dss_without_dsn_keeps_state_witness :
  exists p',
    @mptcp_subtype_dss little_endian_lp64 rfc6824 quiet_process
      st_established
      (tcp_packet 1060 1000 2000 false true 10 [mptcp_option 20 2])
      (tcp_packet 1060 1000 2000 false true 10 [mptcp_option 20 2])
      0 DIRECTION_INBOUND = Done (STATUS_OK, st_established, p') /\
    p' = tcp_packet 1060 1000 2000 false true 10 [mptcp_option 20 2].
Proof.
  destruct (@dss_without_dsn_keeps_state little_endian_lp64 rfc6824
              quiet_process st_established
              (tcp_packet 1060 1000 2000 false true 10 [mptcp_option 20 2])
              (tcp_packet 1060 1000 2000 false true 10 [mptcp_option 20 2])
              0%nat)
    as (p' & Hrun & Hsame).
  - left. reflexivity.
  - exists p'. split; [exact Hrun|]. apply Hsame. reflexivity.
Defined.

Lemma mp_capable_syn_without_name_witness :
  @mptcp_subtype_mp_capable little_endian_lp64 rfc6824 quiet_process
    st_start syn_packet syn_packet 0 DIRECTION_INBOUND =
  Done (1, st_start, syn_packet).
Proof.
  apply (@mp_capable_syn_without_name little_endian_lp64 rfc6824
           quiet_process); reflexivity.
Defined.

Lemma dss_touches_one_subflow_witness :
  exists st' p',
    @mptcp_subtype_dss little_endian_lp64 rfc6824 quiet_process
      st_established dss_packet_1 dss_packet_1 0 DIRECTION_INBOUND =
      Done (STATUS_OK, st', p') /\
    List.length (subflows st') = List.length (subflows st_established).
Proof.
  eassert (Hrun :
    @mptcp_subtype_dss little_endian_lp64 rfc6824 quiet_process
      st_established dss_packet_1 dss_packet_1 0 DIRECTION_INBOUND =
      Done (STATUS_OK, _, _)) by (vm_compute; reflexivity).
  do 2 eexists. split; [exact Hrun|].
  exact (proj1 (@dss_touches_one_subflow little_endian_lp64 rfc6824
                  quiet_process _ _ _ _ _ _ _ _ Hrun)).
Defined.
